(** * The PDB Dbi stream decoder: [lib/DebugInfo/PDB/Raw/DbiStream.cpp]

    A shallow embedding of [DbiStream::reload] and of the functions it
    calls, followed by the properties of the decoder that the design
    document states about it.

    Conventions.
    - Integers are [Z]; every C++ conversion that can change a value
      ([int32_t] to [size_t], [size_t] to [uint32_t], 32-bit accumulation)
      is written out with an explicit wrap-around.  [size_t] is 64 bits
      wide (LP64).
    - A stream, a [StreamRef] and a [StringRef] are lists of bytes.
    - A C++ function returning [Error] or [Expected<T>] returns a
      [Result]: the value, the error, or [OutOfBounds] when the code
      indexes an array outside of its bounds (undefined behaviour in the
      source, an assertion failure in a debug build). *)

From Stdlib Require Import ZArith Lia.
From Stdlib Require Strings.Byte.
From stdpp Require Import base numbers list strings.

Local Open Scope Z_scope.

(** ** Machine integers *)

Module Int.

Definition to_uint32 (x : Z) : Z := x mod 2 ^ 32.
Definition to_size_t (x : Z) : Z := x mod 2 ^ 64.

(** Two's complement reading of a 32-bit pattern ([little32_t]). *)
Definition to_int32 (x : Z) : Z :=
  let u := to_uint32 x in
  if decide (u < 2 ^ 31) then u else u - 2 ^ 32.

(** [a + b] computed in [size_t]. *)
Definition size_t_add (a b : Z) : Z := to_size_t (a + b).

(** [a + b] computed in [uint32_t]. *)
Definition uint32_add (a b : Z) : Z := to_uint32 (a + b).

End Int.

(** ** Bytes and little-endian fields ([llvm::support::endian]) *)

Abbreviation byte := Byte.byte.

#[global] Instance byte_eq_dec : EqDecision byte := Byte.byte_eq_dec.

Definition byte_val (b : byte) : Z := Z.of_N (Byte.to_N b).

Definition byte_of_Z (z : Z) : byte :=
  default Byte.x00 (Byte.of_N (Z.to_N (z mod 256))).

(** Value of a little-endian byte string. *)
Fixpoint le_value (bs : list byte) : Z :=
  match bs with
  | [] => 0
  | b :: bs' => byte_val b + 256 * le_value bs'
  end.

Definition ulittle16 (bs : list byte) : Z := le_value (take 2 bs).
Definition ulittle32 (bs : list byte) : Z := le_value (take 4 bs).
Definition little32 (bs : list byte) : Z := Int.to_int32 (ulittle32 bs).

(** Encoders, used to write sample streams. *)
Fixpoint le_bytes (n : nat) (z : Z) : list byte :=
  match n with
  | O => []
  | S n' => byte_of_Z z :: le_bytes n' (z / 256)
  end.

Definition put16 (z : Z) : list byte := le_bytes 2 z.
Definition put32 (z : Z) : list byte := le_bytes 4 z.

(** The bytes [Size] long at offset [Off] of a stream
    ([StreamRef::slice]). *)
Definition slice (Off Size : Z) (S : list byte) : list byte :=
  take (Z.to_nat Size) (drop (Z.to_nat Off) S).

(** The elements of a [FixedStreamArray<T>] over a byte range: [count]
    consecutive records of [sz] bytes. *)
Fixpoint records (count sz : nat) (bs : list byte) : list (list byte) :=
  match count with
  | O => []
  | S c => take sz bs :: records c sz (drop sz bs)
  end.

(** ** Errors ([RawError.h]) *)

Inductive raw_error_code :=
| corrupt_file
| feature_unsupported
| no_stream
| index_out_of_bounds.

(** [make_error<RawError>(code, context)]; the context is empty when the
    source gives none. *)
Record Error := RawError { error_code : raw_error_code; error_context : string }.

(** [Expected<T>] of a collaborator. *)
Definition Expected (A : Type) : Type := (Error + A)%type.

Inductive Result (A : Type) :=
| Success (a : A)
| Failure (e : Error)
| OutOfBounds.
Arguments Success {A} a.
Arguments Failure {A} e.
Arguments OutOfBounds {A}.

#[global] Instance Result_ret : MRet Result := fun A a => Success a.
#[global] Instance Result_bind : MBind Result := fun A B f m =>
  match m with
  | Success a => f a
  | Failure e => Failure e
  | OutOfBounds => OutOfBounds
  end.

Definition liftE {A} (x : Expected A) : Result A :=
  match x with
  | inl e => Failure e
  | inr a => Success a
  end.

(** The result is the error [c], whatever its context string. *)
Definition fails_with {A} (r : Result A) (c : raw_error_code) : Prop :=
  exists ctx, r = Failure (RawError c ctx).

Definition succeeds {A} (r : Result A) : Prop := exists a, r = Success a.

(** ** The stream reader *)

Module StreamReader.

(** Modelled from the spec: the [StreamReader] class
    ([DebugInfo/CodeView/StreamReader.h]) is missing from the sources.
    The document describes it as a sequential cursor over an addressable
    byte range supporting fixed-size struct reads, array reads, sub-range
    slicing and zero-terminated string reads, each bounds-checked against
    the range's remaining length; it lists truncation under CorruptFile
    and calls a seek past the end of a buffer corruption. *)
Record t := mk { Stream : list byte; Offset : Z }.

Definition getLength (S : list byte) : Z := Z.of_nat (length S).

Definition bytesRemaining (R : t) : Z := getLength (Stream R) - Offset R.

Definition setOffset (R : t) (Off : Z) : t := mk (Stream R) Off.

Definition truncated : Error := RawError corrupt_file "".

Definition readBytes (R : t) (Size : Z) : Result (list byte * t) :=
  if decide (0 <= Size <= bytesRemaining R)
  then Success (slice (Offset R) Size (Stream R), mk (Stream R) (Offset R + Size))
  else Failure truncated.

(** [readObject] of a structure of [Size] bytes. *)
Definition readObject (R : t) (Size : Z) : Result (list byte * t) :=
  readBytes R Size.

(** [readStreamRef(Ref, Length)]. *)
Definition readStreamRef (R : t) (Length : Z) : Result (list byte * t) :=
  readBytes R Length.

(** [readStreamRef(Ref)]: all the remaining bytes. *)
Definition readStreamRefRest (R : t) : Result (list byte * t) :=
  readStreamRef R (bytesRemaining R).

(** [readArray(FixedStreamArray<T> &, NumItems)] with [sizeof(T) = sz]. *)
Definition readArray (R : t) (NumItems sz : Z) : Result (list (list byte) * t) :=
  '(bs, R') ← readBytes R (NumItems * sz);
  mret (records (Z.to_nat NumItems) (Z.to_nat sz) bs, R').

(** The bytes before the first NUL byte, if there is one. *)
Fixpoint zero_string (bs : list byte) : option (list byte) :=
  match bs with
  | [] => None
  | b :: bs' =>
      if decide (b = Byte.x00) then Some []
      else match zero_string bs' with
           | Some s => Some (b :: s)
           | None => None
           end
  end.

Definition readZeroString (R : t) : Result (list byte * t) :=
  if decide (0 <= Offset R <= getLength (Stream R))
  then match zero_string (drop (Z.to_nat (Offset R)) (Stream R)) with
       | Some s => Success (s, mk (Stream R) (Offset R + Z.of_nat (length s) + 1))
       | None => Failure truncated
       end
  else Failure truncated.

End StreamReader.
Import StreamReader.
Abbreviation StreamReader := StreamReader.t.

(** ** The header ([DbiStream::HeaderInfo]) *)

Record HeaderInfo := {
  VersionSignature : Z;          (* little32_t *)
  VersionHeader : Z;             (* ulittle32_t *)
  Age : Z;                       (* ulittle32_t, should match InfoStream *)
  GlobalSymbolStreamIndex : Z;   (* ulittle16_t *)
  BuildNumber : Z;               (* ulittle16_t *)
  PublicSymbolStreamIndex : Z;   (* ulittle16_t *)
  PdbDllVersion : Z;             (* ulittle16_t *)
  SymRecordStreamIndex : Z;      (* ulittle16_t *)
  PdbDllRbld : Z;                (* ulittle16_t *)
  ModiSubstreamSize : Z;         (* little32_t *)
  SecContrSubstreamSize : Z;     (* little32_t *)
  SectionMapSize : Z;            (* little32_t *)
  FileInfoSize : Z;              (* little32_t *)
  TypeServerSize : Z;            (* little32_t *)
  MFCTypeServerIndex : Z;        (* ulittle32_t *)
  OptionalDbgHdrSize : Z;        (* little32_t *)
  ECSubstreamSize : Z;           (* little32_t *)
  Flags : Z;                     (* ulittle16_t *)
  MachineType : Z;               (* ulittle16_t *)
  Reserved : Z                   (* ulittle32_t, pads to 64 bytes *)
}.

(** [static_assert(sizeof(HeaderInfo) == 64)]. *)
Definition sizeof_HeaderInfo : Z := 64.

(** The header as the 64 bytes at the start of the stream show it. *)
Definition decode_HeaderInfo (bs : list byte) : HeaderInfo := {|
  VersionSignature := little32 (drop 0 bs);
  VersionHeader := ulittle32 (drop 4 bs);
  Age := ulittle32 (drop 8 bs);
  GlobalSymbolStreamIndex := ulittle16 (drop 12 bs);
  BuildNumber := ulittle16 (drop 14 bs);
  PublicSymbolStreamIndex := ulittle16 (drop 16 bs);
  PdbDllVersion := ulittle16 (drop 18 bs);
  SymRecordStreamIndex := ulittle16 (drop 20 bs);
  PdbDllRbld := ulittle16 (drop 22 bs);
  ModiSubstreamSize := little32 (drop 24 bs);
  SecContrSubstreamSize := little32 (drop 28 bs);
  SectionMapSize := little32 (drop 32 bs);
  FileInfoSize := little32 (drop 36 bs);
  TypeServerSize := little32 (drop 40 bs);
  MFCTypeServerIndex := ulittle32 (drop 44 bs);
  OptionalDbgHdrSize := little32 (drop 48 bs);
  ECSubstreamSize := little32 (drop 52 bs);
  Flags := ulittle16 (drop 56 bs);
  MachineType := ulittle16 (drop 58 bs);
  Reserved := ulittle32 (drop 60 bs)
|}.

Definition encode_HeaderInfo (H : HeaderInfo) : list byte :=
  put32 (VersionSignature H) ++ put32 (VersionHeader H) ++ put32 (Age H) ++
  put16 (GlobalSymbolStreamIndex H) ++ put16 (BuildNumber H) ++
  put16 (PublicSymbolStreamIndex H) ++ put16 (PdbDllVersion H) ++
  put16 (SymRecordStreamIndex H) ++ put16 (PdbDllRbld H) ++
  put32 (ModiSubstreamSize H) ++ put32 (SecContrSubstreamSize H) ++
  put32 (SectionMapSize H) ++ put32 (FileInfoSize H) ++
  put32 (TypeServerSize H) ++ put32 (MFCTypeServerIndex H) ++
  put32 (OptionalDbgHdrSize H) ++ put32 (ECSubstreamSize H) ++
  put16 (Flags H) ++ put16 (MachineType H) ++ put32 (Reserved H).

(** ** Constants and layouts declared outside of [DbiStream.cpp]

    The enumerators of [RawConstants.h] and the sizes of the record types
    of [RawTypes.h], [ModInfo.h] and [Object/COFF.h] are parameters of the
    model. *)

Inductive DbgHeaderType := SectionHdr | NewFPO.

Record RawConstants := {
  PdbDbiV70 : Z;
  DbiSecContribVer60 : Z;
  DbiSecContribV2 : Z;
  sizeof_SectionContrib : Z;
  sizeof_SectionContrib2 : Z;
  sizeof_SecMapHeader : Z;
  sizeof_SecMapEntry : Z;
  sizeof_coff_section : Z;
  sizeof_FpoData : Z;
  sizeof_ModInfo_FileLayout : Z;
  (** [static_cast<uint16_t>(Type)] *)
  DbgHeaderType_value : DbgHeaderType -> Z
}.

(** What the code needs of the constants: two distinct contribution
    versions that fit an [uint32_t], and records that are not empty. *)
Definition constants_ok (K : RawConstants) : Prop :=
  DbiSecContribVer60 K <> DbiSecContribV2 K /\
  0 <= DbiSecContribVer60 K < 2 ^ 32 /\
  0 <= DbiSecContribV2 K < 2 ^ 32 /\
  0 < sizeof_SectionContrib K /\
  0 < sizeof_SectionContrib2 K /\
  0 < sizeof_coff_section K /\
  0 < sizeof_FpoData K /\
  0 <= sizeof_ModInfo_FileLayout K /\
  (forall T, 0 <= DbgHeaderType_value K T < 2 ^ 16).

(** Modelled from the spec: the all-ones 16-bit sentinel of the
    debug-stream-index table ([RawConstants.h] is missing). *)
Definition InvalidStreamIndex : Z := 2 ^ 16 - 1.

(** ** Collaborators *)

(** Modelled from the spec: the Info stream ([InfoStream.h]) is missing;
    it supplies the age of the PDB, an [uint32_t]. *)
Record InfoStream := { getAge : Z }.

(** Modelled from the spec: the [PDBFile] class is missing.  The document
    gives its interface: the Info stream with its age, the number of
    streams of the directory, and the bytes of a stream by index. *)
Record PDBFile := {
  getPDBInfoStream : Expected InfoStream;
  getNumStreams : Z;
  createIndexedStream : Z -> Expected (list byte)
}.

(** [NameHashTable::load] ([NameHashTable.h]), called on a reader over
    the bytes of the EC substream; the decoded table is not modelled. *)
Definition NameHashTable_load : Type := list byte -> Expected unit.

(** ** Module records *)

(** Modelled from the spec: [ModInfo] ([ModInfo.h]) is missing.  A module
    record is a fixed-size prefix followed by two inline NUL-terminated
    strings, the object file path and the module name. *)
Record ModInfo := {
  ModInfo_Layout : list byte;
  ModInfo_ObjFileName : list byte;
  ModInfo_ModuleName : list byte
}.

(** [struct ModuleInfoEx { ModInfo Info; std::vector<StringRef> SourceFiles; }] *)
Record ModuleInfoEx := {
  Info : ModInfo;
  SourceFiles : list (list byte)
}.

(** [ModuleInfos.emplace_back(Info)]. *)
Definition ModuleInfoEx_of (I : ModInfo) : ModuleInfoEx :=
  {| Info := I; SourceFiles := [] |}.

Definition set_SourceFiles (v : list (list byte)) (M : ModuleInfoEx) : ModuleInfoEx :=
  {| Info := Info M; SourceFiles := v |}.

(** [llvm::alignTo(x, 4)]. *)
Definition alignTo4 (x : Z) : Z := (x + 3) / 4 * 4.

(** Modelled from the spec: the extractor of [VarStreamArray<ModInfo>]
    ([ModInfo.cpp]) is missing.  It reads one fixed prefix, then the two
    trailing NUL-terminated strings; the length of the record is the
    prefix size plus the string bytes, aligned (to 4 bytes, the alignment
    that [reload] requires of the whole substream). *)
Definition ModInfo_extract (K : RawConstants) (bs : list byte) : option (Z * ModInfo) :=
  let P := Z.to_nat (sizeof_ModInfo_FileLayout K) in
  if decide (length bs < P)%nat then None else
  match zero_string (drop P bs) with
  | None => None
  | Some obj =>
      match zero_string (drop (P + length obj + 1) bs) with
      | None => None
      | Some name =>
          Some (alignTo4 (sizeof_ModInfo_FileLayout K +
                          Z.of_nat (length obj) + 1 + Z.of_nat (length name) + 1),
                {| ModInfo_Layout := take P bs;
                   ModInfo_ObjFileName := obj;
                   ModInfo_ModuleName := name |})
      end
  end.

(** The records that the range-for over a [VarStreamArray<ModInfo>]
    visits: one record after the other until the range is exhausted.  The
    loop of [reload] has no error path: a record that cannot be extracted
    ends the iteration.  Every record is at least two bytes long, so
    [length bs] steps always suffice (see [VarStreamArray_fuel]). *)
Fixpoint VarStreamArray_iter (K : RawConstants) (fuel : nat) (bs : list byte) : list ModInfo :=
  match fuel with
  | O => []
  | S fuel' =>
      if decide (length bs = 0)%nat then [] else
      match ModInfo_extract K bs with
      | None => []
      | Some (len, Info) => Info :: VarStreamArray_iter K fuel' (drop (Z.to_nat len) bs)
      end
  end.

Definition VarStreamArray_records (K : RawConstants) (bs : list byte) : list ModInfo :=
  VarStreamArray_iter K (length bs) bs.

(** ** The decoder object *)
Record DbiStream := {
  Header : option HeaderInfo;
  ModuleInfos : list ModuleInfoEx;
  SecContrSubstream : list byte;
  SecMapSubstream : list byte;
  FileInfoSubstream : list byte;
  TypeServerMapSubstream : list byte;
  ECSubstream : list byte;
  NamesBuffer : list byte;
  DbgStreams : list Z;
  SectionContribVersion : Z;
  SectionContribs : list (list byte);
  SectionContribs2 : list (list byte);
  SectionHeaders : list (list byte);
  FpoRecords : list (list byte);
  SectionMap : list (list byte);
  FileNameOffsets : list Z;
  SectionHeaderStream : option (list byte);
  FpoStream : option (list byte)
}.

(** The object as its constructor leaves it. *)
Definition DbiStream_new : DbiStream := {|
  Header := None; ModuleInfos := [];
  SecContrSubstream := []; SecMapSubstream := []; FileInfoSubstream := [];
  TypeServerMapSubstream := []; ECSubstream := []; NamesBuffer := [];
  DbgStreams := []; SectionContribVersion := 0;
  SectionContribs := []; SectionContribs2 := []; SectionHeaders := [];
  FpoRecords := []; SectionMap := []; FileNameOffsets := [];
  SectionHeaderStream := None; FpoStream := None
|}.

(** Assignments to the members. *)
Definition set_Header (v : option HeaderInfo) (D : DbiStream) : DbiStream := {|
  Header := v;
  ModuleInfos := ModuleInfos D;
  SecContrSubstream := SecContrSubstream D;
  SecMapSubstream := SecMapSubstream D;
  FileInfoSubstream := FileInfoSubstream D;
  TypeServerMapSubstream := TypeServerMapSubstream D;
  ECSubstream := ECSubstream D;
  NamesBuffer := NamesBuffer D;
  DbgStreams := DbgStreams D;
  SectionContribVersion := SectionContribVersion D;
  SectionContribs := SectionContribs D;
  SectionContribs2 := SectionContribs2 D;
  SectionHeaders := SectionHeaders D;
  FpoRecords := FpoRecords D;
  SectionMap := SectionMap D;
  FileNameOffsets := FileNameOffsets D;
  SectionHeaderStream := SectionHeaderStream D;
  FpoStream := FpoStream D
|}.

Definition set_ModuleInfos (v : list ModuleInfoEx) (D : DbiStream) : DbiStream := {|
  Header := Header D;
  ModuleInfos := v;
  SecContrSubstream := SecContrSubstream D;
  SecMapSubstream := SecMapSubstream D;
  FileInfoSubstream := FileInfoSubstream D;
  TypeServerMapSubstream := TypeServerMapSubstream D;
  ECSubstream := ECSubstream D;
  NamesBuffer := NamesBuffer D;
  DbgStreams := DbgStreams D;
  SectionContribVersion := SectionContribVersion D;
  SectionContribs := SectionContribs D;
  SectionContribs2 := SectionContribs2 D;
  SectionHeaders := SectionHeaders D;
  FpoRecords := FpoRecords D;
  SectionMap := SectionMap D;
  FileNameOffsets := FileNameOffsets D;
  SectionHeaderStream := SectionHeaderStream D;
  FpoStream := FpoStream D
|}.

Definition set_SecContrSubstream (v : list byte) (D : DbiStream) : DbiStream := {|
  Header := Header D;
  ModuleInfos := ModuleInfos D;
  SecContrSubstream := v;
  SecMapSubstream := SecMapSubstream D;
  FileInfoSubstream := FileInfoSubstream D;
  TypeServerMapSubstream := TypeServerMapSubstream D;
  ECSubstream := ECSubstream D;
  NamesBuffer := NamesBuffer D;
  DbgStreams := DbgStreams D;
  SectionContribVersion := SectionContribVersion D;
  SectionContribs := SectionContribs D;
  SectionContribs2 := SectionContribs2 D;
  SectionHeaders := SectionHeaders D;
  FpoRecords := FpoRecords D;
  SectionMap := SectionMap D;
  FileNameOffsets := FileNameOffsets D;
  SectionHeaderStream := SectionHeaderStream D;
  FpoStream := FpoStream D
|}.

Definition set_SecMapSubstream (v : list byte) (D : DbiStream) : DbiStream := {|
  Header := Header D;
  ModuleInfos := ModuleInfos D;
  SecContrSubstream := SecContrSubstream D;
  SecMapSubstream := v;
  FileInfoSubstream := FileInfoSubstream D;
  TypeServerMapSubstream := TypeServerMapSubstream D;
  ECSubstream := ECSubstream D;
  NamesBuffer := NamesBuffer D;
  DbgStreams := DbgStreams D;
  SectionContribVersion := SectionContribVersion D;
  SectionContribs := SectionContribs D;
  SectionContribs2 := SectionContribs2 D;
  SectionHeaders := SectionHeaders D;
  FpoRecords := FpoRecords D;
  SectionMap := SectionMap D;
  FileNameOffsets := FileNameOffsets D;
  SectionHeaderStream := SectionHeaderStream D;
  FpoStream := FpoStream D
|}.

Definition set_FileInfoSubstream (v : list byte) (D : DbiStream) : DbiStream := {|
  Header := Header D;
  ModuleInfos := ModuleInfos D;
  SecContrSubstream := SecContrSubstream D;
  SecMapSubstream := SecMapSubstream D;
  FileInfoSubstream := v;
  TypeServerMapSubstream := TypeServerMapSubstream D;
  ECSubstream := ECSubstream D;
  NamesBuffer := NamesBuffer D;
  DbgStreams := DbgStreams D;
  SectionContribVersion := SectionContribVersion D;
  SectionContribs := SectionContribs D;
  SectionContribs2 := SectionContribs2 D;
  SectionHeaders := SectionHeaders D;
  FpoRecords := FpoRecords D;
  SectionMap := SectionMap D;
  FileNameOffsets := FileNameOffsets D;
  SectionHeaderStream := SectionHeaderStream D;
  FpoStream := FpoStream D
|}.

Definition set_TypeServerMapSubstream (v : list byte) (D : DbiStream) : DbiStream := {|
  Header := Header D;
  ModuleInfos := ModuleInfos D;
  SecContrSubstream := SecContrSubstream D;
  SecMapSubstream := SecMapSubstream D;
  FileInfoSubstream := FileInfoSubstream D;
  TypeServerMapSubstream := v;
  ECSubstream := ECSubstream D;
  NamesBuffer := NamesBuffer D;
  DbgStreams := DbgStreams D;
  SectionContribVersion := SectionContribVersion D;
  SectionContribs := SectionContribs D;
  SectionContribs2 := SectionContribs2 D;
  SectionHeaders := SectionHeaders D;
  FpoRecords := FpoRecords D;
  SectionMap := SectionMap D;
  FileNameOffsets := FileNameOffsets D;
  SectionHeaderStream := SectionHeaderStream D;
  FpoStream := FpoStream D
|}.

Definition set_ECSubstream (v : list byte) (D : DbiStream) : DbiStream := {|
  Header := Header D;
  ModuleInfos := ModuleInfos D;
  SecContrSubstream := SecContrSubstream D;
  SecMapSubstream := SecMapSubstream D;
  FileInfoSubstream := FileInfoSubstream D;
  TypeServerMapSubstream := TypeServerMapSubstream D;
  ECSubstream := v;
  NamesBuffer := NamesBuffer D;
  DbgStreams := DbgStreams D;
  SectionContribVersion := SectionContribVersion D;
  SectionContribs := SectionContribs D;
  SectionContribs2 := SectionContribs2 D;
  SectionHeaders := SectionHeaders D;
  FpoRecords := FpoRecords D;
  SectionMap := SectionMap D;
  FileNameOffsets := FileNameOffsets D;
  SectionHeaderStream := SectionHeaderStream D;
  FpoStream := FpoStream D
|}.

Definition set_NamesBuffer (v : list byte) (D : DbiStream) : DbiStream := {|
  Header := Header D;
  ModuleInfos := ModuleInfos D;
  SecContrSubstream := SecContrSubstream D;
  SecMapSubstream := SecMapSubstream D;
  FileInfoSubstream := FileInfoSubstream D;
  TypeServerMapSubstream := TypeServerMapSubstream D;
  ECSubstream := ECSubstream D;
  NamesBuffer := v;
  DbgStreams := DbgStreams D;
  SectionContribVersion := SectionContribVersion D;
  SectionContribs := SectionContribs D;
  SectionContribs2 := SectionContribs2 D;
  SectionHeaders := SectionHeaders D;
  FpoRecords := FpoRecords D;
  SectionMap := SectionMap D;
  FileNameOffsets := FileNameOffsets D;
  SectionHeaderStream := SectionHeaderStream D;
  FpoStream := FpoStream D
|}.

Definition set_DbgStreams (v : list Z) (D : DbiStream) : DbiStream := {|
  Header := Header D;
  ModuleInfos := ModuleInfos D;
  SecContrSubstream := SecContrSubstream D;
  SecMapSubstream := SecMapSubstream D;
  FileInfoSubstream := FileInfoSubstream D;
  TypeServerMapSubstream := TypeServerMapSubstream D;
  ECSubstream := ECSubstream D;
  NamesBuffer := NamesBuffer D;
  DbgStreams := v;
  SectionContribVersion := SectionContribVersion D;
  SectionContribs := SectionContribs D;
  SectionContribs2 := SectionContribs2 D;
  SectionHeaders := SectionHeaders D;
  FpoRecords := FpoRecords D;
  SectionMap := SectionMap D;
  FileNameOffsets := FileNameOffsets D;
  SectionHeaderStream := SectionHeaderStream D;
  FpoStream := FpoStream D
|}.

Definition set_SectionContribVersion (v : Z) (D : DbiStream) : DbiStream := {|
  Header := Header D;
  ModuleInfos := ModuleInfos D;
  SecContrSubstream := SecContrSubstream D;
  SecMapSubstream := SecMapSubstream D;
  FileInfoSubstream := FileInfoSubstream D;
  TypeServerMapSubstream := TypeServerMapSubstream D;
  ECSubstream := ECSubstream D;
  NamesBuffer := NamesBuffer D;
  DbgStreams := DbgStreams D;
  SectionContribVersion := v;
  SectionContribs := SectionContribs D;
  SectionContribs2 := SectionContribs2 D;
  SectionHeaders := SectionHeaders D;
  FpoRecords := FpoRecords D;
  SectionMap := SectionMap D;
  FileNameOffsets := FileNameOffsets D;
  SectionHeaderStream := SectionHeaderStream D;
  FpoStream := FpoStream D
|}.

Definition set_SectionContribs (v : list (list byte)) (D : DbiStream) : DbiStream := {|
  Header := Header D;
  ModuleInfos := ModuleInfos D;
  SecContrSubstream := SecContrSubstream D;
  SecMapSubstream := SecMapSubstream D;
  FileInfoSubstream := FileInfoSubstream D;
  TypeServerMapSubstream := TypeServerMapSubstream D;
  ECSubstream := ECSubstream D;
  NamesBuffer := NamesBuffer D;
  DbgStreams := DbgStreams D;
  SectionContribVersion := SectionContribVersion D;
  SectionContribs := v;
  SectionContribs2 := SectionContribs2 D;
  SectionHeaders := SectionHeaders D;
  FpoRecords := FpoRecords D;
  SectionMap := SectionMap D;
  FileNameOffsets := FileNameOffsets D;
  SectionHeaderStream := SectionHeaderStream D;
  FpoStream := FpoStream D
|}.

Definition set_SectionContribs2 (v : list (list byte)) (D : DbiStream) : DbiStream := {|
  Header := Header D;
  ModuleInfos := ModuleInfos D;
  SecContrSubstream := SecContrSubstream D;
  SecMapSubstream := SecMapSubstream D;
  FileInfoSubstream := FileInfoSubstream D;
  TypeServerMapSubstream := TypeServerMapSubstream D;
  ECSubstream := ECSubstream D;
  NamesBuffer := NamesBuffer D;
  DbgStreams := DbgStreams D;
  SectionContribVersion := SectionContribVersion D;
  SectionContribs := SectionContribs D;
  SectionContribs2 := v;
  SectionHeaders := SectionHeaders D;
  FpoRecords := FpoRecords D;
  SectionMap := SectionMap D;
  FileNameOffsets := FileNameOffsets D;
  SectionHeaderStream := SectionHeaderStream D;
  FpoStream := FpoStream D
|}.

Definition set_SectionHeaders (v : list (list byte)) (D : DbiStream) : DbiStream := {|
  Header := Header D;
  ModuleInfos := ModuleInfos D;
  SecContrSubstream := SecContrSubstream D;
  SecMapSubstream := SecMapSubstream D;
  FileInfoSubstream := FileInfoSubstream D;
  TypeServerMapSubstream := TypeServerMapSubstream D;
  ECSubstream := ECSubstream D;
  NamesBuffer := NamesBuffer D;
  DbgStreams := DbgStreams D;
  SectionContribVersion := SectionContribVersion D;
  SectionContribs := SectionContribs D;
  SectionContribs2 := SectionContribs2 D;
  SectionHeaders := v;
  FpoRecords := FpoRecords D;
  SectionMap := SectionMap D;
  FileNameOffsets := FileNameOffsets D;
  SectionHeaderStream := SectionHeaderStream D;
  FpoStream := FpoStream D
|}.

Definition set_FpoRecords (v : list (list byte)) (D : DbiStream) : DbiStream := {|
  Header := Header D;
  ModuleInfos := ModuleInfos D;
  SecContrSubstream := SecContrSubstream D;
  SecMapSubstream := SecMapSubstream D;
  FileInfoSubstream := FileInfoSubstream D;
  TypeServerMapSubstream := TypeServerMapSubstream D;
  ECSubstream := ECSubstream D;
  NamesBuffer := NamesBuffer D;
  DbgStreams := DbgStreams D;
  SectionContribVersion := SectionContribVersion D;
  SectionContribs := SectionContribs D;
  SectionContribs2 := SectionContribs2 D;
  SectionHeaders := SectionHeaders D;
  FpoRecords := v;
  SectionMap := SectionMap D;
  FileNameOffsets := FileNameOffsets D;
  SectionHeaderStream := SectionHeaderStream D;
  FpoStream := FpoStream D
|}.

Definition set_SectionMap (v : list (list byte)) (D : DbiStream) : DbiStream := {|
  Header := Header D;
  ModuleInfos := ModuleInfos D;
  SecContrSubstream := SecContrSubstream D;
  SecMapSubstream := SecMapSubstream D;
  FileInfoSubstream := FileInfoSubstream D;
  TypeServerMapSubstream := TypeServerMapSubstream D;
  ECSubstream := ECSubstream D;
  NamesBuffer := NamesBuffer D;
  DbgStreams := DbgStreams D;
  SectionContribVersion := SectionContribVersion D;
  SectionContribs := SectionContribs D;
  SectionContribs2 := SectionContribs2 D;
  SectionHeaders := SectionHeaders D;
  FpoRecords := FpoRecords D;
  SectionMap := v;
  FileNameOffsets := FileNameOffsets D;
  SectionHeaderStream := SectionHeaderStream D;
  FpoStream := FpoStream D
|}.

Definition set_FileNameOffsets (v : list Z) (D : DbiStream) : DbiStream := {|
  Header := Header D;
  ModuleInfos := ModuleInfos D;
  SecContrSubstream := SecContrSubstream D;
  SecMapSubstream := SecMapSubstream D;
  FileInfoSubstream := FileInfoSubstream D;
  TypeServerMapSubstream := TypeServerMapSubstream D;
  ECSubstream := ECSubstream D;
  NamesBuffer := NamesBuffer D;
  DbgStreams := DbgStreams D;
  SectionContribVersion := SectionContribVersion D;
  SectionContribs := SectionContribs D;
  SectionContribs2 := SectionContribs2 D;
  SectionHeaders := SectionHeaders D;
  FpoRecords := FpoRecords D;
  SectionMap := SectionMap D;
  FileNameOffsets := v;
  SectionHeaderStream := SectionHeaderStream D;
  FpoStream := FpoStream D
|}.

Definition set_SectionHeaderStream (v : option (list byte)) (D : DbiStream) : DbiStream := {|
  Header := Header D;
  ModuleInfos := ModuleInfos D;
  SecContrSubstream := SecContrSubstream D;
  SecMapSubstream := SecMapSubstream D;
  FileInfoSubstream := FileInfoSubstream D;
  TypeServerMapSubstream := TypeServerMapSubstream D;
  ECSubstream := ECSubstream D;
  NamesBuffer := NamesBuffer D;
  DbgStreams := DbgStreams D;
  SectionContribVersion := SectionContribVersion D;
  SectionContribs := SectionContribs D;
  SectionContribs2 := SectionContribs2 D;
  SectionHeaders := SectionHeaders D;
  FpoRecords := FpoRecords D;
  SectionMap := SectionMap D;
  FileNameOffsets := FileNameOffsets D;
  SectionHeaderStream := v;
  FpoStream := FpoStream D
|}.

Definition set_FpoStream (v : option (list byte)) (D : DbiStream) : DbiStream := {|
  Header := Header D;
  ModuleInfos := ModuleInfos D;
  SecContrSubstream := SecContrSubstream D;
  SecMapSubstream := SecMapSubstream D;
  FileInfoSubstream := FileInfoSubstream D;
  TypeServerMapSubstream := TypeServerMapSubstream D;
  ECSubstream := ECSubstream D;
  NamesBuffer := NamesBuffer D;
  DbgStreams := DbgStreams D;
  SectionContribVersion := SectionContribVersion D;
  SectionContribs := SectionContribs D;
  SectionContribs2 := SectionContribs2 D;
  SectionHeaders := SectionHeaders D;
  FpoRecords := FpoRecords D;
  SectionMap := SectionMap D;
  FileNameOffsets := FileNameOffsets D;
  SectionHeaderStream := SectionHeaderStream D;
  FpoStream := v
|}.

(** ** [loadSectionContribs<ContribType>]

    [sz] is [sizeof(ContribType)]; the decoded array is returned to the
    caller, which stores it in the member passed as [Output]. *)
Definition loadSectionContribs (sz : Z) (Reader : StreamReader)
  : Result (list (list byte)) :=
  if decide (bytesRemaining Reader mod sz <> 0) then
    Failure (RawError corrupt_file "Invalid number of bytes of section contributions")
  else
    let Count := Int.to_uint32 (bytesRemaining Reader / sz) in
    '(Output, _) ← readArray Reader Count sz;
    mret Output.

(** ** [DbiStream::getDebugStreamIndex]

    [DbgStreams[static_cast<uint16_t>(Type)]]: the subscript is not
    checked. *)
Definition getDebugStreamIndex (K : RawConstants) (D : DbiStream) (T : DbgHeaderType)
  : Result Z :=
  match DbgStreams D !! Z.to_nat (DbgHeaderType_value K T) with
  | Some StreamNum => Success StreamNum
  | None => OutOfBounds
  end.

(** ** [DbiStream::getFileNameForIndex] *)
Definition getFileNameForIndex (D : DbiStream) (Index : Z) : Result (list byte) :=
  let Names := StreamReader.mk (NamesBuffer D) 0 in
  if decide (Index >= Z.of_nat (length (FileNameOffsets D))) then
    Failure (RawError index_out_of_bounds "")
  else
    match FileNameOffsets D !! Z.to_nat Index with
    | None => OutOfBounds
    | Some FileOffset =>
        let Names := setOffset Names FileOffset in
        '(Name, _) ← readZeroString Names;
        mret Name
    end.

(** ** [DbiStream::initializeSectionContributionData] *)
Definition initializeSectionContributionData (K : RawConstants) (D : DbiStream)
  : Result DbiStream :=
  let SCReader := StreamReader.mk (SecContrSubstream D) 0 in
  '(bs, SCReader) ← readObject SCReader 4;
  let D := set_SectionContribVersion (ulittle32 bs) D in
  if decide (SectionContribVersion D = DbiSecContribVer60 K) then
    a ← loadSectionContribs (sizeof_SectionContrib K) SCReader;
    mret (set_SectionContribs a D)
  else if decide (SectionContribVersion D = DbiSecContribV2 K) then
    a ← loadSectionContribs (sizeof_SectionContrib2 K) SCReader;
    mret (set_SectionContribs2 a D)
  else
    Failure (RawError feature_unsupported
               "Unsupported DBI Section Contribution version").

(** ** [DbiStream::initializeSectionHeadersData] *)
Definition initializeSectionHeadersData (K : RawConstants) (Pdb : PDBFile) (D : DbiStream)
  : Result DbiStream :=
  StreamNum ← getDebugStreamIndex K D SectionHdr;
  if decide (StreamNum >= getNumStreams Pdb) then
    Failure (RawError no_stream "")
  else
    SHS ← liftE (createIndexedStream Pdb StreamNum);
    let StreamLen := getLength SHS in
    if decide (StreamLen mod sizeof_coff_section K <> 0) then
      Failure (RawError corrupt_file "Corrupted section header stream.")
    else
      let NumSections := StreamLen / sizeof_coff_section K in
      let Reader := StreamReader.mk SHS 0 in
      match readArray Reader (Int.to_uint32 NumSections) (sizeof_coff_section K) with
      | Success (a, _) =>
          mret (set_SectionHeaderStream (Some SHS) (set_SectionHeaders a D))
      | Failure _ => Failure (RawError corrupt_file "Could not read a bitmap.")
      | OutOfBounds => OutOfBounds
      end.

(** ** [DbiStream::initializeFpoRecords] *)
Definition initializeFpoRecords (K : RawConstants) (Pdb : PDBFile) (D : DbiStream)
  : Result DbiStream :=
  StreamNum ← getDebugStreamIndex K D NewFPO;
  (* This means there is no FPO data. *)
  if decide (StreamNum = InvalidStreamIndex) then
    mret D
  else if decide (StreamNum >= getNumStreams Pdb) then
    Failure (RawError no_stream "")
  else
    FS ← liftE (createIndexedStream Pdb StreamNum);
    let StreamLen := getLength FS in
    if decide (StreamLen mod sizeof_FpoData K <> 0) then
      Failure (RawError corrupt_file "Corrupted New FPO stream.")
    else
      let NumRecords := StreamLen / sizeof_FpoData K in
      let Reader := StreamReader.mk FS 0 in
      match readArray Reader (Int.to_uint32 NumRecords) (sizeof_FpoData K) with
      | Success (a, _) =>
          mret (set_FpoStream (Some FS) (set_FpoRecords a D))
      | Failure _ => Failure (RawError corrupt_file "Corrupted New FPO stream.")
      | OutOfBounds => OutOfBounds
      end.

(** ** [DbiStream::initializeSectionMapData]

    Modelled from the spec: [SecMapHeader] is missing; it is a small fixed
    header whose first field is the 16-bit entry count. *)
Definition initializeSectionMapData (K : RawConstants) (D : DbiStream)
  : Result DbiStream :=
  let SMReader := StreamReader.mk (SecMapSubstream D) 0 in
  '(Header, SMReader) ← readObject SMReader (sizeof_SecMapHeader K);
  let SecCount := ulittle16 Header in
  '(a, _) ← readArray SMReader SecCount (sizeof_SecMapEntry K);
  mret (set_SectionMap a D).

(** ** [DbiStream::initializeFileInfo] *)

(** [sizeof(FileInfoSubstreamHeader)]: two [ulittle16_t]. *)
Definition sizeof_FileInfoSubstreamHeader : Z := 4.

(** [uint32_t NumSourceFiles = 0;
     for (auto Count : ModFileCountArray) NumSourceFiles += Count;] *)
Definition sum_ModFileCounts (ModFileCountArray : list Z) : Z :=
  foldl Int.uint32_add 0 ModFileCountArray.

(** The inner loop,
    [for (size_t J = 0; J < NumFiles; ++J, ++NextFileIndex)], with
    [todo = NumFiles - J] iterations left; the result is the file list of
    the module and the cursor. *)
Fixpoint assign_SourceFiles (D : DbiStream) (todo : nat) (J : nat)
    (NextFileIndex : Z) (Files : list (list byte)) : Result (list (list byte) * Z) :=
  match todo with
  | O => mret (Files, NextFileIndex)
  | S todo' =>
      ThisName ← getFileNameForIndex D NextFileIndex;
      assign_SourceFiles D todo' (S J) (Int.uint32_add NextFileIndex 1)
        (<[J := ThisName]> Files)
  end.

(** The outer loop, [for (size_t I = 0; I < ModuleInfos.size(); ++I)],
    with [todo = ModuleInfos.size() - I] iterations left. *)
Fixpoint associate_SourceFiles (ModFileCountArray : list Z) (todo : nat) (I : nat)
    (NextFileIndex : Z) (D : DbiStream) : Result DbiStream :=
  match todo with
  | O => mret D
  | S todo' =>
      match ModFileCountArray !! I, ModuleInfos D !! I with
      | Some NumFiles, Some M =>
          (* ModuleInfos[I].SourceFiles.resize(NumFiles) *)
          let Files := resize (Z.to_nat NumFiles) [] (SourceFiles M) in
          '(Files, NextFileIndex) ←
            assign_SourceFiles D (Z.to_nat NumFiles) 0 NextFileIndex Files;
          associate_SourceFiles ModFileCountArray todo' (S I) NextFileIndex
            (set_ModuleInfos (<[I := set_SourceFiles Files M]> (ModuleInfos D)) D)
      | _, _ => OutOfBounds
      end
  end.

Definition initializeFileInfo (D : DbiStream) : Result DbiStream :=
  let FISR := StreamReader.mk (FileInfoSubstream D) 0 in
  '(FH, FISR) ← readObject FISR sizeof_FileInfoSubstreamHeader;
  let NumModules := ulittle16 FH in
  (* The number of modules in the stream should be the same as reported by
     the FileInfoSubstreamHeader. *)
  if decide (NumModules <> Z.of_nat (length (ModuleInfos D))) then
    Failure (RawError corrupt_file "FileInfo substream count doesn't match DBI.")
  else
    let size := Int.to_uint32 (Z.of_nat (length (ModuleInfos D))) in
    '(ModIndexArray, FISR) ← readArray FISR size 2;
    '(ModFileCountArray, FISR) ← readArray FISR size 2;
    let ModFileCountArray := ulittle16 <$> ModFileCountArray in
    (* Compute the real number of source files. *)
    let NumSourceFiles := sum_ModFileCounts ModFileCountArray in
    '(Offsets, FISR) ← readArray FISR NumSourceFiles 4;
    let D := set_FileNameOffsets (ulittle32 <$> Offsets) D in
    '(Names, FISR) ← readStreamRefRest FISR;
    let D := set_NamesBuffer Names D in
    associate_SourceFiles ModFileCountArray (length (ModuleInfos D)) 0 0 D.

(** ** [DbiStream::reload] *)

(** Lines 106-157: the header is read and validated. *)
Definition reload_header (K : RawConstants) (Pdb : PDBFile) (Reader : StreamReader)
  : Result (HeaderInfo * StreamReader) :=
  let Stream := StreamReader.Stream Reader in
  if decide (getLength Stream < sizeof_HeaderInfo) then
    Failure (RawError corrupt_file "DBI Stream does not contain a header.")
  else
  match readObject Reader sizeof_HeaderInfo with
  | OutOfBounds => OutOfBounds
  | Failure _ =>
      Failure (RawError corrupt_file "DBI Stream does not contain a header.")
  | Success (bs, Reader) =>
  let Header := decode_HeaderInfo bs in
  if decide (VersionSignature Header <> -1) then
    Failure (RawError corrupt_file "Invalid DBI version signature.")
  else if decide (VersionHeader Header < PdbDbiV70 K) then
    Failure (RawError feature_unsupported "Unsupported DBI version.")
  else
  IS ← liftE (getPDBInfoStream Pdb);
  if decide (Age Header <> getAge IS) then
    Failure (RawError corrupt_file "DBI Age does not match PDB Age.")
  else if decide (getLength Stream <>
      Int.size_t_add (Int.size_t_add (Int.size_t_add (Int.size_t_add
        (Int.size_t_add (Int.size_t_add (Int.size_t_add
          sizeof_HeaderInfo (Int.to_size_t (ModiSubstreamSize Header)))
          (Int.to_size_t (SecContrSubstreamSize Header)))
          (Int.to_size_t (SectionMapSize Header)))
          (Int.to_size_t (FileInfoSize Header)))
          (Int.to_size_t (TypeServerSize Header)))
          (Int.to_size_t (OptionalDbgHdrSize Header)))
          (Int.to_size_t (ECSubstreamSize Header))) then
    Failure (RawError corrupt_file "DBI Length does not equal sum of substreams.")
  (* Only certain substreams are guaranteed to be aligned. *)
  else if decide (Int.to_size_t (ModiSubstreamSize Header) mod 4 <> 0) then
    Failure (RawError corrupt_file "DBI MODI substream not aligned.")
  else if decide (Int.to_size_t (SecContrSubstreamSize Header) mod 4 <> 0) then
    Failure (RawError corrupt_file "DBI section contribution substream not aligned.")
  else if decide (Int.to_size_t (SectionMapSize Header) mod 4 <> 0) then
    Failure (RawError corrupt_file "DBI section map substream not aligned.")
  else if decide (Int.to_size_t (FileInfoSize Header) mod 4 <> 0) then
    Failure (RawError corrupt_file "DBI file info substream not aligned.")
  else if decide (Int.to_size_t (TypeServerSize Header) mod 4 <> 0) then
    Failure (RawError corrupt_file "DBI type server substream not aligned.")
  else mret (Header, Reader)
  end.

(** Lines 159-182: the module records are iterated and the stream is cut
    into its substreams. *)
Definition reload_substreams (K : RawConstants) (Header : HeaderInfo)
    (Reader : StreamReader) (D : DbiStream) : Result (DbiStream * StreamReader) :=
  '(ModInfoArray, Reader) ←
    readStreamRef Reader (Int.to_uint32 (ModiSubstreamSize Header));
  let D := set_ModuleInfos
             (ModuleInfos D ++ (ModuleInfoEx_of <$> VarStreamArray_records K ModInfoArray)) D in
  '(Ref, Reader) ← readStreamRef Reader (Int.to_uint32 (SecContrSubstreamSize Header));
  let D := set_SecContrSubstream Ref D in
  '(Ref, Reader) ← readStreamRef Reader (Int.to_uint32 (SectionMapSize Header));
  let D := set_SecMapSubstream Ref D in
  '(Ref, Reader) ← readStreamRef Reader (Int.to_uint32 (FileInfoSize Header));
  let D := set_FileInfoSubstream Ref D in
  '(Ref, Reader) ← readStreamRef Reader (Int.to_uint32 (TypeServerSize Header));
  let D := set_TypeServerMapSubstream Ref D in
  '(Ref, Reader) ← readStreamRef Reader (Int.to_uint32 (ECSubstreamSize Header));
  let D := set_ECSubstream Ref D in
  '(a, Reader) ←
    readArray Reader (Int.to_uint32 (Int.to_size_t (OptionalDbgHdrSize Header) / 2)) 2;
  let D := set_DbgStreams (ulittle16 <$> a) D in
  mret (D, Reader).

(** Lines 184-193: the five decoders, in the order of the source. *)
Definition reload_initialize (K : RawConstants) (Pdb : PDBFile) (D : DbiStream)
  : Result DbiStream :=
  D ← initializeSectionContributionData K D;
  D ← initializeSectionHeadersData K Pdb D;
  D ← initializeSectionMapData K D;
  D ← initializeFileInfo D;
  initializeFpoRecords K Pdb D.

(** Lines 195-203: nothing may be left, and the EC names are loaded. *)
Definition reload_finish (ECNames_load : NameHashTable_load)
    (Reader : StreamReader) (D : DbiStream) : Result DbiStream :=
  if decide (bytesRemaining Reader > 0) then
    Failure (RawError corrupt_file "Found unexpected bytes in DBI Stream.")
  else
    _ ← liftE (ECNames_load (ECSubstream D));
    mret D.

Definition reload (K : RawConstants) (Pdb : PDBFile)
    (ECNames_load : NameHashTable_load) (Stream : list byte) : Result DbiStream :=
  let Reader := StreamReader.mk Stream 0 in
  '(Header, Reader) ← reload_header K Pdb Reader;
  let D := set_Header (Some Header) DbiStream_new in
  '(D, Reader) ← reload_substreams K Header Reader D;
  D ← reload_initialize K Pdb D;
  reload_finish ECNames_load Reader D.

(** ** Sample data

    The constants of LLVM's headers, a small PDB file and a well-formed
    Dbi stream with two modules of one source file each. *)

Module Sample.

Definition K : RawConstants := {|
  PdbDbiV70 := 19990903;
  DbiSecContribVer60 := 0xeffe0000 + 19970605;
  DbiSecContribV2 := 0xeffe0000 + 20140516;
  sizeof_SectionContrib := 28;
  sizeof_SectionContrib2 := 32;
  sizeof_SecMapHeader := 4;
  sizeof_SecMapEntry := 20;
  sizeof_coff_section := 40;
  sizeof_FpoData := 16;
  sizeof_ModInfo_FileLayout := 64;
  DbgHeaderType_value := fun T =>
    match T with SectionHdr => 5 | NewFPO => 9 end
|}.

Definition zeros (n : nat) : list byte := replicate n Byte.x00.

Definition cstring (s : string) : list byte :=
  String.list_byte_of_string s ++ [Byte.x00].

(** A stream directory of eight streams: stream 5 holds one section
    header, stream 6 two FPO records, stream 7 has a length that is no
    multiple of any record size. *)
Definition Pdb : PDBFile := {|
  getPDBInfoStream := inr {| getAge := 1 |};
  getNumStreams := 8;
  createIndexedStream := fun n =>
    if decide (n = 5) then inr (zeros 40)
    else if decide (n = 6) then inr (zeros 32)
    else if decide (n = 7) then inr (zeros 7)
    else inr []
|}.

Definition ECNames_load : NameHashTable_load := fun _ => inr ().

(** A Dbi stream from its seven parts; the header declares their
    lengths. *)
Definition stream_of (version age : Z)
    (modi sc sm fi ts ec dbg : list byte) : list byte :=
  encode_HeaderInfo {|
    VersionSignature := -1; VersionHeader := version; Age := age;
    GlobalSymbolStreamIndex := 0; BuildNumber := 0;
    PublicSymbolStreamIndex := 0; PdbDllVersion := 0;
    SymRecordStreamIndex := 0; PdbDllRbld := 0;
    ModiSubstreamSize := getLength modi;
    SecContrSubstreamSize := getLength sc;
    SectionMapSize := getLength sm;
    FileInfoSize := getLength fi;
    TypeServerSize := getLength ts;
    MFCTypeServerIndex := 0;
    OptionalDbgHdrSize := getLength dbg;
    ECSubstreamSize := getLength ec;
    Flags := 0; MachineType := 0; Reserved := 0 |}
  ++ modi ++ sc ++ sm ++ fi ++ ts ++ ec ++ dbg.

(** One module record: 64 bytes of prefix, the two names, padding. *)
Definition module (obj name : string) : list byte :=
  let r := zeros 64 ++ cstring obj ++ cstring name in
  r ++ zeros (Z.to_nat (alignTo4 (getLength r) - getLength r)).

Definition modi : list byte := module "a.obj" "a" ++ module "b.obj" "b".

Definition sc60 : list byte := put32 (DbiSecContribVer60 K) ++ zeros 28.
Definition sc2 : list byte := put32 (DbiSecContribV2 K) ++ zeros 64.

Definition sm : list byte := put16 0 ++ put16 0.

(** The file-info substream of the scenario: the names buffer holds
    a.c and b.c, module 0 owns the file at offset 0 and module 1 the
    file at offset 4.  [nsf] is the declared number of source files. *)
Definition names : list byte := cstring "a.c" ++ cstring "b.c".

Definition fi_with (nsf : Z) : list byte :=
  put16 2 ++ put16 nsf ++ (put16 0 ++ put16 1) ++ (put16 1 ++ put16 1) ++
  (put32 0 ++ put32 4) ++ names.

Definition fi : list byte := fi_with 2.

(** The debug-stream-index table: [fpo] at the position of the new FPO
    kind, stream 5 at the position of the section headers, the sentinel
    elsewhere. *)
Definition dbg_with (fpo : Z) : list byte :=
  put16 InvalidStreamIndex ++ put16 InvalidStreamIndex ++
  put16 InvalidStreamIndex ++ put16 InvalidStreamIndex ++
  put16 InvalidStreamIndex ++ put16 5 ++
  put16 InvalidStreamIndex ++ put16 InvalidStreamIndex ++
  put16 InvalidStreamIndex ++ put16 fpo ++ put16 InvalidStreamIndex.

Definition dbg : list byte := dbg_with InvalidStreamIndex.

Definition stream : list byte :=
  stream_of 19990903 1 modi sc60 sm fi [] [] dbg.

(** The decoder after the module records have been read, before the
    file names are associated. *)
Definition two_modules : DbiStream :=
  set_FileInfoSubstream fi
    (set_ModuleInfos (ModuleInfoEx_of <$> VarStreamArray_records K modi)
       DbiStream_new).

Definition bytes (s : string) : list byte := String.list_byte_of_string s.

(** The same decoder once [initializeFileInfo] has read the offsets and
    the names buffer. *)
Definition names_read : DbiStream :=
  set_NamesBuffer names (set_FileNameOffsets [0; 4] two_modules).

(** The sample stream with another declared number of source files. *)
Definition stream_declaring (nsf : Z) : list byte :=
  stream_of 19990903 1 modi sc60 sm (fi_with nsf) [] [] dbg.

(** A stream whose seven declared sizes are all 4, and the same stream
    cut to the length that any six of them give. *)
Definition seven_fours : list byte :=
  stream_of 19990903 1 (zeros 4) (put32 0) (zeros 4) (zeros 4) (zeros 4)
    (zeros 4) (zeros 4).

Definition six_fours : list byte := take 88 seven_fours.

(** A stream whose file-info substream has a size that is not a
    multiple of 4. *)
Definition misaligned : list byte :=
  stream_of 19990903 1 modi sc60 sm (fi ++ [Byte.x00]) [] [] dbg.

(** The same without a debug-stream-index table: its length is 64 plus
    the sum of the six substream sizes. *)
Definition misaligned_without_table : list byte :=
  stream_of 19990903 1 modi sc60 sm (fi ++ [Byte.x00]) [] [] [].

(** A stream whose debug-stream-index table has a single entry. *)
Definition short_table : list byte :=
  stream_of 19990903 1 modi sc60 sm fi [] [] (put16 5).

(** A stream whose table has an entry for the section headers and none
    for the new FPO kind. *)
Definition table_without_FPO : list byte :=
  stream_of 19990903 1 modi sc60 sm fi [] []
    (put16 0 ++ put16 0 ++ put16 0 ++ put16 0 ++ put16 0 ++ put16 5).

Definition state_of (r : Result (DbiStream * StreamReader)) : DbiStream :=
  match r with
  | Success (D, _) => D
  | _ => DbiStream_new
  end.

Definition reader_of (r : Result (DbiStream * StreamReader)) : StreamReader :=
  match r with
  | Success (_, R) => R
  | _ => StreamReader.mk [] 0
  end.

End Sample.

(** ** Vocabulary of the properties *)

(** The header that [reload] decodes from a stream. *)
Definition header_of (Stream : list byte) : HeaderInfo :=
  decode_HeaderInfo (slice 0 sizeof_HeaderInfo Stream).

(** The mathematical sum of the seven sizes that the header declares. *)
Definition declared_sizes_sum (H : HeaderInfo) : Z :=
  ModiSubstreamSize H + SecContrSubstreamSize H + SectionMapSize H +
  FileInfoSize H + TypeServerSize H + OptionalDbgHdrSize H + ECSubstreamSize H.

(** The seven size fields of the header, in the order of the structure. *)
Definition declared_sizes (H : HeaderInfo) : list Z :=
  [ModiSubstreamSize H; SecContrSubstreamSize H; SectionMapSize H;
   FileInfoSize H; TypeServerSize H; OptionalDbgHdrSize H; ECSubstreamSize H].

(** The sum of six of the seven declared sizes: all but the one at
    position [k].  The design document speaks of the sum of the six
    declared substream sizes; whichever field it leaves out, this is
    that sum. *)
Definition six_sizes_sum (k : nat) (H : HeaderInfo) : Z :=
  foldr Z.add 0 (delete k (declared_sizes H)).

(** The first five checks of the header: length, signature, version, the
    Info stream and its age. *)
Definition header_checks (K : RawConstants) (Pdb : PDBFile) (Stream : list byte) : Prop :=
  sizeof_HeaderInfo <= getLength Stream < 2 ^ 32 /\
  VersionSignature (header_of Stream) = -1 /\
  PdbDbiV70 K <= VersionHeader (header_of Stream) /\
  exists IS, getPDBInfoStream Pdb = inr IS /\ Age (header_of Stream) = getAge IS.

(** The substreams whose size [reload] requires to be a multiple of 4. *)
Inductive AlignedSubstream := Modi | SecContr | SecMap | FileInfo | TypeServer.

Definition size_of (X : AlignedSubstream) (H : HeaderInfo) : Z :=
  match X with
  | Modi => ModiSubstreamSize H
  | SecContr => SecContrSubstreamSize H
  | SecMap => SectionMapSize H
  | FileInfo => FileInfoSize H
  | TypeServer => TypeServerSize H
  end.

Definition not_aligned_message (X : AlignedSubstream) : string :=
  match X with
  | Modi => "DBI MODI substream not aligned."
  | SecContr => "DBI section contribution substream not aligned."
  | SecMap => "DBI section map substream not aligned."
  | FileInfo => "DBI file info substream not aligned."
  | TypeServer => "DBI type server substream not aligned."
  end.

(** Position of a checked substream in the order of the checks. *)
Definition check_order (X : AlignedSubstream) : nat :=
  match X with
  | Modi => 0 | SecContr => 1 | SecMap => 2 | FileInfo => 3 | TypeServer => 4
  end.

Definition all_aligned (H : HeaderInfo) : Prop :=
  forall X, size_of X H mod 4 = 0.

(** The association pass in the words of the design document: the modules
    are walked in order with one running cursor into [FileNameOffsets];
    module [i] takes the next [ModFileCounts[i]] indices, each resolved to
    a name, in order.  [resolve] is the resolution of one index. *)
Fixpoint spec_association (resolve : Z -> Result (list byte))
    (mods : list ModuleInfoEx) (counts : list Z) (cursor : Z)
  : Result (list ModuleInfoEx) :=
  match mods, counts with
  | [], _ => mret []
  | _ :: _, [] => OutOfBounds
  | M :: mods', c :: counts' =>
      names ← mapM resolve (seqZ cursor c);
      rest ← spec_association resolve mods' counts' (cursor + c);
      mret (set_SourceFiles names M :: rest)
  end.

#[global] Instance Result_fmap : FMap Result := fun A B f m =>
  match m with
  | Success a => Success (f a)
  | Failure e => Failure e
  | OutOfBounds => OutOfBounds
  end.

(** ** The layout of the stream and the stages of [reload] *)

(** Number of entries of the debug-stream-index table:
    [Header->OptionalDbgHdrSize / sizeof(ulittle16_t)] passed as an
    [uint32_t]. *)
Definition DbgStreams_count (H : HeaderInfo) : Z :=
  Int.to_uint32 (Int.to_size_t (OptionalDbgHdrSize H) / 2).

(** Offsets at which [reload] cuts the stream, in the order of the
    reads. *)
Definition offset_SecContr (H : HeaderInfo) : Z :=
  sizeof_HeaderInfo + Int.to_uint32 (ModiSubstreamSize H).
Definition offset_SecMap (H : HeaderInfo) : Z :=
  offset_SecContr H + Int.to_uint32 (SecContrSubstreamSize H).
Definition offset_FileInfo (H : HeaderInfo) : Z :=
  offset_SecMap H + Int.to_uint32 (SectionMapSize H).
Definition offset_TypeServer (H : HeaderInfo) : Z :=
  offset_FileInfo H + Int.to_uint32 (FileInfoSize H).
Definition offset_EC (H : HeaderInfo) : Z :=
  offset_TypeServer H + Int.to_uint32 (TypeServerSize H).
Definition offset_DbgStreams (H : HeaderInfo) : Z :=
  offset_EC H + Int.to_uint32 (ECSubstreamSize H).
Definition offset_end (H : HeaderInfo) : Z :=
  offset_DbgStreams H + DbgStreams_count H * 2.

(** The bytes of the module-info region of a stream. *)
Definition ModInfo_region (H : HeaderInfo) (S : list byte) : list byte :=
  slice sizeof_HeaderInfo (Int.to_uint32 (ModiSubstreamSize H)) S.

(** The decoder once the stream has been cut into its substreams. *)
Definition segmented (K : RawConstants) (H : HeaderInfo) (S : list byte) : DbiStream :=
  set_DbgStreams
    (ulittle16 <$> records (Z.to_nat (DbgStreams_count H)) (Z.to_nat 2)
                     (slice (offset_DbgStreams H) (DbgStreams_count H * 2) S))
  (set_ECSubstream
    (slice (offset_EC H) (Int.to_uint32 (ECSubstreamSize H)) S)
  (set_TypeServerMapSubstream
    (slice (offset_TypeServer H) (Int.to_uint32 (TypeServerSize H)) S)
  (set_FileInfoSubstream
    (slice (offset_FileInfo H) (Int.to_uint32 (FileInfoSize H)) S)
  (set_SecMapSubstream
    (slice (offset_SecMap H) (Int.to_uint32 (SectionMapSize H)) S)
  (set_SecContrSubstream
    (slice (offset_SecContr H) (Int.to_uint32 (SecContrSubstreamSize H)) S)
  (set_ModuleInfos
    (ModuleInfoEx_of <$> VarStreamArray_records K (ModInfo_region H S))
  (set_Header (Some H) DbiStream_new))))))).

(** [reload] up to the end of the segmentation (line 182). *)
Definition reload_read (K : RawConstants) (Pdb : PDBFile) (Stream : list byte)
  : Result (DbiStream * StreamReader) :=
  '(Header, Reader) ← reload_header K Pdb (StreamReader.mk Stream 0);
  reload_substreams K Header Reader (set_Header (Some Header) DbiStream_new).

(** [reload] up to the call of [initializeSectionHeadersData]. *)
Definition reload_before_SectionHeaders (K : RawConstants) (Pdb : PDBFile)
    (Stream : list byte) : Result (DbiStream * StreamReader) :=
  '(D, Reader) ← reload_read K Pdb Stream;
  D ← initializeSectionContributionData K D;
  mret (D, Reader).

(** [reload] up to the call of [initializeFileInfo]. *)
Definition reload_before_FileInfo (K : RawConstants) (Pdb : PDBFile)
    (Stream : list byte) : Result (DbiStream * StreamReader) :=
  '(D, Reader) ← reload_before_SectionHeaders K Pdb Stream;
  D ← initializeSectionHeadersData K Pdb D;
  D ← initializeSectionMapData K D;
  mret (D, Reader).

(** [reload] up to the call of [initializeFpoRecords]. *)
Definition reload_before_FpoRecords (K : RawConstants) (Pdb : PDBFile)
    (Stream : list byte) : Result (DbiStream * StreamReader) :=
  '(D, Reader) ← reload_before_FileInfo K Pdb Stream;
  D ← initializeFileInfo D;
  mret (D, Reader).

(** Two results agree but for the raw bytes kept of the file-info
    substream: the same error, or decoders that differ in
    [FileInfoSubstream] only. *)
Definition same_but_FileInfoSubstream (r1 r2 : Result DbiStream) : Prop :=
  match r1, r2 with
  | Success D1, Success D2 => D2 = set_FileInfoSubstream (FileInfoSubstream D2) D1
  | Failure e1, Failure e2 => e1 = e2
  | OutOfBounds, OutOfBounds => True
  | _, _ => False
  end.

(** What the decoders that run after the segmentation leave as they
    found it: the records of the modules, the debug-stream-index table,
    the FPO table (until its own decoder runs) and the EC substream. *)
Definition keeps_tables (D0 D : DbiStream) : Prop :=
  Info <$> ModuleInfos D = Info <$> ModuleInfos D0 /\
  DbgStreams D = DbgStreams D0 /\
  FpoRecords D = FpoRecords D0 /\
  ECSubstream D = ECSubstream D0.

(** What the decoders that run before [initializeFileInfo] leave as they
    found it: the whole module list and the file-info substream. *)
Definition keeps_FileInfo_inputs (D0 D : DbiStream) : Prop :=
  ModuleInfos D = ModuleInfos D0 /\
  FileInfoSubstream D = FileInfoSubstream D0.

(** Two streams differ at most in the bytes at the positions [p] and
    [p + 1]. *)
Definition differ_only_in_field16 (p : Z) (S1 S2 : list byte) : Prop :=
  length S1 = length S2 /\
  forall i : nat, Z.of_nat i <> p -> Z.of_nat i <> p + 1 -> S1 !! i = S2 !! i.

(** Position of the [NumSourceFiles] field of the file-info substream
    header: the second 16-bit field of the substream. *)
Definition offset_NumSourceFiles (H : HeaderInfo) : Z := offset_FileInfo H + 2.

(** Two readers stand at the same offset, past the header of two file-info
    substreams that agree from there on. *)
Definition similar_readers (R1 R2 : StreamReader) : Prop :=
  Offset R1 = Offset R2 /\
  sizeof_FileInfoSubstreamHeader <= Offset R1 /\
  length (StreamReader.Stream R1) = length (StreamReader.Stream R2) /\
  drop 4 (StreamReader.Stream R1) = drop 4 (StreamReader.Stream R2).

(** ** Accessors and visitors

    The members of [DbiStream] that read the decoded state. *)

(** The masks and shifts of the bit fields of the header. *)
Definition FlagIncrementalMask : Z := 0x0001.
Definition FlagStrippedMask : Z := 0x0002.
Definition FlagHasCTypesMask : Z := 0x0004.

Definition BuildMinorMask : Z := 0x00FF.
Definition BuildMinorShift : Z := 0.

Definition BuildMajorMask : Z := 0x7F00.
Definition BuildMajorShift : Z := 8.

(** Conversion of a result to [uint16_t]. *)
Definition to_uint16 (x : Z) : Z := x mod 2 ^ 16.

Module Accessor.

(** [Header->field]: the pointer is null until [reload] has read the
    header; [None] stands for the dereference of the null pointer. *)
Definition getDbiVersion (D : DbiStream) : option Z :=
  VersionHeader <$> Header D.

Definition getAge (D : DbiStream) : option Z := Age <$> Header D.

Definition getPublicSymbolStreamIndex (D : DbiStream) : option Z :=
  PublicSymbolStreamIndex <$> Header D.

Definition getGlobalSymbolStreamIndex (D : DbiStream) : option Z :=
  GlobalSymbolStreamIndex <$> Header D.

Definition isIncrementallyLinked (D : DbiStream) : option bool :=
  (fun H => bool_decide (Z.land (Flags H) FlagIncrementalMask <> 0)) <$> Header D.

Definition hasCTypes (D : DbiStream) : option bool :=
  (fun H => bool_decide (Z.land (Flags H) FlagHasCTypesMask <> 0)) <$> Header D.

Definition isStripped (D : DbiStream) : option bool :=
  (fun H => bool_decide (Z.land (Flags H) FlagStrippedMask <> 0)) <$> Header D.

Definition getBuildMajorVersion (D : DbiStream) : option Z :=
  (fun H => to_uint16
              (Z.shiftr (Z.land (BuildNumber H) BuildMajorMask) BuildMajorShift))
    <$> Header D.

Definition getBuildMinorVersion (D : DbiStream) : option Z :=
  (fun H => to_uint16
              (Z.shiftr (Z.land (BuildNumber H) BuildMinorMask) BuildMinorShift))
    <$> Header D.

Definition getPdbDllVersion (D : DbiStream) : option Z :=
  PdbDllVersion <$> Header D.

Definition getSymRecordStreamIndex (D : DbiStream) : option Z :=
  SymRecordStreamIndex <$> Header D.

Definition getMachineType (D : DbiStream) : option Z :=
  MachineType <$> Header D.

Definition getSectionHeaders (D : DbiStream) : list (list byte) := SectionHeaders D.
Definition getFpoRecords (D : DbiStream) : list (list byte) := FpoRecords D.
Definition modules (D : DbiStream) : list ModuleInfoEx := ModuleInfos D.
Definition getSectionMap (D : DbiStream) : list (list byte) := SectionMap D.

End Accessor.

(** [ISectionContribVisitor]: the two overloads of [visit], one per
    record layout; a visitor object is a value of [V], which a call
    updates. *)
Class ISectionContribVisitor (V : Type) := {
  visit : list byte -> V -> V;
  visit2 : list byte -> V -> V
}.

(** [DbiStream::visitSectionContributions]. *)
Definition visitSectionContributions (K : RawConstants) {V : Type}
    `{ISectionContribVisitor V} (D : DbiStream) (Visitor : V) : V :=
  if decide (SectionContribVersion D = DbiSecContribVer60 K) then
    foldl (fun Visitor SC => visit SC Visitor) Visitor (SectionContribs D)
  else if decide (SectionContribVersion D = DbiSecContribV2 K) then
    foldl (fun Visitor SC => visit2 SC Visitor) Visitor (SectionContribs2 D)
  else Visitor.

(** A visitor that records what it is shown, in the order of the calls. *)
Inductive Contribution :=
| Contrib (SC : list byte)
| Contrib2 (SC : list byte).

Definition Contribution_bytes (c : Contribution) : list byte :=
  match c with
  | Contrib SC => SC
  | Contrib2 SC => SC
  end.

#[global] Instance recording_visitor : ISectionContribVisitor (list Contribution) := {
  visit := fun SC trace => trace ++ [Contrib SC];
  visit2 := fun SC trace => trace ++ [Contrib2 SC]
}.

(** ** Vocabulary of the further properties *)

(** What a decoder that runs after the segmentation leaves as it found
    it: the header and the bytes of the substreams. *)
Definition keeps_segments (D0 D : DbiStream) : Prop :=
  Header D = Header D0 /\
  SecContrSubstream D = SecContrSubstream D0 /\
  SecMapSubstream D = SecMapSubstream D0 /\
  FileInfoSubstream D = FileInfoSubstream D0 /\
  TypeServerMapSubstream D = TypeServerMapSubstream D0 /\
  ECSubstream D = ECSubstream D0 /\
  DbgStreams D = DbgStreams D0.

(** A result that is a value or a CorruptFile error: neither an access
    out of bounds nor an error of another kind, IndexOutOfBounds in
    particular. *)
Definition value_or_corrupt {A} (r : Result A) : Prop :=
  match r with
  | Success _ => True
  | Failure e => error_code e = corrupt_file
  | OutOfBounds => False
  end.

(** The per-module file counts that [initializeFileInfo] reads from the
    file-info substream: the second array of [n] 16-bit entries behind the
    header. *)
Definition ModFileCounts_of (n : Z) (FileInfo : list byte) : list Z :=
  ulittle16 <$> records (Z.to_nat n) (Z.to_nat 2)
                  (slice (sizeof_FileInfoSubstreamHeader + n * 2) (n * 2) FileInfo).

(** ** Streams that [reload] refuses before or after the check in question

    Variations of the sample stream in which one stage of [reload] fails
    although a later or an earlier stage would have had its say. *)
Module Early.

(** The file-info substream of the sample with a [NumModules] field of 3;
    the module-info region still holds two records. *)
Definition fi_three_modules : list byte :=
  put16 3 ++ put16 2 ++ (put16 0 ++ put16 1) ++ (put16 1 ++ put16 1) ++
  (put32 0 ++ put32 4) ++ Sample.names.

(** A section-contribution substream with a version tag that is neither
    of the two known ones. *)
Definition sc_unknown : list byte := put32 0 ++ Sample.zeros 28.

(** The sample stream with the wrong [NumModules] and the unknown
    section-contribution version. *)
Definition mismatch_unknown_tag : list byte :=
  Sample.stream_of 19990903 1 Sample.modi sc_unknown Sample.sm
    fi_three_modules [] [] Sample.dbg.

(** The stream with the misaligned file-info substream and a version
    below [PdbDbiV70]. *)
Definition misaligned_old_version : list byte :=
  Sample.stream_of 19990902 1 Sample.modi Sample.sc60 Sample.sm
    (Sample.fi ++ [Byte.x00]) [] [] Sample.dbg.

(** The stream with the misaligned file-info substream and one byte
    more than its header declares. *)
Definition misaligned_too_long : list byte := Sample.misaligned ++ [Byte.x00].

(** The sample stream with one byte behind the last entry of the
    debug-stream-index table, declared by the header. *)
Definition odd_table : list byte :=
  Sample.stream_of 19990903 1 Sample.modi Sample.sc60 Sample.sm Sample.fi
    [] [] (Sample.dbg ++ [Byte.x00]).

(** A loader of the EC names that fails. *)
Definition failing_load : NameHashTable_load :=
  fun _ => inl (RawError corrupt_file "Invalid hash table.").

End Early.
(** * Properties *)

(** ** Machine arithmetic and byte-level facts *)

Lemma byte_val_range (b : byte) : 0 <= byte_val b < 256.
Proof.
  unfold byte_val. pose proof (Byte.to_N_bounded b). lia.
Qed.

Lemma le_value_range (bs : list byte) :
  0 <= le_value bs < 256 ^ Z.of_nat (length bs).
Proof.
  induction bs as [|b bs IH]; simpl le_value; simpl length.
  - change (256 ^ Z.of_nat 0) with 1. lia.
  - rewrite Nat2Z.inj_succ, Z.pow_succ_r by lia.
    pose proof (byte_val_range b). nia.
Qed.

Lemma ulittle16_range (bs : list byte) : 0 <= ulittle16 bs < 2 ^ 16.
Proof.
  unfold ulittle16. pose proof (le_value_range (take 2 bs)) as Hr.
  assert (256 ^ Z.of_nat (length (take 2 bs)) <= 256 ^ 2) as Hle.
  { apply Z.pow_le_mono_r; [lia|]. rewrite length_take. lia. }
  change (256 ^ 2) with (2 ^ 16) in Hle. lia.
Qed.

Lemma ulittle32_range (bs : list byte) : 0 <= ulittle32 bs < 2 ^ 32.
Proof.
  unfold ulittle32. pose proof (le_value_range (take 4 bs)) as Hr.
  assert (256 ^ Z.of_nat (length (take 4 bs)) <= 256 ^ 4) as Hle.
  { apply Z.pow_le_mono_r; [lia|]. rewrite length_take. lia. }
  change (256 ^ 4) with (2 ^ 32) in Hle. lia.
Qed.

Lemma to_int32_range (x : Z) : - 2 ^ 31 <= Int.to_int32 x < 2 ^ 31.
Proof.
  unfold Int.to_int32, Int.to_uint32.
  pose proof (Z.mod_pos_bound x (2 ^ 32) ltac:(lia)).
  case_decide; lia.
Qed.

Lemma little32_range (bs : list byte) : - 2 ^ 31 <= little32 bs < 2 ^ 31.
Proof. apply to_int32_range. Qed.

(** A signed size converted to [size_t] keeps its residue modulo 4. *)
Lemma to_size_t_mod4 (x : Z) : Int.to_size_t x mod 4 = x mod 4.
Proof.
  unfold Int.to_size_t. apply Z.mod_mod_divide.
  exists (2 ^ 62). reflexivity.
Qed.

Lemma size_t_add_step (p x : Z) :
  Int.size_t_add (p mod 2 ^ 64) (Int.to_size_t x) = (p + x) mod 2 ^ 64.
Proof.
  unfold Int.size_t_add, Int.to_size_t. symmetry. apply Z.add_mod. lia.
Qed.

(** The sum that [reload] compares with the stream length, computed in
    [size_t], is the mathematical sum reduced modulo [2 ^ 64]. *)
Lemma size_t_sum (a b c d e f g : Z) :
  Int.size_t_add (Int.size_t_add (Int.size_t_add (Int.size_t_add
    (Int.size_t_add (Int.size_t_add (Int.size_t_add
      sizeof_HeaderInfo (Int.to_size_t a)) (Int.to_size_t b)) (Int.to_size_t c))
      (Int.to_size_t d)) (Int.to_size_t e)) (Int.to_size_t f)) (Int.to_size_t g)
  = (64 + (a + b + c + d + e + f + g)) mod 2 ^ 64.
Proof.
  change sizeof_HeaderInfo with (64 mod 2 ^ 64).
  rewrite !size_t_add_step. f_equal. lia.
Qed.

(** For a length that fits [uint32_t] and sizes that fit [int32_t], the
    comparison in [size_t] decides the equality of integers. *)
Lemma length_check_exact (len sum : Z) :
  0 <= len < 2 ^ 32 -> - 2 ^ 35 <= sum < 2 ^ 35 ->
  len = (64 + sum) mod 2 ^ 64 <-> len = 64 + sum.
Proof.
  intros Hlen Hsum. destruct (decide (0 <= 64 + sum)) as [Hpos|Hneg].
  - rewrite Z.mod_small by lia. done.
  - rewrite <- (Z_mod_plus_full (64 + sum) 1 (2 ^ 64)).
    rewrite Z.mod_small by lia. lia.
Qed.

Lemma declared_sizes_sum_range (bs : list byte) :
  - 2 ^ 35 <= declared_sizes_sum (decode_HeaderInfo bs) < 2 ^ 35.
Proof.
  unfold declared_sizes_sum, decode_HeaderInfo; simpl.
  pose proof (little32_range (drop 24 bs)). pose proof (little32_range (drop 28 bs)).
  pose proof (little32_range (drop 32 bs)). pose proof (little32_range (drop 36 bs)).
  pose proof (little32_range (drop 40 bs)). pose proof (little32_range (drop 48 bs)).
  pose proof (little32_range (drop 52 bs)). lia.
Qed.

(** ** The sum of the per-module file counts *)

Lemma foldl_uint32_add (counts : list Z) (acc : Z) :
  0 <= acc ->
  Forall (fun c => 0 <= c <= 65535) counts ->
  acc + 65535 * Z.of_nat (length counts) < 2 ^ 32 ->
  foldl Int.uint32_add acc counts = acc + foldr Z.add 0 counts.
Proof.
  intros Hacc Hall. revert acc Hacc.
  induction Hall as [|c counts Hc Hall IH]; intros acc Hacc Hlen; simpl.
  - lia.
  - simpl length in Hlen. rewrite Nat2Z.inj_succ in Hlen.
    unfold Int.uint32_add at 2, Int.to_uint32.
    rewrite Z.mod_small by lia.
    rewrite IH by lia. lia.
Qed.

(** ** The header stage *)

Section Header.

Context (K : RawConstants) (Pdb : PDBFile).

Lemma readBytes_ok (S : list byte) (Off Size : Z) :
  0 <= Size <= getLength S - Off ->
  readBytes (StreamReader.mk S Off) Size =
    Success (slice Off Size S, StreamReader.mk S (Off + Size)).
Proof.
  intros Hb. unfold readBytes, bytesRemaining; simpl.
  rewrite decide_True by done. done.
Qed.

Lemma readBytes_short (S : list byte) (Off Size : Z) :
  ~ (0 <= Size <= getLength S - Off) ->
  readBytes (StreamReader.mk S Off) Size = Failure truncated.
Proof.
  intros Hb. unfold readBytes, bytesRemaining; simpl.
  rewrite decide_False by done. done.
Qed.

(** What is left of the header stage once the first five checks have
    passed: the comparison of the length with the mathematical sum of
    the seven declared sizes, then the five alignment checks in the
    order of the source. *)
Lemma reload_header_checked (S : list byte) :
  header_checks K Pdb S ->
  reload_header K Pdb (StreamReader.mk S 0) =
    let H := header_of S in
    if decide (getLength S <> 64 + declared_sizes_sum H) then
      Failure (RawError corrupt_file "DBI Length does not equal sum of substreams.")
    else if decide (size_of Modi H mod 4 <> 0) then
      Failure (RawError corrupt_file (not_aligned_message Modi))
    else if decide (size_of SecContr H mod 4 <> 0) then
      Failure (RawError corrupt_file (not_aligned_message SecContr))
    else if decide (size_of SecMap H mod 4 <> 0) then
      Failure (RawError corrupt_file (not_aligned_message SecMap))
    else if decide (size_of FileInfo H mod 4 <> 0) then
      Failure (RawError corrupt_file (not_aligned_message FileInfo))
    else if decide (size_of TypeServer H mod 4 <> 0) then
      Failure (RawError corrupt_file (not_aligned_message TypeServer))
    else Success (H, StreamReader.mk S 64).
Proof.
  intros (Hlen & Hsig & Hver & IS & HIS & Hage).
  unfold reload_header. cbn [StreamReader.Stream].
  rewrite decide_False by lia.
  unfold readObject. rewrite readBytes_ok by (unfold sizeof_HeaderInfo in *; lia).
  fold (header_of S).
  rewrite decide_False by (intros Hne; apply Hne, Hsig).
  rewrite decide_False by lia.
  rewrite HIS. cbn [liftE mbind Result_bind].
  rewrite decide_False by (intros Hne; apply Hne, Hage).
  rewrite size_t_sum, !to_size_t_mod4.
  fold (declared_sizes_sum (header_of S)).
  pose proof (declared_sizes_sum_range (slice 0 sizeof_HeaderInfo S)) as Hsum.
  fold (header_of S) in Hsum.
  pose proof (length_check_exact (getLength S) (declared_sizes_sum (header_of S))
                ltac:(unfold sizeof_HeaderInfo in *; lia) Hsum) as Hiff.
  cbn zeta. cbn [size_of].
  destruct (decide (getLength S <> 64 + declared_sizes_sum (header_of S))) as [Hne|He].
  - rewrite decide_True by (intros Heq; apply Hne, Hiff, Heq). done.
  - rewrite decide_False by (intros Hne; apply He; intros Heq; apply Hne, Hiff, Heq).
    done.
Qed.

(** A failure of the header stage is a failure of [reload]. *)
Lemma reload_header_failure (load : NameHashTable_load) (S : list byte) (e : Error) :
  reload_header K Pdb (StreamReader.mk S 0) = Failure e ->
  reload K Pdb load S = Failure e.
Proof. intros He. unfold reload. rewrite He. done. Qed.

Lemma all_aligned_dec (H : HeaderInfo) :
  all_aligned H <->
  size_of Modi H mod 4 = 0 /\ size_of SecContr H mod 4 = 0 /\
  size_of SecMap H mod 4 = 0 /\ size_of FileInfo H mod 4 = 0 /\
  size_of TypeServer H mod 4 = 0.
Proof.
  split.
  - intros Ha. repeat split; apply Ha.
  - intros (? & ? & ? & ? & ?) []; done.
Qed.

(** C1 (amended): once the length, signature, version and age checks
    have passed, [reload] fails with the CorruptFile error of the length
    check unless the stream length equals 64 plus the sum of the seven
    sizes that the header declares (the six substream sizes and the size
    of the optional debug header); when the equality holds the length
    check passes, and the header stage succeeds as soon as the five
    checked sizes are multiples of 4. *)
Theorem C1_length_is_header_plus_seven_sizes
    (load : NameHashTable_load) (S : list byte) :
  header_checks K Pdb S ->
  (getLength S <> 64 + declared_sizes_sum (header_of S) ->
     reload K Pdb load S =
       Failure (RawError corrupt_file "DBI Length does not equal sum of substreams.")) /\
  (getLength S = 64 + declared_sizes_sum (header_of S) ->
     reload_header K Pdb (StreamReader.mk S 0) <>
       Failure (RawError corrupt_file "DBI Length does not equal sum of substreams.") /\
     (all_aligned (header_of S) ->
        reload_header K Pdb (StreamReader.mk S 0) =
          Success (header_of S, StreamReader.mk S 64))).
Proof.
  intros Hchk. pose proof (reload_header_checked S Hchk) as Hrh.
  cbn zeta in Hrh. split.
  - intros Hne. apply reload_header_failure.
    rewrite Hrh, decide_True by done. done.
  - intros Heq. rewrite Hrh, decide_False by (intros Hne; apply Hne, Heq).
    split.
    + repeat case_decide; discriminate.
    + intros (? & ? & ? & ? & ?)%all_aligned_dec.
      rewrite !decide_False by (intros Hne; apply Hne; done). done.
Qed.

(** C8: for a stream that has passed the earlier header checks (length
    at least 64, signature, version, age, total length), if one of the
    sizes of the module-info, section-contribution, section-map and
    file-info substreams or the type-server size is not a multiple of
    4, [reload] fails with a CorruptFile error; its message is the one of
    the first misaligned substream in the order of the checks, and the
    five messages are pairwise different, so the message names the
    substream. *)
Theorem C8_misaligned_substream_is_named
    (load : NameHashTable_load) (S : list byte) :
  header_checks K Pdb S ->
  getLength S = 64 + declared_sizes_sum (header_of S) ->
  ~ all_aligned (header_of S) ->
  (exists X,
     size_of X (header_of S) mod 4 <> 0 /\
     (forall Y, (check_order Y < check_order X)%nat ->
                size_of Y (header_of S) mod 4 = 0) /\
     reload K Pdb load S = Failure (RawError corrupt_file (not_aligned_message X))) /\
  (forall X Y, not_aligned_message X = not_aligned_message Y -> X = Y).
Proof.
  intros Hchk Heq Hna. split.
  - pose proof (reload_header_checked S Hchk) as Hrh. cbn zeta in Hrh.
    rewrite decide_False in Hrh by (intros Hne; apply Hne, Heq).
    destruct (decide (size_of Modi (header_of S) mod 4 <> 0)) as [H0|H0].
    { exists Modi. split; [done|]. split; [intros []; simpl; lia|].
      by apply reload_header_failure. }
    destruct (decide (size_of SecContr (header_of S) mod 4 <> 0)) as [H1|H1].
    { exists SecContr. split; [done|].
      split; [intros []; simpl; try lia; intros _; by apply dec_stable|].
      by apply reload_header_failure. }
    destruct (decide (size_of SecMap (header_of S) mod 4 <> 0)) as [H2|H2].
    { exists SecMap. split; [done|].
      split; [intros []; simpl; try lia; intros _; by apply dec_stable|].
      by apply reload_header_failure. }
    destruct (decide (size_of FileInfo (header_of S) mod 4 <> 0)) as [H3|H3].
    { exists FileInfo. split; [done|].
      split; [intros []; simpl; try lia; intros _; by apply dec_stable|].
      by apply reload_header_failure. }
    destruct (decide (size_of TypeServer (header_of S) mod 4 <> 0)) as [H4|H4].
    { exists TypeServer. split; [done|].
      split; [intros []; simpl; try lia; intros _; by apply dec_stable|].
      by apply reload_header_failure. }
    exfalso. apply Hna. apply all_aligned_dec.
    repeat split; by apply dec_stable.
  - intros [] []; simpl; intros Hm; try done; discriminate Hm.
Qed.

End Header.

(** C9: the number of source files is accumulated in 32 bits; with at
    most 65535 modules of at most 65535 files each the accumulator never
    wraps around, so the computed value is the mathematical sum of the
    counts, also when it exceeds 65535. *)
Theorem C9_RealNumSourceFiles_no_overflow (ModFileCountArray : list Z) :
  Z.of_nat (length ModFileCountArray) <= 65535 ->
  Forall (fun c => 0 <= c <= 65535) ModFileCountArray ->
  sum_ModFileCounts ModFileCountArray = foldr Z.add 0 ModFileCountArray /\
  0 <= foldr Z.add 0 ModFileCountArray < 2 ^ 32.
Proof.
  intros Hlen Hall. unfold sum_ModFileCounts.
  rewrite foldl_uint32_add by (try done; lia).
  split; [lia|].
  assert (0 <= foldr Z.add 0 ModFileCountArray
          <= 65535 * Z.of_nat (length ModFileCountArray)) as Hb.
  { clear Hlen. induction Hall as [|c l Hc Hall IH]; simpl.
    - lia.
    - simpl length. rewrite Nat2Z.inj_succ. lia. }
  lia.
Qed.

Lemma C9_RealNumSourceFiles_no_overflow_witness :
  sum_ModFileCounts [65535; 65535; 3] = 131073.
Proof.
  refine (eq_trans (proj1 (C9_RealNumSourceFiles_no_overflow [65535; 65535; 3] _ _)) _).
  - simpl. lia.
  - repeat constructor; lia.
  - reflexivity.
Defined.

(** ** Section contributions *)

Section SectionContributions.

Context (K : RawConstants) (HK : constants_ok K).

Lemma slice_app_length (t rest : list byte) :
  slice (getLength t) (getLength rest) (t ++ rest) = rest.
Proof.
  unfold slice, getLength. rewrite !Nat2Z.id.
  rewrite drop_app_length. apply take_ge. done.
Qed.

Lemma slice_0_app (t rest : list byte) :
  slice 0 (getLength t) (t ++ rest) = t.
Proof.
  unfold slice, getLength. rewrite Nat2Z.id. simpl. apply take_app_length.
Qed.

Lemma getLength_app (t rest : list byte) :
  getLength (t ++ rest) = getLength t + getLength rest.
Proof. unfold getLength. rewrite length_app. lia. Qed.

(** [loadSectionContribs] on a reader that stands after a prefix [t]:
    the rest is cut into records when its length is a multiple of the
    record size, and refused otherwise. *)
Lemma loadSectionContribs_rest (sz : Z) (t rest : list byte) :
  0 < sz -> getLength rest < 2 ^ 32 ->
  loadSectionContribs sz (StreamReader.mk (t ++ rest) (getLength t)) =
    if decide (getLength rest mod sz <> 0) then
      Failure (RawError corrupt_file "Invalid number of bytes of section contributions")
    else
      Success (records (Z.to_nat (getLength rest / sz)) (Z.to_nat sz) rest).
Proof.
  intros Hsz Hlen. unfold loadSectionContribs, bytesRemaining.
  cbn [StreamReader.Stream StreamReader.Offset].
  rewrite getLength_app.
  replace (getLength t + getLength rest - getLength t) with (getLength rest) by lia.
  case_decide as Hmod; [done|].
  assert (0 <= getLength rest) as Hnn by (unfold getLength; lia).
  assert (0 <= getLength rest / sz <= getLength rest) as Hq.
  { split; [apply Z.div_pos; lia|]. apply Z.div_le_upper_bound; [lia|]. nia. }
  unfold Int.to_uint32. rewrite (Z.mod_small (getLength rest / sz)) by lia.
  assert (getLength rest / sz * sz = getLength rest) as Hex.
  { pose proof (Z.div_mod (getLength rest) sz ltac:(lia)). lia. }
  unfold readArray. rewrite Hex.
  rewrite readBytes_ok by (rewrite getLength_app; lia).
  cbn [mbind Result_bind mret Result_ret]. rewrite slice_app_length. done.
Qed.

(** C2: the decoder of the section contributions is a function of the
    4-byte version tag [t] at the start of the region and of the bytes
    [rest] after it.  With the V60 tag only the V60 array is written,
    with the V2 tag only the V2 array; any other tag is an
    UnsupportedFeature error; and when the number of bytes after the tag
    is not a multiple of the size of the selected record, the result is a
    CorruptFile error. *)
Theorem C2_section_contribution_dispatch (D : DbiStream) (t rest : list byte) :
  SecContrSubstream D = t ++ rest ->
  length t = 4%nat ->
  getLength rest < 2 ^ 32 ->
  let tag := ulittle32 t in
  let n := getLength rest in
  let r := initializeSectionContributionData K D in
  (tag = DbiSecContribVer60 K ->
     (n mod sizeof_SectionContrib K <> 0 -> fails_with r corrupt_file) /\
     (n mod sizeof_SectionContrib K = 0 ->
        exists D', r = Success D' /\
          SectionContribs D' =
            records (Z.to_nat (n / sizeof_SectionContrib K))
                    (Z.to_nat (sizeof_SectionContrib K)) rest /\
          SectionContribs2 D' = SectionContribs2 D)) /\
  (tag = DbiSecContribV2 K ->
     (n mod sizeof_SectionContrib2 K <> 0 -> fails_with r corrupt_file) /\
     (n mod sizeof_SectionContrib2 K = 0 ->
        exists D', r = Success D' /\
          SectionContribs2 D' =
            records (Z.to_nat (n / sizeof_SectionContrib2 K))
                    (Z.to_nat (sizeof_SectionContrib2 K)) rest /\
          SectionContribs D' = SectionContribs D)) /\
  (tag <> DbiSecContribVer60 K -> tag <> DbiSecContribV2 K ->
     fails_with r feature_unsupported).
Proof.
  intros HS Ht Hlen tag n r.
  destruct HK as (Hdiff & _ & _ & Hsz1 & Hsz2 & _).
  assert (getLength t = 4) as Ht' by (unfold getLength; lia).
  assert (r =
    if decide (tag = DbiSecContribVer60 K) then
      a ← loadSectionContribs (sizeof_SectionContrib K)
            (StreamReader.mk (t ++ rest) (getLength t));
      mret (set_SectionContribs a (set_SectionContribVersion tag D))
    else if decide (tag = DbiSecContribV2 K) then
      a ← loadSectionContribs (sizeof_SectionContrib2 K)
            (StreamReader.mk (t ++ rest) (getLength t));
      mret (set_SectionContribs2 a (set_SectionContribVersion tag D))
    else Failure (RawError feature_unsupported
                    "Unsupported DBI Section Contribution version")) as Hr.
  { subst r. unfold initializeSectionContributionData, readObject.
    rewrite HS. rewrite readBytes_ok by (rewrite getLength_app; unfold getLength; lia).
    cbn [mbind Result_bind].
    rewrite <- Ht', slice_0_app. rewrite Ht'. cbn [Z.add]. done. }
  rewrite !loadSectionContribs_rest in Hr by done.
  fold n in Hr. split; [|split].
  - intros Htag. rewrite decide_True in Hr by done. split.
    + intros Hmod. rewrite decide_True in Hr by done. rewrite Hr. by eexists.
    + intros Hmod. rewrite decide_False in Hr by (intros Hne; by apply Hne).
      eexists. split; [exact Hr|]. done.
  - intros Htag.
    rewrite decide_False, decide_True in Hr by congruence. split.
    + intros Hmod. rewrite decide_True in Hr by done. rewrite Hr. by eexists.
    + intros Hmod. rewrite decide_False in Hr by (intros Hne; by apply Hne).
      eexists. split; [exact Hr|]. done.
  - intros H60 H2. rewrite !decide_False in Hr by done. rewrite Hr. by eexists.
Qed.

End SectionContributions.

(** ** File names *)

Section FileNames.

Lemma zero_string_app (s tail : list byte) :
  Byte.x00 ∉ s -> zero_string (s ++ Byte.x00 :: tail) = Some s.
Proof.
  induction s as [|b s IH]; intros Hs; simpl.
  - done.
  - apply not_elem_of_cons in Hs as [Hb Hs].
    rewrite decide_False by done. by rewrite IH.
Qed.

Lemma zero_string_unterminated (bs : list byte) :
  Byte.x00 ∉ bs -> zero_string bs = None.
Proof.
  induction bs as [|b bs IH]; intros Hs; simpl; [done|].
  apply not_elem_of_cons in Hs as [Hb Hs].
  rewrite decide_False by done. by rewrite IH.
Qed.

Lemma zero_string_Some (bs s : list byte) :
  zero_string bs = Some s ->
  exists tail, bs = s ++ Byte.x00 :: tail /\ Byte.x00 ∉ s.
Proof.
  revert s. induction bs as [|b bs IH]; intros s; simpl; [done|].
  case_decide as Hb.
  - intros [= <-]. exists bs. subst b. split; [done|]. apply not_elem_of_nil.
  - destruct (zero_string bs) as [s'|] eqn:Hz; [|done].
    intros [= <-]. destruct (IH s' eq_refl) as (tail & -> & Hs').
    exists tail. split; [done|]. apply not_elem_of_cons. done.
Qed.

(** C7: an index at or past the number of decoded offsets is an
    IndexOutOfBounds error, never a string; an index in bounds yields the
    NUL-terminated string that starts at the stored offset of the names
    buffer; and an offset past the end of the names buffer is a
    CorruptFile error. *)
Theorem C7_getFileNameForIndex (D : DbiStream) (Index : Z) :
  0 <= Index ->
  (Index >= Z.of_nat (length (FileNameOffsets D)) ->
     getFileNameForIndex D Index = Failure (RawError index_out_of_bounds "")) /\
  (Index < Z.of_nat (length (FileNameOffsets D)) ->
     exists FileOffset,
       FileNameOffsets D !! Z.to_nat Index = Some FileOffset /\
       (forall pre s post,
          NamesBuffer D = pre ++ s ++ Byte.x00 :: post ->
          getLength pre = FileOffset ->
          Byte.x00 ∉ s ->
          getFileNameForIndex D Index = Success s) /\
       (getLength (NamesBuffer D) < FileOffset ->
          fails_with (getFileNameForIndex D Index) corrupt_file) /\
       (forall s, getFileNameForIndex D Index = Success s ->
          exists post,
            drop (Z.to_nat FileOffset) (NamesBuffer D) = s ++ Byte.x00 :: post /\
            Byte.x00 ∉ s)).
Proof.
  intros Hnn. split.
  - intros Hge. unfold getFileNameForIndex. by rewrite decide_True.
  - intros Hlt.
    destruct (lookup_lt_is_Some_2 (FileNameOffsets D) (Z.to_nat Index) ltac:(lia))
      as [FileOffset Hoff].
    exists FileOffset. split; [done|].
    unfold getFileNameForIndex. rewrite decide_False by lia. rewrite Hoff.
    unfold readZeroString, setOffset. cbn [StreamReader.Stream StreamReader.Offset].
    split; [|split].
    + intros pre s post HN Hpre Hs. rewrite HN.
      rewrite decide_True
        by (rewrite getLength_app; unfold getLength in *; lia).
      subst FileOffset. unfold getLength. rewrite Nat2Z.id.
      rewrite drop_app_length, zero_string_app by done. done.
    + intros Hpast. rewrite decide_False by lia. by eexists.
    + intros s. case_decide as Hin; [|done].
      destruct (zero_string _) as [s'|] eqn:Hz; [|done].
      cbn. intros [= <-]. by apply zero_string_Some.
Qed.

End FileNames.

(** ** The association of file names with modules *)

Section Association.

Context (D : DbiStream).
Hypothesis offsets_fit : Z.of_nat (length (FileNameOffsets D)) < 2 ^ 32.

Lemma getFileNameForIndex_set_ModuleInfos (v : list ModuleInfoEx) (Index : Z) :
  getFileNameForIndex (set_ModuleInfos v D) Index = getFileNameForIndex D Index.
Proof. done. Qed.

(** A name was resolved, so the cursor can be incremented without
    wrapping around. *)
Lemma getFileNameForIndex_Success_lt (Index : Z) (name : list byte) :
  getFileNameForIndex D Index = Success name ->
  Index < Z.of_nat (length (FileNameOffsets D)).
Proof.
  unfold getFileNameForIndex. case_decide; [done|]. lia.
Qed.

(** The inner loop resolves the [todo] indices from the cursor on and
    stores the names at the positions [J], [J + 1], ... *)
Lemma assign_SourceFiles_spec (todo J : nat) (NextFileIndex : Z)
    (Files : list (list byte)) :
  0 <= NextFileIndex ->
  (J + todo <= length Files)%nat ->
  assign_SourceFiles D todo J NextFileIndex Files =
    names ← mapM (getFileNameForIndex D) (seqZ NextFileIndex (Z.of_nat todo));
    mret (take J Files ++ names ++ drop (J + todo) Files,
          NextFileIndex + Z.of_nat todo).
Proof.
  revert J NextFileIndex Files.
  induction todo as [|todo IH]; intros J Next Files Hnn Hlen.
  - cbn [assign_SourceFiles]. rewrite seqZ_nil by lia. cbn.
    rewrite Nat.add_0_r, take_drop, Z.add_0_r. done.
  - cbn [assign_SourceFiles]. rewrite seqZ_cons by lia.
    cbn [mapM mbind Result_bind].
    destruct (getFileNameForIndex D Next) as [name| |] eqn:Hget; [|done..].
    cbn [mbind Result_bind].
    apply getFileNameForIndex_Success_lt in Hget.
    unfold Int.uint32_add, Int.to_uint32. rewrite Z.mod_small by lia.
    rewrite IH by (rewrite ?length_insert; lia).
    replace (Z.pred (Z.of_nat (S todo))) with (Z.of_nat todo) by lia.
    replace (Z.succ Next) with (Next + 1) by lia.
    destruct (mapM (getFileNameForIndex D) (seqZ (Next + 1) (Z.of_nat todo)))
      as [names| |]; [|done..].
    cbn. f_equal. f_equal; [|lia].
    rewrite (take_S_r _ J name)
      by (apply list_lookup_insert_eq; lia).
    rewrite take_insert_ge by lia.
    rewrite drop_insert_lt by lia.
    rewrite <- app_assoc. cbn.
    replace (S (J + todo)) with (J + S todo)%nat by lia. done.
Qed.

End Association.

Section AssociationPass.

Lemma mapM_Result_length {A B} (f : A -> Result B) (l : list A) (k : list B) :
  mapM f l = Success k -> length k = length l.
Proof.
  revert k. induction l as [|x l IH]; intros k; cbn.
  - by intros [= <-].
  - destruct (f x); [|done..]. cbn.
    destruct (mapM f l) as [k'| |]; [|done..]. cbn.
    intros [= <-]. cbn. by rewrite (IH k').
Qed.

(** The outer loop, started at module [I] with the cursor at
    [NextFileIndex], is the association of the remaining modules. *)
Lemma associate_SourceFiles_spec (counts : list Z) (todo I : nat)
    (NextFileIndex : Z) (D : DbiStream) :
  Z.of_nat (length (FileNameOffsets D)) < 2 ^ 32 ->
  Forall (fun c => 0 <= c) counts ->
  0 <= NextFileIndex ->
  (I + todo = length (ModuleInfos D))%nat ->
  associate_SourceFiles counts todo I NextFileIndex D =
    ms ← spec_association (getFileNameForIndex D)
           (drop I (ModuleInfos D)) (drop I counts) NextFileIndex;
    mret (set_ModuleInfos (take I (ModuleInfos D) ++ ms) D).
Proof.
  intros Hfit Hcounts.
  revert I NextFileIndex D Hfit.
  induction todo as [|todo IH]; intros I Next D Hfit Hnn Hlen.
  - cbn [associate_SourceFiles].
    rewrite drop_ge by lia. cbn.
    rewrite app_nil_r, take_ge by lia. by destruct D.
  - cbn [associate_SourceFiles].
    destruct (lookup_lt_is_Some_2 (ModuleInfos D) I ltac:(lia)) as [M HM].
    rewrite HM. rewrite (drop_S _ M I) by done.
    destruct (counts !! I) as [c|] eqn:Hc.
    + rewrite (drop_S _ c I) by done. cbn [spec_association].
      assert (0 <= c) as Hcnn.
      { eapply (Forall_lookup_1 _ counts I c) in Hcounts; done. }
      rewrite assign_SourceFiles_spec
        by (rewrite ?length_resize; done || lia).
      rewrite Z2Nat.id by lia.
      destruct (mapM (getFileNameForIndex D) (seqZ Next c))
        as [names| |] eqn:Hnames; [|done..].
      cbn [mbind Result_bind mret Result_ret].
      apply mapM_Result_length in Hnames.
      rewrite length_seqZ in Hnames.
      rewrite take_0, Nat.add_0_l, drop_ge, app_nil_r
        by (rewrite length_resize; lia).
      cbn [app].
      rewrite IH; cbn [ModuleInfos FileNameOffsets set_ModuleInfos];
        rewrite ?length_insert; try done; try lia.
      rewrite drop_insert_lt by lia.
      change (getFileNameForIndex (set_ModuleInfos ?v D)) with (getFileNameForIndex D).
      destruct (spec_association (getFileNameForIndex D)
                  (drop (S I) (ModuleInfos D)) (drop (S I) counts) (Next + c))
        as [ms| |]; [|done..].
      cbn. f_equal.
      rewrite (take_S_r _ I (set_SourceFiles names M))
        by (apply list_lookup_insert_eq; lia).
      rewrite take_insert_ge by lia.
      rewrite <- app_assoc. done.
    + apply lookup_ge_None_1 in Hc. rewrite (drop_ge counts) by done. done.
Qed.

(** C4: the association pass walks the modules in order with a single
    running cursor into [FileNameOffsets] that is never reset: the two
    loops of the source compute the association of the design document,
    in which module [i] takes the next [ModFileCounts[i]] indices, each
    resolved by [getFileNameForIndex], in order.  In the scenario of the
    document (names buffer a.c NUL b.c NUL, module 0 with one file at
    offset 0, module 1 with one file at offset 4) the file list of module
    0 is a.c and that of module 1 is b.c. *)
Theorem C4_association_pass (D : DbiStream) (ModFileCountArray : list Z) :
  Z.of_nat (length (FileNameOffsets D)) < 2 ^ 32 ->
  Forall (fun c => 0 <= c) ModFileCountArray ->
  associate_SourceFiles ModFileCountArray (length (ModuleInfos D)) 0 0 D =
    (ms ← spec_association (getFileNameForIndex D)
            (ModuleInfos D) ModFileCountArray 0;
     mret (set_ModuleInfos ms D)) /\
  (exists D',
     initializeFileInfo Sample.two_modules = Success D' /\
     FileNameOffsets D' = [0; 4] /\
     NamesBuffer D' = Sample.names /\
     SourceFiles <$> ModuleInfos D' =
       [[Sample.bytes "a.c"]; [Sample.bytes "b.c"]]).
Proof.
  intros Hfit Hcounts. split.
  - rewrite associate_SourceFiles_spec by (done || lia).
    rewrite !drop_0. done.
  - eexists. split; [vm_compute; reflexivity|]. by vm_compute.
Qed.

End AssociationPass.

(** ** The stages of [reload] *)

Section Stages.

Context (K : RawConstants) (Pdb : PDBFile) (load : NameHashTable_load).

Lemma reload_staged_read (S : list byte) :
  reload K Pdb load S =
    '(D, Reader) ← reload_read K Pdb S;
    D ← reload_initialize K Pdb D;
    reload_finish load Reader D.
Proof.
  unfold reload, reload_read.
  destruct (reload_header K Pdb (StreamReader.mk S 0)) as [[H R]| |]; [|done..].
  done.
Qed.

Lemma reload_staged_FpoRecords (S : list byte) :
  reload K Pdb load S =
    '(D, Reader) ← reload_before_FpoRecords K Pdb S;
    D ← initializeFpoRecords K Pdb D;
    reload_finish load Reader D.
Proof.
  rewrite reload_staged_read.
  unfold reload_before_FpoRecords, reload_before_FileInfo,
    reload_before_SectionHeaders, reload_initialize.
  destruct (reload_read K Pdb S) as [[D R]| |]; [|done..]. cbn.
  destruct (initializeSectionContributionData K D) as [D1| |]; [|done..]. cbn.
  destruct (initializeSectionHeadersData K Pdb D1) as [D2| |]; [|done..]. cbn.
  destruct (initializeSectionMapData K D2) as [D3| |]; [|done..]. cbn.
  destruct (initializeFileInfo D3) as [D4| |]; [|done..]. done.
Qed.

Lemma reload_staged_FileInfo (S : list byte) :
  reload K Pdb load S =
    '(D, Reader) ← reload_before_FileInfo K Pdb S;
    D ← initializeFileInfo D;
    D ← initializeFpoRecords K Pdb D;
    reload_finish load Reader D.
Proof.
  rewrite reload_staged_FpoRecords. unfold reload_before_FpoRecords.
  destruct (reload_before_FileInfo K Pdb S) as [[D R]| |]; [|done..]. cbn.
  destruct (initializeFileInfo D) as [D4| |]; done.
Qed.

Lemma reload_staged_SectionHeaders (S : list byte) :
  reload K Pdb load S =
    '(D, Reader) ← reload_before_SectionHeaders K Pdb S;
    D ← initializeSectionHeadersData K Pdb D;
    D ← initializeSectionMapData K D;
    D ← initializeFileInfo D;
    D ← initializeFpoRecords K Pdb D;
    reload_finish load Reader D.
Proof.
  rewrite reload_staged_FileInfo. unfold reload_before_FileInfo.
  destruct (reload_before_SectionHeaders K Pdb S) as [[D R]| |]; [|done..]. cbn.
  destruct (initializeSectionHeadersData K Pdb D) as [D2| |]; [|done..]. cbn.
  destruct (initializeSectionMapData K D2) as [D3| |]; done.
Qed.

Lemma to_uint32_nonneg (x : Z) : 0 <= Int.to_uint32 x < 2 ^ 32.
Proof. unfold Int.to_uint32. apply Z.mod_pos_bound. lia. Qed.

Lemma DbgStreams_count_nonneg (H : HeaderInfo) : 0 <= DbgStreams_count H < 2 ^ 32.
Proof. apply to_uint32_nonneg. Qed.

Lemma readBytes_eq (S : list byte) (Off Size : Z) :
  readBytes (StreamReader.mk S Off) Size =
    if decide (0 <= Size <= getLength S - Off)
    then Success (slice Off Size S, StreamReader.mk S (Off + Size))
    else Failure truncated.
Proof. done. Qed.

(** The header stage succeeds only with the header at the start of the
    stream, and leaves the reader behind it. *)
Lemma reload_header_Success (S : list byte) (H : HeaderInfo) (R : StreamReader) :
  reload_header K Pdb (StreamReader.mk S 0) = Success (H, R) ->
  H = header_of S /\ R = StreamReader.mk S sizeof_HeaderInfo /\
  sizeof_HeaderInfo <= getLength S.
Proof.
  unfold reload_header. cbn [StreamReader.Stream].
  case_decide as Hlen; [done|].
  unfold readObject. rewrite readBytes_ok by (unfold sizeof_HeaderInfo in *; lia).
  fold (header_of S).
  destruct (getPDBInfoStream Pdb) as [e|IS]; cbn [liftE mbind Result_bind];
    repeat case_decide; try done.
  intros [= <- <-]. split; [done|]. split; [done|]. lia.
Qed.

(** The segmentation reads seven consecutive ranges; it succeeds when
    the last one ends within the stream. *)
Lemma reload_substreams_eq (H : HeaderInfo) (S : list byte) :
  sizeof_HeaderInfo <= getLength S ->
  reload_substreams K H (StreamReader.mk S sizeof_HeaderInfo)
      (set_Header (Some H) DbiStream_new) =
    if decide (offset_end H <= getLength S)
    then Success (segmented K H S, StreamReader.mk S (offset_end H))
    else Failure truncated.
Proof.
  intros Hlen.
  pose proof (to_uint32_nonneg (ModiSubstreamSize H)).
  pose proof (to_uint32_nonneg (SecContrSubstreamSize H)).
  pose proof (to_uint32_nonneg (SectionMapSize H)).
  pose proof (to_uint32_nonneg (FileInfoSize H)).
  pose proof (to_uint32_nonneg (TypeServerSize H)).
  pose proof (to_uint32_nonneg (ECSubstreamSize H)).
  pose proof (DbgStreams_count_nonneg H).
  unfold reload_substreams, readStreamRef, readArray.
  fold (DbgStreams_count H).
  unfold offset_end, offset_DbgStreams, offset_EC, offset_TypeServer,
    offset_FileInfo, offset_SecMap, offset_SecContr in *.
  destruct (decide (_ <= getLength S)) as [Hfit|Hfit].
  - repeat (rewrite readBytes_eq, decide_True by lia;
            cbn [mbind Result_bind mret Result_ret]).
    done.
  - repeat (rewrite readBytes_eq; case_decide;
            cbn [mbind Result_bind mret Result_ret]; [|done]).
    lia.
Qed.

Lemma reload_read_Success (S : list byte) (D : DbiStream) (R : StreamReader) :
  reload_read K Pdb S = Success (D, R) ->
  D = segmented K (header_of S) S /\
  R = StreamReader.mk S (offset_end (header_of S)) /\
  offset_end (header_of S) <= getLength S.
Proof.
  unfold reload_read.
  destruct (reload_header K Pdb (StreamReader.mk S 0)) as [[H R0]| |] eqn:Hh; [|done..].
  apply reload_header_Success in Hh as (-> & -> & Hlen).
  cbn [mbind Result_bind]. rewrite reload_substreams_eq by done.
  case_decide; [|done]. by intros [= <- <-].
Qed.

End Stages.

(** ** What each decoder writes *)

Section Frames.

Context (K : RawConstants) (Pdb : PDBFile).

Lemma bind_Success {A B} (m : Result A) (f : A -> Result B) (b : B) :
  m ≫= f = Success b -> exists a, m = Success a /\ f a = Success b.
Proof. destruct m as [a| |]; [|done..]. intros Hf. by exists a. Qed.

Lemma liftE_Success {A} (x : Expected A) (a : A) :
  liftE x = Success a -> x = inr a.
Proof. destruct x; [done|]. by intros [= ->]. Qed.

Lemma initializeSectionContributionData_frame (D D' : DbiStream) :
  initializeSectionContributionData K D = Success D' ->
  exists v a, D' = set_SectionContribs a (set_SectionContribVersion v D) \/
              D' = set_SectionContribs2 a (set_SectionContribVersion v D).
Proof.
  unfold initializeSectionContributionData.
  intros ([bs R] & _ & Hk)%bind_Success.
  repeat case_decide; [| |done].
  - apply bind_Success in Hk as (a & _ & [= <-]). eauto.
  - apply bind_Success in Hk as (a & _ & [= <-]). eauto.
Qed.

Lemma initializeSectionHeadersData_frame (D D' : DbiStream) :
  initializeSectionHeadersData K Pdb D = Success D' ->
  exists a s, D' = set_SectionHeaderStream (Some s) (set_SectionHeaders a D).
Proof.
  unfold initializeSectionHeadersData.
  intros (n & _ & Hk)%bind_Success.
  case_decide; [done|].
  apply bind_Success in Hk as (s & _ & Hk).
  case_decide; [done|].
  destruct (readArray _ _ _) as [[a R]| |]; [|done..].
  injection Hk as <-. eauto.
Qed.

Lemma initializeSectionMapData_frame (D D' : DbiStream) :
  initializeSectionMapData K D = Success D' ->
  exists a, D' = set_SectionMap a D.
Proof.
  unfold initializeSectionMapData.
  intros ([bs R] & _ & Hk)%bind_Success.
  apply bind_Success in Hk as ([a R'] & _ & [= <-]). eauto.
Qed.

Lemma initializeFpoRecords_frame (D D' : DbiStream) :
  initializeFpoRecords K Pdb D = Success D' ->
  D' = D \/ exists a s, D' = set_FpoStream (Some s) (set_FpoRecords a D).
Proof.
  unfold initializeFpoRecords.
  intros (n & _ & Hk)%bind_Success.
  case_decide; [injection Hk as <-; by left|].
  case_decide; [done|].
  apply bind_Success in Hk as (s & _ & Hk).
  case_decide; [done|].
  destruct (readArray _ _ _) as [[a R]| |]; [|done..].
  injection Hk as <-. eauto.
Qed.

Lemma assign_SourceFiles_length (D : DbiStream) (todo J : nat) (Next : Z)
    (Files Files' : list (list byte)) (Next' : Z) :
  assign_SourceFiles D todo J Next Files = Success (Files', Next') ->
  length Files' = length Files.
Proof.
  revert J Next Files. induction todo as [|todo IH]; intros J Next Files; cbn.
  - by intros [= <- <-].
  - intros (name & _ & Hk)%bind_Success.
    apply IH in Hk. by rewrite length_insert in Hk.
Qed.

(** The association loop writes file lists only: the modules keep their
    number, their order and their records. *)
Lemma associate_SourceFiles_frame (counts : list Z) (todo I : nat) (Next : Z)
    (D D' : DbiStream) :
  associate_SourceFiles counts todo I Next D = Success D' ->
  exists ms, D' = set_ModuleInfos ms D /\
             Info <$> ms = Info <$> ModuleInfos D.
Proof.
  revert I Next D. induction todo as [|todo IH]; intros I Next D; cbn.
  - intros [= <-]. exists (ModuleInfos D). split; [by destruct D|done].
  - destruct (counts !! I) as [c|]; [|done].
    destruct (ModuleInfos D !! I) as [M|] eqn:HM; [|done].
    intros ([Files Next'] & _ & Hk)%bind_Success.
    apply IH in Hk as (ms & -> & Hms). exists ms. split; [done|].
    rewrite Hms. cbn [ModuleInfos set_ModuleInfos].
    rewrite list_fmap_insert. cbn [Info set_SourceFiles].
    apply list_insert_id. by rewrite list_lookup_fmap, HM.
Qed.

Lemma initializeFileInfo_frame (D D' : DbiStream) :
  initializeFileInfo D = Success D' ->
  exists ms o n,
    D' = set_ModuleInfos ms (set_NamesBuffer n (set_FileNameOffsets o D)) /\
    Info <$> ms = Info <$> ModuleInfos D /\
    exists FH rest,
      FileInfoSubstream D = FH ++ rest /\ length FH = 4%nat /\
      ulittle16 FH = Z.of_nat (length (ModuleInfos D)).
Proof.
  unfold initializeFileInfo.
  intros ([FH R] & Hrd & Hk)%bind_Success.
  case_decide as Hnm; [done|].
  apply bind_Success in Hk as ([a1 R1] & _ & Hk).
  apply bind_Success in Hk as ([a2 R2] & _ & Hk).
  apply bind_Success in Hk as ([a3 R3] & _ & Hk).
  apply bind_Success in Hk as ([a4 R4] & _ & Hk).
  apply associate_SourceFiles_frame in Hk as (ms & -> & Hms).
  exists ms, (ulittle32 <$> a3), a4. split; [done|]. split; [done|].
  unfold readObject in Hrd. rewrite readBytes_eq in Hrd.
  case_decide as Hb; [|done]. injection Hrd as <- <-.
  unfold sizeof_FileInfoSubstreamHeader, getLength in Hb.
  exists (take 4 (FileInfoSubstream D)), (drop 4 (FileInfoSubstream D)).
  split; [by rewrite take_drop|].
  split; [rewrite length_take; lia|].
  rewrite <- Hnm. done.
Qed.

End Frames.

(** ** The state of the decoder between the stages *)

Section Invariants.

Context (K : RawConstants) (Pdb : PDBFile).

Lemma keeps_tables_trans (D0 D1 D2 : DbiStream) :
  keeps_tables D0 D1 -> keeps_tables D1 D2 -> keeps_tables D0 D2.
Proof.
  intros (? & ? & ? & ?) (? & ? & ? & ?). repeat split; congruence.
Qed.

Lemma keeps_FileInfo_inputs_trans (D0 D1 D2 : DbiStream) :
  keeps_FileInfo_inputs D0 D1 -> keeps_FileInfo_inputs D1 D2 ->
  keeps_FileInfo_inputs D0 D2.
Proof. intros (? & ?) (? & ?). split; congruence. Qed.

Lemma initializeSectionContributionData_keeps (D D' : DbiStream) :
  initializeSectionContributionData K D = Success D' ->
  keeps_tables D D' /\ keeps_FileInfo_inputs D D'.
Proof.
  intros (v & a & [-> | ->])%initializeSectionContributionData_frame; done.
Qed.

Lemma initializeSectionHeadersData_keeps (D D' : DbiStream) :
  initializeSectionHeadersData K Pdb D = Success D' ->
  keeps_tables D D' /\ keeps_FileInfo_inputs D D'.
Proof.
  intros (a & s & ->)%initializeSectionHeadersData_frame; done.
Qed.

Lemma initializeSectionMapData_keeps (D D' : DbiStream) :
  initializeSectionMapData K D = Success D' ->
  keeps_tables D D' /\ keeps_FileInfo_inputs D D'.
Proof.
  intros (a & ->)%initializeSectionMapData_frame; done.
Qed.

Lemma initializeFileInfo_keeps (D D' : DbiStream) :
  initializeFileInfo D = Success D' -> keeps_tables D D'.
Proof.
  intros (ms & o & n & -> & Hms & _)%initializeFileInfo_frame; done.
Qed.

Lemma before_SectionHeaders_inv (S : list byte) (D : DbiStream) (R : StreamReader) :
  reload_before_SectionHeaders K Pdb S = Success (D, R) ->
  R = StreamReader.mk S (offset_end (header_of S)) /\
  offset_end (header_of S) <= getLength S /\
  keeps_tables (segmented K (header_of S) S) D /\
  keeps_FileInfo_inputs (segmented K (header_of S) S) D.
Proof.
  unfold reload_before_SectionHeaders.
  intros ([D0 R0] & Hrd & Hk)%bind_Success.
  apply reload_read_Success in Hrd as (-> & -> & Hfit).
  apply bind_Success in Hk as (D1 & Hsc & [= <- <-]).
  apply initializeSectionContributionData_keeps in Hsc as [? ?]. done.
Qed.

Lemma before_FileInfo_inv (S : list byte) (D : DbiStream) (R : StreamReader) :
  reload_before_FileInfo K Pdb S = Success (D, R) ->
  R = StreamReader.mk S (offset_end (header_of S)) /\
  offset_end (header_of S) <= getLength S /\
  keeps_tables (segmented K (header_of S) S) D /\
  keeps_FileInfo_inputs (segmented K (header_of S) S) D.
Proof.
  unfold reload_before_FileInfo.
  intros ([D1 R1] & Hrd & Hk)%bind_Success.
  apply before_SectionHeaders_inv in Hrd as (-> & Hfit & Ht & Hf).
  apply bind_Success in Hk as (D2 & Hsh & Hk).
  apply bind_Success in Hk as (D3 & Hsm & [= <- <-]).
  apply initializeSectionHeadersData_keeps in Hsh as [? ?].
  apply initializeSectionMapData_keeps in Hsm as [? ?].
  eauto 8 using keeps_tables_trans, keeps_FileInfo_inputs_trans.
Qed.

Lemma before_FpoRecords_inv (S : list byte) (D : DbiStream) (R : StreamReader) :
  reload_before_FpoRecords K Pdb S = Success (D, R) ->
  R = StreamReader.mk S (offset_end (header_of S)) /\
  offset_end (header_of S) <= getLength S /\
  keeps_tables (segmented K (header_of S) S) D.
Proof.
  unfold reload_before_FpoRecords.
  intros ([D3 R3] & Hrd & Hk)%bind_Success.
  apply before_FileInfo_inv in Hrd as (-> & Hfit & Ht & Hf).
  apply bind_Success in Hk as (D4 & Hfi & [= <- <-]).
  apply initializeFileInfo_keeps in Hfi.
  eauto using keeps_tables_trans.
Qed.

Lemma records_length (count sz : nat) (bs : list byte) :
  length (records count sz bs) = count.
Proof.
  revert bs. induction count as [|count IH]; intros bs; simpl; [done|].
  by rewrite IH.
Qed.

Lemma segmented_DbgStreams_length (H : HeaderInfo) (S : list byte) :
  length (DbgStreams (segmented K H S)) = Z.to_nat (DbgStreams_count H).
Proof.
  cbn [segmented DbgStreams set_DbgStreams].
  by rewrite length_fmap, records_length.
Qed.

End Invariants.

(** ** The iteration of the module records *)

Section ModuleRecords.

Context (K : RawConstants).
Hypothesis prefix_nonneg : 0 <= sizeof_ModInfo_FileLayout K.

Lemma ModInfo_extract_advances (bs : list byte) (len : Z) (Info : ModInfo) :
  ModInfo_extract K bs = Some (len, Info) -> (1 <= Z.to_nat len)%nat.
Proof.
  unfold ModInfo_extract. case_decide; [done|].
  destruct (zero_string _) as [obj|]; [|done].
  destruct (zero_string _) as [name|]; [|done].
  intros [= <- _]. unfold alignTo4.
  Z.div_mod_to_equations. lia.
Qed.

Lemma VarStreamArray_iter_fuel (n fuel1 fuel2 : nat) (bs : list byte) :
  (length bs <= n)%nat -> (length bs <= fuel1)%nat -> (length bs <= fuel2)%nat ->
  VarStreamArray_iter K fuel1 bs = VarStreamArray_iter K fuel2 bs.
Proof.
  revert fuel1 fuel2 bs.
  induction n as [|n IH]; intros fuel1 fuel2 bs Hn H1 H2.
  - destruct bs; [|simpl in Hn; lia].
    destruct fuel1, fuel2; done.
  - destruct bs as [|b bs]; [destruct fuel1, fuel2; done|].
    destruct fuel1 as [|fuel1]; [simpl in H1; lia|].
    destruct fuel2 as [|fuel2]; [simpl in H2; lia|].
    cbn [VarStreamArray_iter]. rewrite decide_False by done.
    destruct (ModInfo_extract K (b :: bs)) as [[len Info]|] eqn:He; [|done].
    apply ModInfo_extract_advances in He.
    f_equal. simpl in Hn, H1, H2.
    apply IH; rewrite length_drop; simpl; lia.
Qed.

(** Iterating for as many steps as the region has bytes exhausts it:
    more steps produce the same records. *)
Lemma VarStreamArray_fuel (fuel : nat) (bs : list byte) :
  (length bs <= fuel)%nat ->
  VarStreamArray_iter K fuel bs = VarStreamArray_records K bs.
Proof.
  intros Hf. unfold VarStreamArray_records.
  by apply (VarStreamArray_iter_fuel (length bs)).
Qed.

End ModuleRecords.

(** ** Module count, FPO records and the debug-stream-index table *)

Section Reload.

Context (K : RawConstants) (Pdb : PDBFile) (load : NameHashTable_load).
Hypothesis HK : constants_ok K.

(** C5: the number of modules is the number of records that the
    iteration of the module-info region produces (the iteration visits
    the whole region, however many steps it is given), not a field of a
    header; and when [reload] reaches the file-info decoder with a
    [NumModules] field that differs from that number, it fails with a
    CorruptFile error, so that a successful [reload] has as many modules
    as records were iterated. *)
Theorem C5_module_count_is_discovered
    (S : list byte) (D : DbiStream) (R : StreamReader) :
  reload_before_FileInfo K Pdb S = Success (D, R) ->
  let region := ModInfo_region (header_of S) S in
  let produced := VarStreamArray_records K region in
  (forall fuel, (length region <= fuel)%nat ->
                VarStreamArray_iter K fuel region = produced) /\
  Info <$> ModuleInfos D = produced /\
  FileInfoSubstream D =
    slice (offset_FileInfo (header_of S))
          (Int.to_uint32 (FileInfoSize (header_of S))) S /\
  (forall FH rest,
     FileInfoSubstream D = FH ++ rest -> length FH = 4%nat ->
     ulittle16 FH <> Z.of_nat (length produced) ->
     reload K Pdb load S =
       Failure (RawError corrupt_file "FileInfo substream count doesn't match DBI.")) /\
  (forall D', reload K Pdb load S = Success D' ->
     Info <$> ModuleInfos D' = produced /\
     ulittle16 (FileInfoSubstream D) = Z.of_nat (length produced)).
Proof.
  intros Hbefore region produced.
  destruct HK as (_ & _ & _ & _ & _ & _ & _ & Hprefix & _).
  pose proof (before_FileInfo_inv K Pdb S D R Hbefore)
    as (-> & Hfit & (HI & HDbg & HFpo & HEC) & (HM & HFI)).
  assert (Info <$> ModuleInfos D = produced) as Hprod.
  { rewrite HI. cbn [segmented ModuleInfos set_ModuleInfos set_Header
      set_SecContrSubstream set_SecMapSubstream set_FileInfoSubstream
      set_TypeServerMapSubstream set_ECSubstream set_DbgStreams].
    rewrite <- list_fmap_compose. apply list_fmap_id. }
  assert (length (ModuleInfos D) = length produced) as Hlen.
  { rewrite <- Hprod. by rewrite length_fmap. }
  split; [intros fuel Hf; by apply VarStreamArray_fuel|].
  split; [done|]. split; [by rewrite HFI|].
  split.
  - intros FH rest HFH Hlen4 Hne.
    rewrite reload_staged_FileInfo, Hbefore. cbn [mbind Result_bind].
    unfold initializeFileInfo, readObject.
    rewrite HFH. rewrite readBytes_ok
      by (rewrite getLength_app; unfold sizeof_FileInfoSubstreamHeader, getLength; lia).
    cbn [mbind Result_bind].
    replace sizeof_FileInfoSubstreamHeader with (getLength FH)
      by (unfold getLength, sizeof_FileInfoSubstreamHeader; lia).
    rewrite slice_0_app, <- HFH.
    rewrite decide_True by (rewrite Hlen; done). done.
  - intros D' Hrel.
    rewrite reload_staged_FileInfo, Hbefore in Hrel. cbn [mbind Result_bind] in Hrel.
    apply bind_Success in Hrel as (D4 & Hfi & Hrel).
    apply bind_Success in Hrel as (D5 & Hfpo & Hrel).
    unfold reload_finish in Hrel. case_decide; [done|].
    apply bind_Success in Hrel as (u & _ & [= <-]).
    apply initializeFileInfo_frame in Hfi as (ms & o & n & -> & Hms & FH & rest & HFH & H4 & Hnum).
    split.
    + apply initializeFpoRecords_frame in Hfpo as [-> | (a & s & ->)];
        cbn [ModuleInfos set_ModuleInfos set_FpoStream set_FpoRecords];
        by rewrite Hms.
    + rewrite HFH. unfold ulittle16 in *.
      rewrite take_app_le by lia.
      by rewrite Hnum, Hlen.
Qed.

Lemma readArray_all (S : list byte) (sz : Z) :
  0 < sz -> getLength S < 2 ^ 32 -> getLength S mod sz = 0 ->
  readArray (StreamReader.mk S 0) (Int.to_uint32 (getLength S / sz)) sz =
    Success (records (Z.to_nat (getLength S / sz)) (Z.to_nat sz) S,
             StreamReader.mk S (getLength S)).
Proof.
  intros Hsz Hlen Hmod.
  assert (0 <= getLength S) as Hnn by (unfold getLength; lia).
  assert (0 <= getLength S / sz <= getLength S) as Hq.
  { split; [apply Z.div_pos; lia|]. apply Z.div_le_upper_bound; [lia|]. nia. }
  unfold Int.to_uint32. rewrite (Z.mod_small (getLength S / sz)) by lia.
  assert (getLength S / sz * sz = getLength S) as Hex.
  { pose proof (Z.div_mod (getLength S) sz ltac:(lia)). lia. }
  unfold readArray. rewrite Hex, readBytes_ok by lia.
  cbn [mbind Result_bind mret Result_ret].
  change S with ([] ++ S) at 1. change 0 with (getLength (@nil byte)).
  rewrite slice_app_length. done.
Qed.

(** C6: when [reload] reaches the FPO decoder and the entry of the
    debug-stream-index table for the new FPO kind is the all-ones
    sentinel, the decoder succeeds and leaves the FPO table empty, and
    [reload] succeeds as soon as the final checks do; a non-sentinel
    entry outside of the stream directory is a NoSuchStream error; a
    stream whose length is not a multiple of the FPO record size is a
    CorruptFile error; and any stream whose length is a multiple of the
    record size is accepted and cut into records. *)
Theorem C6_FpoRecords (S : list byte) (D : DbiStream) (R : StreamReader)
    (StreamNum : Z) :
  reload_before_FpoRecords K Pdb S = Success (D, R) ->
  DbgStreams D !! Z.to_nat (DbgHeaderType_value K NewFPO) = Some StreamNum ->
  (StreamNum = InvalidStreamIndex ->
     initializeFpoRecords K Pdb D = Success D /\
     FpoRecords D = [] /\
     reload K Pdb load S = reload_finish load R D /\
     (bytesRemaining R <= 0 -> load (ECSubstream D) = inr () ->
        reload K Pdb load S = Success D)) /\
  (StreamNum <> InvalidStreamIndex -> StreamNum >= getNumStreams Pdb ->
     reload K Pdb load S = Failure (RawError no_stream "")) /\
  (StreamNum <> InvalidStreamIndex -> StreamNum < getNumStreams Pdb ->
     forall FS, createIndexedStream Pdb StreamNum = inr FS ->
     getLength FS < 2 ^ 32 ->
     (getLength FS mod sizeof_FpoData K <> 0 ->
        reload K Pdb load S =
          Failure (RawError corrupt_file "Corrupted New FPO stream.")) /\
     (getLength FS mod sizeof_FpoData K = 0 ->
        let D' := set_FpoStream (Some FS)
                    (set_FpoRecords
                       (records (Z.to_nat (getLength FS / sizeof_FpoData K))
                                (Z.to_nat (sizeof_FpoData K)) FS) D) in
        initializeFpoRecords K Pdb D = Success D' /\
        reload K Pdb load S = reload_finish load R D')).
Proof.
  intros Hbefore Hentry.
  destruct HK as (_ & _ & _ & _ & _ & _ & Hfpo & _).
  pose proof (before_FpoRecords_inv K Pdb S D R Hbefore)
    as (-> & Hfit & (HI & HDbg & HFpo & HEC)).
  assert (forall r, initializeFpoRecords K Pdb D = r ->
            reload K Pdb load S = r ≫= reload_finish load
              (StreamReader.mk S (offset_end (header_of S)))) as Hrel.
  { intros r <-. rewrite reload_staged_FpoRecords, Hbefore. done. }
  assert (initializeFpoRecords K Pdb D =
    if decide (StreamNum = InvalidStreamIndex) then Success D
    else if decide (StreamNum >= getNumStreams Pdb) then
      Failure (RawError no_stream "")
    else
      FS ← liftE (createIndexedStream Pdb StreamNum);
      if decide (getLength FS mod sizeof_FpoData K <> 0) then
        Failure (RawError corrupt_file "Corrupted New FPO stream.")
      else
        match readArray (StreamReader.mk FS 0)
                (Int.to_uint32 (getLength FS / sizeof_FpoData K))
                (sizeof_FpoData K) with
        | Success (a, _) => Success (set_FpoStream (Some FS) (set_FpoRecords a D))
        | Failure _ => Failure (RawError corrupt_file "Corrupted New FPO stream.")
        | OutOfBounds => OutOfBounds
        end) as Hinit.
  { unfold initializeFpoRecords, getDebugStreamIndex. by rewrite Hentry. }
  split; [|split].
  - intros ->. rewrite decide_True in Hinit by done.
    split; [done|]. split; [by rewrite HFpo|].
    rewrite (Hrel _ Hinit). split; [done|].
    intros Hleft Hload. cbn [mbind Result_bind].
    unfold reload_finish. rewrite decide_False by lia. by rewrite Hload.
  - intros Hns Hge. rewrite decide_False, decide_True in Hinit by done.
    by rewrite (Hrel _ Hinit).
  - intros Hns Hlt FS HFS Hlen.
    rewrite decide_False, decide_False, HFS in Hinit by (done || lia).
    cbn [liftE mbind Result_bind] in Hinit. split.
    + intros Hmod. rewrite decide_True in Hinit by done.
      by rewrite (Hrel _ Hinit).
    + intros Hmod. rewrite decide_False in Hinit by (intros Hne; by apply Hne).
      rewrite readArray_all in Hinit by done.
      split; [done|]. by rewrite (Hrel _ Hinit).
Qed.

(** C10: the lookup of a kind in the debug-stream-index table checks no
    bound.  The table has as many entries as the declared size of the
    optional debug header, divided by 2, says; the lookup of a kind is in
    bounds exactly when the position of the kind is below that number,
    and out of bounds otherwise.  [reload] looks up the section-header
    kind as soon as the section contributions are decoded and the new
    FPO kind as soon as the file names are decoded: with a table too
    short for the kind, the access is out of bounds. *)
Theorem C10_debug_stream_index_unchecked
    (S : list byte) (D : DbiStream) (R : StreamReader) :
  reload_before_SectionHeaders K Pdb S = Success (D, R) ->
  let count := DbgStreams_count (header_of S) in
  Z.of_nat (length (DbgStreams D)) = count /\
  (0 <= OptionalDbgHdrSize (header_of S) ->
     count = OptionalDbgHdrSize (header_of S) / 2) /\
  (forall T, DbgHeaderType_value K T < count <->
             exists StreamNum, getDebugStreamIndex K D T = Success StreamNum) /\
  (forall T, count <= DbgHeaderType_value K T <->
             getDebugStreamIndex K D T = OutOfBounds) /\
  (count <= DbgHeaderType_value K SectionHdr ->
     reload K Pdb load S = OutOfBounds) /\
  (forall D4 R4,
     reload_before_FpoRecords K Pdb S = Success (D4, R4) ->
     count <= DbgHeaderType_value K NewFPO ->
     reload K Pdb load S = OutOfBounds).
Proof.
  intros Hbefore count.
  destruct HK as (_ & _ & _ & _ & _ & _ & _ & _ & Hkind).
  pose proof (before_SectionHeaders_inv K Pdb S D R Hbefore)
    as (-> & Hfit & (HI & HDbg & HFpo & HEC) & _).
  pose proof (DbgStreams_count_nonneg (header_of S)) as Hc. fold count in Hc.
  assert (Z.of_nat (length (DbgStreams D)) = count) as Hlen.
  { rewrite HDbg, segmented_DbgStreams_length. fold count. lia. }
  assert (forall (D' : DbiStream) T, DbgStreams D' = DbgStreams D ->
            count <= DbgHeaderType_value K T ->
            getDebugStreamIndex K D' T = OutOfBounds) as Hoob.
  { intros D' T HD' Hle. unfold getDebugStreamIndex. rewrite HD'.
    rewrite lookup_ge_None_2; [done|]. pose proof (Hkind T). lia. }
  assert (forall T, DbgHeaderType_value K T < count ->
            exists v, getDebugStreamIndex K D T = Success v) as Hin.
  { intros T Hlt. unfold getDebugStreamIndex. pose proof (Hkind T).
    destruct (lookup_lt_is_Some_2 (DbgStreams D)
                (Z.to_nat (DbgHeaderType_value K T)) ltac:(lia)) as [v Hv].
    rewrite Hv. by exists v. }
  split; [done|]. split; [|split; [|split; [|split]]].
  - intros Hnn. subst count. unfold DbgStreams_count, Int.to_size_t, Int.to_uint32.
    pose proof (little32_range (drop 48 (slice 0 sizeof_HeaderInfo S))) as Hr.
    change (little32 (drop 48 (slice 0 sizeof_HeaderInfo S)))
      with (OptionalDbgHdrSize (header_of S)) in Hr.
    rewrite (Z.mod_small (OptionalDbgHdrSize (header_of S))) by lia.
    apply Z.mod_small. Z.div_mod_to_equations. lia.
  - intros T. split; [apply Hin|].
    intros [v Hv]. destruct (decide (DbgHeaderType_value K T < count)); [done|].
    rewrite Hoob in Hv by (done || lia). done.
  - intros T. split; [by apply Hoob|].
    intros Ho. destruct (decide (count <= DbgHeaderType_value K T)); [done|].
    destruct (Hin T ltac:(lia)) as [v Hv]. congruence.
  - intros Hle. rewrite reload_staged_SectionHeaders, Hbefore.
    cbn [mbind Result_bind]. unfold initializeSectionHeadersData.
    by rewrite Hoob.
  - intros D4 R4 Hb4 Hle.
    pose proof (before_FpoRecords_inv K Pdb S D4 R4 Hb4)
      as (-> & _ & (_ & HDbg4 & _)).
    rewrite reload_staged_FpoRecords, Hb4.
    cbn [mbind Result_bind]. unfold initializeFpoRecords.
    rewrite Hoob; [done| congruence | done].
Qed.

End Reload.

(** ** The declared number of source files is not used *)

Section NumSourceFiles.

Context (K : RawConstants) (Pdb : PDBFile) (load : NameHashTable_load).

Lemma slice_agree (S1 S2 : list byte) (off n : Z) :
  0 <= off ->
  (forall i : nat, off <= Z.of_nat i < off + n -> S1 !! i = S2 !! i) ->
  slice off n S1 = slice off n S2.
Proof.
  intros Hoff Hag. unfold slice. apply list_eq. intros i.
  rewrite !lookup_take. case_decide; [|done].
  rewrite !lookup_drop. apply Hag. lia.
Qed.

Lemma getLength_eq (S1 S2 : list byte) :
  length S1 = length S2 -> getLength S1 = getLength S2.
Proof. unfold getLength. by intros ->. Qed.

(** The header stage looks at the length of the stream and at its first
    64 bytes only. *)
Lemma reload_header_agree (S1 S2 : list byte) :
  length S1 = length S2 ->
  slice 0 sizeof_HeaderInfo S1 = slice 0 sizeof_HeaderInfo S2 ->
  reload_header K Pdb (StreamReader.mk S2 0) =
    match reload_header K Pdb (StreamReader.mk S1 0) with
    | Success (H, R) => Success (H, StreamReader.mk S2 (Offset R))
    | Failure e => Failure e
    | OutOfBounds => OutOfBounds
    end.
Proof.
  intros Hlen Hsl. unfold reload_header, readObject.
  cbn [StreamReader.Stream]. rewrite !readBytes_eq.
  rewrite <- (getLength_eq S1 S2 Hlen), <- Hsl.
  case_decide; [done|]. case_decide; [|done].
  destruct (getPDBInfoStream Pdb) as [e|IS]; cbn [liftE mbind Result_bind];
    repeat case_decide; done.
Qed.

Lemma set_FileInfoSubstream_id (D : DbiStream) :
  set_FileInfoSubstream (FileInfoSubstream D) D = D.
Proof. by destruct D. Qed.

(** The decoders other than [initializeFileInfo] do not look at the
    file-info substream. *)
Lemma initializeSectionContributionData_FileInfo (f : list byte) (D : DbiStream) :
  initializeSectionContributionData K (set_FileInfoSubstream f D) =
    set_FileInfoSubstream f <$> initializeSectionContributionData K D.
Proof.
  unfold initializeSectionContributionData.
  cbn [SecContrSubstream set_FileInfoSubstream].
  destruct (readObject _ _) as [[bs R]| |]; [|done..].
  cbn [mbind Result_bind SectionContribVersion set_SectionContribVersion
       set_FileInfoSubstream].
  repeat case_decide; [| |done];
    destruct (loadSectionContribs _ _) as [a| |]; done.
Qed.

Lemma initializeSectionHeadersData_FileInfo (f : list byte) (D : DbiStream) :
  initializeSectionHeadersData K Pdb (set_FileInfoSubstream f D) =
    set_FileInfoSubstream f <$> initializeSectionHeadersData K Pdb D.
Proof.
  unfold initializeSectionHeadersData, getDebugStreamIndex.
  cbn [DbgStreams set_FileInfoSubstream].
  destruct (DbgStreams D !! _) as [n|]; [|done]. cbn [mbind Result_bind].
  case_decide; [done|].
  destruct (createIndexedStream Pdb n) as [e|s]; [done|]. cbn [liftE mbind Result_bind].
  case_decide; [done|].
  destruct (readArray _ _ _) as [[a R]| |]; done.
Qed.

Lemma initializeSectionMapData_FileInfo (f : list byte) (D : DbiStream) :
  initializeSectionMapData K (set_FileInfoSubstream f D) =
    set_FileInfoSubstream f <$> initializeSectionMapData K D.
Proof.
  unfold initializeSectionMapData.
  cbn [SecMapSubstream set_FileInfoSubstream].
  destruct (readObject _ _) as [[bs R]| |]; [|done..]. cbn [mbind Result_bind].
  destruct (readArray _ _ _) as [[a R']| |]; done.
Qed.

Lemma initializeFpoRecords_FileInfo (f : list byte) (D : DbiStream) :
  initializeFpoRecords K Pdb (set_FileInfoSubstream f D) =
    set_FileInfoSubstream f <$> initializeFpoRecords K Pdb D.
Proof.
  unfold initializeFpoRecords, getDebugStreamIndex.
  cbn [DbgStreams set_FileInfoSubstream].
  destruct (DbgStreams D !! _) as [n|]; [|done]. cbn [mbind Result_bind].
  case_decide; [done|]. case_decide; [done|].
  destruct (createIndexedStream Pdb n) as [e|s]; [done|]. cbn [liftE mbind Result_bind].
  case_decide; [done|].
  destruct (readArray _ _ _) as [[a R]| |]; done.
Qed.

Lemma reload_finish_FileInfo (f : list byte) (R1 R2 : StreamReader) (D : DbiStream) :
  bytesRemaining R1 = bytesRemaining R2 ->
  reload_finish load R2 (set_FileInfoSubstream f D) =
    set_FileInfoSubstream f <$> reload_finish load R1 D.
Proof.
  intros Hrem. unfold reload_finish. rewrite Hrem.
  cbn [ECSubstream set_FileInfoSubstream].
  case_decide; [done|]. destruct (load (ECSubstream D)); done.
Qed.

Lemma assign_SourceFiles_FileInfo (f : list byte) (D : DbiStream)
    (todo J : nat) (Next : Z) (Files : list (list byte)) :
  assign_SourceFiles (set_FileInfoSubstream f D) todo J Next Files =
    assign_SourceFiles D todo J Next Files.
Proof.
  revert J Next Files. induction todo as [|todo IH]; intros J Next Files; [done|].
  cbn [assign_SourceFiles].
  change (getFileNameForIndex (set_FileInfoSubstream f D) Next)
    with (getFileNameForIndex D Next).
  destruct (getFileNameForIndex D Next); [|done..].
  cbn [mbind Result_bind]. apply IH.
Qed.

Lemma associate_SourceFiles_FileInfo (f : list byte) (counts : list Z)
    (todo I : nat) (Next : Z) (D : DbiStream) :
  associate_SourceFiles counts todo I Next (set_FileInfoSubstream f D) =
    set_FileInfoSubstream f <$> associate_SourceFiles counts todo I Next D.
Proof.
  revert I Next D. induction todo as [|todo IH]; intros I Next D; [done|].
  cbn [associate_SourceFiles ModuleInfos set_FileInfoSubstream].
  destruct (counts !! I) as [c|]; [|done].
  destruct (ModuleInfos D !! I) as [M|]; [|done].
  rewrite assign_SourceFiles_FileInfo.
  destruct (assign_SourceFiles D _ _ _ _) as [[Files Next']| |]; [|done..].
  cbn [mbind Result_bind]. apply (IH _ _ (set_ModuleInfos _ D)).
Qed.

(** Reads by two similar readers fail together or return the same bytes
    and similar readers. *)
Lemma readBytes_similar (R1 R2 : StreamReader) (n : Z) :
  similar_readers R1 R2 ->
  match readBytes R1 n, readBytes R2 n with
  | Success (b1, R1'), Success (b2, R2') => b1 = b2 /\ similar_readers R1' R2'
  | Failure e1, Failure e2 => e1 = e2
  | _, _ => False
  end.
Proof.
  destruct R1 as [S1 o1], R2 as [S2 o2].
  intros (Ho & H4 & Hlen & Hdrop). cbn in Ho, H4, Hlen, Hdrop. subst o2.
  rewrite !readBytes_eq. rewrite <- (getLength_eq S1 S2 Hlen).
  unfold sizeof_FileInfoSubstreamHeader in H4.
  case_decide; [|done]. split.
  - unfold slice.
    replace (Z.to_nat o1) with (4 + (Z.to_nat o1 - 4))%nat by lia.
    rewrite <- !drop_drop. by rewrite Hdrop.
  - repeat split; cbn; try done.
    unfold sizeof_FileInfoSubstreamHeader. lia.
Qed.

Lemma bytesRemaining_similar (R1 R2 : StreamReader) :
  similar_readers R1 R2 -> bytesRemaining R1 = bytesRemaining R2.
Proof.
  intros (Ho & _ & Hlen & _). unfold bytesRemaining.
  by rewrite Ho, (getLength_eq _ _ Hlen).
Qed.

Lemma readArray_similar (R1 R2 : StreamReader) (n sz : Z) :
  similar_readers R1 R2 ->
  match readArray R1 n sz, readArray R2 n sz with
  | Success (b1, R1'), Success (b2, R2') => b1 = b2 /\ similar_readers R1' R2'
  | Failure e1, Failure e2 => e1 = e2
  | _, _ => False
  end.
Proof.
  intros Hsim. unfold readArray.
  pose proof (readBytes_similar R1 R2 (n * sz) Hsim) as Hrd.
  destruct (readBytes R1 (n * sz)) as [[b1 R1']| |],
           (readBytes R2 (n * sz)) as [[b2 R2']| |]; try done.
  destruct Hrd as [-> Hsim']. done.
Qed.

(** [initializeFileInfo] looks at the first 16-bit field of the header
    of the substream and at the bytes after the header: the second
    16-bit field, [NumSourceFiles], is not used. *)
Lemma initializeFileInfo_NumSourceFiles (f2 : list byte) (D : DbiStream) :
  length f2 = length (FileInfoSubstream D) ->
  take 2 f2 = take 2 (FileInfoSubstream D) ->
  drop 4 f2 = drop 4 (FileInfoSubstream D) ->
  initializeFileInfo (set_FileInfoSubstream f2 D) =
    set_FileInfoSubstream f2 <$> initializeFileInfo D.
Proof.
  intros Hlen Htake Hdrop. unfold initializeFileInfo, readObject.
  cbn [FileInfoSubstream ModuleInfos set_FileInfoSubstream].
  rewrite !readBytes_eq. rewrite (getLength_eq _ _ Hlen).
  case_decide as Hfit; [|done]. cbn [mbind Result_bind].
  assert (forall f, ulittle16 (slice 0 sizeof_FileInfoSubstreamHeader f) =
                    le_value (take 2 f)) as Hnum.
  { intros f. unfold ulittle16, slice. cbn [drop Z.to_nat].
    by rewrite take_take. }
  rewrite !Hnum, Htake.
  case_decide; [done|].
  assert (similar_readers
            (StreamReader.mk (FileInfoSubstream D) (0 + sizeof_FileInfoSubstreamHeader))
            (StreamReader.mk f2 (0 + sizeof_FileInfoSubstreamHeader))) as Hsim.
  { repeat split; cbn; done. }
  set (size := Int.to_uint32 (Z.of_nat (length (ModuleInfos D)))).
  pose proof (readArray_similar _ _ size 2 Hsim) as Hr1.
  destruct (readArray (StreamReader.mk (FileInfoSubstream D) _) size 2)
    as [[a1 R1]| |],
    (readArray (StreamReader.mk f2 _) size 2) as [[a1' R1']| |]; try (by subst).
  destruct Hr1 as [<- Hsim1]. cbn [mbind Result_bind].
  pose proof (readArray_similar _ _ size 2 Hsim1) as Hr2.
  destruct (readArray R1 size 2) as [[a2 R2]| |],
           (readArray R1' size 2) as [[a2' R2']| |]; try (by subst).
  destruct Hr2 as [<- Hsim2]. cbn [mbind Result_bind].
  set (nsf := sum_ModFileCounts (ulittle16 <$> a2)).
  pose proof (readArray_similar _ _ nsf 4 Hsim2) as Hr3.
  destruct (readArray R2 nsf 4) as [[a3 R3]| |],
           (readArray R2' nsf 4) as [[a3' R3']| |]; try (by subst).
  destruct Hr3 as [<- Hsim3]. cbn [mbind Result_bind].
  unfold readStreamRefRest, readStreamRef.
  rewrite <- (bytesRemaining_similar _ _ Hsim3).
  pose proof (readBytes_similar _ _ (bytesRemaining R3) Hsim3) as Hr4.
  destruct (readBytes R3 (bytesRemaining R3)) as [[a4 R4]| |],
           (readBytes R3' (bytesRemaining R3)) as [[a4' R4']| |]; try (by subst).
  destruct Hr4 as [<- Hsim4]. cbn [mbind Result_bind].
  cbn [ModuleInfos set_NamesBuffer set_FileNameOffsets set_FileInfoSubstream].
  apply (associate_SourceFiles_FileInfo f2 _ _ 0 0
           (set_NamesBuffer a4 (set_FileNameOffsets (ulittle32 <$> a3) D))).
Qed.

End NumSourceFiles.

Section RealNumSourceFiles.

Lemma foldl_uint32_add_nonneg (counts : list Z) (acc : Z) :
  0 <= acc -> 0 <= foldl Int.uint32_add acc counts.
Proof.
  revert acc. induction counts as [|c counts IH]; intros acc Hacc; cbn; [done|].
  apply IH. unfold Int.uint32_add. by apply to_uint32_nonneg.
Qed.

(** The offsets table that [initializeFileInfo] reads has as many
    entries as the sum of the per-module counts says: the counts are the
    second array of the substream, behind the header and the array of
    module indices. *)
Lemma initializeFileInfo_offsets (D D' : DbiStream) :
  initializeFileInfo D = Success D' ->
  let n := Z.of_nat (length (ModuleInfos D)) in
  FileInfoSubstream D' = FileInfoSubstream D /\
  length (ModuleInfos D') = length (ModuleInfos D) /\
  Z.of_nat (length (FileNameOffsets D')) =
    sum_ModFileCounts
      (ulittle16 <$> records (Z.to_nat n) (Z.to_nat 2)
                       (slice (sizeof_FileInfoSubstreamHeader + n * 2) (n * 2)
                              (FileInfoSubstream D))).
Proof.
  intros Hinit n.
  pose proof (initializeFileInfo_frame D D' Hinit)
    as (ms & o & nb & -> & Hms & FH & rest & HFH & H4 & Hnum).
  split; [done|]. split.
  { cbn. rewrite <- (length_fmap Info ms), Hms. by rewrite length_fmap. }
  revert Hinit. unfold initializeFileInfo, readObject, readArray, readStreamRefRest,
    readStreamRef.
  rewrite readBytes_eq. case_decide; [|done]. cbn [mbind Result_bind].
  case_decide; [done|].
  pose proof (ulittle16_range FH) as Hr. rewrite Hnum in Hr. fold n in Hr.
  assert (Int.to_uint32 n = n) as Hu by (apply Z.mod_small; lia).
  subst n. rewrite !Hu.
  rewrite readBytes_eq. case_decide; [|done].
  cbn [mbind Result_bind mret Result_ret].
  rewrite readBytes_eq. case_decide; [|done].
  cbn [mbind Result_bind mret Result_ret].
  rewrite readBytes_eq. case_decide; [|done].
  cbn [mbind Result_bind mret Result_ret].
  rewrite readBytes_eq. case_decide; [|done].
  cbn [mbind Result_bind mret Result_ret].
  intros (ms' & Heq & _)%associate_SourceFiles_frame.
  apply (f_equal FileNameOffsets) in Heq.
  cbn [FileNameOffsets set_ModuleInfos set_NamesBuffer set_FileNameOffsets] in Heq.
  cbn [FileNameOffsets set_ModuleInfos set_NamesBuffer set_FileNameOffsets].
  rewrite Heq.
  rewrite length_fmap, records_length.
  rewrite Z.add_0_l.
  rewrite Z2Nat.id; [done|].
  unfold sum_ModFileCounts. by apply foldl_uint32_add_nonneg.
Qed.

End RealNumSourceFiles.

Section NumSourceFilesReload.

Context (K : RawConstants) (Pdb : PDBFile) (load : NameHashTable_load).

Lemma offset_FileInfo_lower (H : HeaderInfo) : sizeof_HeaderInfo <= offset_FileInfo H.
Proof.
  unfold offset_FileInfo, offset_SecMap, offset_SecContr.
  pose proof (to_uint32_nonneg (ModiSubstreamSize H)).
  pose proof (to_uint32_nonneg (SecContrSubstreamSize H)).
  pose proof (to_uint32_nonneg (SectionMapSize H)). lia.
Qed.

Lemma length_slice_eq (S1 S2 : list byte) (off n : Z) :
  length S1 = length S2 -> length (slice off n S1) = length (slice off n S2).
Proof. intros Hlen. unfold slice. by rewrite !length_take, !length_drop, Hlen. Qed.

Variables S1 S2 : list byte.
Hypothesis field_exists : 4 <= FileInfoSize (header_of S1).
Hypothesis Hdiff :
  differ_only_in_field16 (offset_NumSourceFiles (header_of S1)) S1 S2.

Let H := header_of S1.
Let f1 := slice (offset_FileInfo H) (Int.to_uint32 (FileInfoSize H)) S1.
Let f2 := slice (offset_FileInfo H) (Int.to_uint32 (FileInfoSize H)) S2.

Lemma FileInfoSize_uint32 : Int.to_uint32 (FileInfoSize H) = FileInfoSize H.
Proof.
  pose proof (little32_range (drop 36 (slice 0 sizeof_HeaderInfo S1))) as Hr.
  change (little32 (drop 36 (slice 0 sizeof_HeaderInfo S1)))
    with (FileInfoSize H) in Hr.
  unfold Int.to_uint32. apply Z.mod_small. subst H. lia.
Qed.

Lemma agree_outside (off n : Z) :
  0 <= off ->
  off + n <= offset_FileInfo H \/ offset_TypeServer H <= off ->
  slice off n S1 = slice off n S2.
Proof.
  intros Hoff Hout. apply slice_agree; [done|].
  intros i Hi. apply Hdiff; unfold offset_NumSourceFiles, offset_TypeServer in *;
    fold H in field_exists |- *; rewrite ?FileInfoSize_uint32 in *; lia.
Qed.

Lemma header_agree : header_of S2 = H.
Proof.
  unfold H, header_of. f_equal. symmetry. apply agree_outside; [done|].
  left. pose proof (offset_FileInfo_lower H). lia.
Qed.

Lemma segmented_agree :
  segmented K H S2 = set_FileInfoSubstream f2 (segmented K H S1).
Proof.
  pose proof (to_uint32_nonneg (ModiSubstreamSize H)).
  pose proof (to_uint32_nonneg (SecContrSubstreamSize H)).
  pose proof (to_uint32_nonneg (SectionMapSize H)).
  pose proof (to_uint32_nonneg (FileInfoSize H)).
  pose proof (to_uint32_nonneg (TypeServerSize H)).
  pose proof (to_uint32_nonneg (ECSubstreamSize H)).
  pose proof (DbgStreams_count_nonneg H).
  unfold segmented, ModInfo_region.
  rewrite <- (agree_outside sizeof_HeaderInfo (Int.to_uint32 (ModiSubstreamSize H)))
    by (unfold offset_FileInfo, offset_SecMap, offset_SecContr, sizeof_HeaderInfo; lia).
  rewrite <- (agree_outside (offset_SecContr H) (Int.to_uint32 (SecContrSubstreamSize H)))
    by (unfold offset_FileInfo, offset_SecMap, offset_SecContr, sizeof_HeaderInfo; lia).
  rewrite <- (agree_outside (offset_SecMap H) (Int.to_uint32 (SectionMapSize H)))
    by (unfold offset_FileInfo, offset_SecMap, offset_SecContr, sizeof_HeaderInfo; lia).
  rewrite <- (agree_outside (offset_TypeServer H) (Int.to_uint32 (TypeServerSize H)))
    by (unfold offset_TypeServer, offset_FileInfo, offset_SecMap,
          offset_SecContr, sizeof_HeaderInfo; lia).
  rewrite <- (agree_outside (offset_EC H) (Int.to_uint32 (ECSubstreamSize H)))
    by (unfold offset_EC, offset_TypeServer, offset_FileInfo,
          offset_SecMap, offset_SecContr, sizeof_HeaderInfo; lia).
  rewrite <- (agree_outside (offset_DbgStreams H) (DbgStreams_count H * 2))
    by (unfold offset_DbgStreams, offset_EC, offset_TypeServer,
          offset_FileInfo, offset_SecMap, offset_SecContr, sizeof_HeaderInfo; lia).
  done.
Qed.

Lemma reload_read_agree :
  reload_read K Pdb S2 =
    match reload_read K Pdb S1 with
    | Success (D, R) =>
        Success (set_FileInfoSubstream f2 D, StreamReader.mk S2 (Offset R))
    | Failure e => Failure e
    | OutOfBounds => OutOfBounds
    end.
Proof.
  destruct Hdiff as [Hlen _].
  unfold reload_read.
  rewrite (reload_header_agree K Pdb S1 S2 Hlen)
    by (apply agree_outside; [done|]; left; pose proof (offset_FileInfo_lower H); lia).
  destruct (reload_header K Pdb (StreamReader.mk S1 0)) as [[H' R]| |] eqn:Hh;
    [|done..].
  apply reload_header_Success in Hh as (-> & -> & H64). fold H.
  cbn [mbind Result_bind StreamReader.Offset].
  rewrite !reload_substreams_eq by (rewrite <- ?(getLength_eq S1 S2 Hlen); done).
  rewrite <- (getLength_eq S1 S2 Hlen).
  case_decide; [|done]. by rewrite segmented_agree.
Qed.

Lemma reload_before_FileInfo_agree :
  reload_before_FileInfo K Pdb S2 =
    match reload_before_FileInfo K Pdb S1 with
    | Success (D, R) =>
        Success (set_FileInfoSubstream f2 D, StreamReader.mk S2 (Offset R))
    | Failure e => Failure e
    | OutOfBounds => OutOfBounds
    end.
Proof.
  unfold reload_before_FileInfo, reload_before_SectionHeaders.
  rewrite reload_read_agree.
  destruct (reload_read K Pdb S1) as [[D R]| |]; [|done..].
  cbn [mbind Result_bind].
  rewrite initializeSectionContributionData_FileInfo.
  destruct (initializeSectionContributionData K D) as [D1| |]; [|done..].
  cbn [fmap Result_fmap mbind Result_bind mret Result_ret].
  rewrite initializeSectionHeadersData_FileInfo.
  destruct (initializeSectionHeadersData K Pdb D1) as [D2| |]; [|done..].
  cbn [fmap Result_fmap mbind Result_bind mret Result_ret].
  rewrite initializeSectionMapData_FileInfo.
  destruct (initializeSectionMapData K D2) as [D3| |]; done.
Qed.

Lemma FileInfo_fields_agree :
  length f2 = length f1 /\ take 2 f2 = take 2 f1 /\ drop 4 f2 = drop 4 f1.
Proof.
  destruct Hdiff as [Hlen Hag].
  pose proof (offset_FileInfo_lower H) as Hlow. unfold sizeof_HeaderInfo in Hlow.
  split; [symmetry; by apply length_slice_eq|]. split.
  - apply list_eq. intros i. unfold f1, f2, slice.
    rewrite !lookup_take. repeat case_decide; try done.
    rewrite !lookup_drop. symmetry. apply Hag;
      unfold offset_NumSourceFiles; fold H; lia.
  - apply list_eq. intros i. unfold f1, f2, slice.
    rewrite !lookup_drop, !lookup_take. repeat case_decide; try done.
    rewrite !lookup_drop. symmetry. apply Hag;
      unfold offset_NumSourceFiles; fold H; lia.
Qed.

(** C3: two streams that differ only in the [NumSourceFiles] field of
    the header of the file-info substream have the same [reload]: the
    same error, or two decoders that agree on everything but the raw
    bytes of that substream, in particular on the modules and their
    file-name lists.  The declared value is not used: the table of
    file-name offsets has as many entries as the sum of the per-module
    counts says. *)
Theorem C3_NumSourceFiles_is_discarded :
  same_but_FileInfoSubstream (reload K Pdb load S1) (reload K Pdb load S2) /\
  (forall D1, reload K Pdb load S1 = Success D1 ->
     exists D2, reload K Pdb load S2 = Success D2 /\
       ModuleInfos D2 = ModuleInfos D1 /\
       FileNameOffsets D2 = FileNameOffsets D1 /\
       NamesBuffer D2 = NamesBuffer D1) /\
  (forall e, reload K Pdb load S1 = Failure e -> reload K Pdb load S2 = Failure e) /\
  (forall D1, reload K Pdb load S1 = Success D1 ->
     let n := Z.of_nat (length (ModuleInfos D1)) in
     Z.of_nat (length (FileNameOffsets D1)) =
       sum_ModFileCounts
         (ulittle16 <$> records (Z.to_nat n) (Z.to_nat 2)
            (slice (sizeof_FileInfoSubstreamHeader + n * 2) (n * 2)
                   (FileInfoSubstream D1)))).
Proof.
  assert (reload K Pdb load S2 =
          set_FileInfoSubstream f2 <$> reload K Pdb load S1) as Hrel.
  { rewrite !reload_staged_FileInfo, reload_before_FileInfo_agree.
    destruct (reload_before_FileInfo K Pdb S1) as [[D R]| |] eqn:Hb; [|done..].
    pose proof (before_FileInfo_inv K Pdb S1 D R Hb)
      as (-> & _ & _ & (_ & HFI)).
    cbn [mbind Result_bind StreamReader.Offset].
    destruct FileInfo_fields_agree as (Hlen & Htake & Hdrop).
    rewrite initializeFileInfo_NumSourceFiles by (rewrite HFI; done).
    destruct (initializeFileInfo D) as [D4| |]; [|done..].
    cbn [fmap Result_fmap mbind Result_bind].
    rewrite initializeFpoRecords_FileInfo.
    destruct (initializeFpoRecords K Pdb D4) as [D5| |]; [|done..].
    cbn [fmap Result_fmap mbind Result_bind].
    apply reload_finish_FileInfo. unfold bytesRemaining. cbn.
    by rewrite (getLength_eq S1 S2 (proj1 Hdiff)). }
  split; [|split; [|split]].
  - rewrite Hrel. by destruct (reload K Pdb load S1).
  - intros D1 H1. rewrite Hrel, H1. by eexists.
  - intros e H1. by rewrite Hrel, H1.
  - intros D1 H1 n. rewrite reload_staged_FileInfo in H1.
    apply bind_Success in H1 as ([D R] & _ & H1).
    apply bind_Success in H1 as (D4 & Hfi & H1).
    apply bind_Success in H1 as (D5 & Hfpo & H1).
    unfold reload_finish in H1. case_decide; [done|].
    apply bind_Success in H1 as (u & _ & [= <-]).
    pose proof (initializeFileInfo_offsets D D4 Hfi) as (HFI & Hlen & Hoff).
    pose proof (initializeFileInfo_frame D D4 Hfi)
      as (ms & o & nb & _ & _ & FH & rest & HFH & H4 & Hnum).
    assert (FileInfoSubstream D5 = FileInfoSubstream D4 /\
            ModuleInfos D5 = ModuleInfos D4 /\
            FileNameOffsets D5 = FileNameOffsets D4) as (E1 & E2 & E3).
    { apply initializeFpoRecords_frame in Hfpo as [-> | (a & s & ->)]; done. }
    subst n. rewrite E1, E2, E3, HFI, Hlen. exact Hoff.
Qed.

End NumSourceFilesReload.

(** ** The properties on the sample data *)

Lemma Sample_K_ok : constants_ok Sample.K.
Proof.
  unfold constants_ok. cbn.
  repeat split; try lia; try done; destruct T; cbn; lia.
Qed.

Lemma Sample_stream_checks : header_checks Sample.K Sample.Pdb Sample.stream.
Proof.
  split; [by vm_compute|]. split; [by vm_compute|]. split; [by vm_compute|].
  eexists. split; [reflexivity|]. by vm_compute.
Qed.

Lemma differ_only_in_field16_app (pre a b post : list byte) :
  length a = 2%nat -> length b = 2%nat ->
  differ_only_in_field16 (getLength pre) (pre ++ a ++ post) (pre ++ b ++ post).
Proof.
  intros Ha Hb. split.
  - rewrite !length_app. lia.
  - intros i H0 H1. unfold getLength in *.
    destruct (decide (i < length pre)%nat).
    + by rewrite !lookup_app_l.
    + rewrite !lookup_app_r by lia. by rewrite Ha, Hb.
Qed.

Lemma C1_length_is_header_plus_seven_sizes_witness :
  header_checks Sample.K Sample.Pdb Sample.stream /\
  reload_header Sample.K Sample.Pdb (StreamReader.mk Sample.stream 0) =
    Success (header_of Sample.stream, StreamReader.mk Sample.stream 64).
Proof.
  split; [exact Sample_stream_checks|].
  apply (C1_length_is_header_plus_seven_sizes Sample.K Sample.Pdb
           Sample.ECNames_load Sample.stream Sample_stream_checks).
  - by vm_compute.
  - intros []; by vm_compute.
Defined.

(** With the sum of six sizes the statement fails on the code.  The
    stream [six_fours] passes the first checks and is as long as 64 plus
    the sum of any six of its declared sizes, yet [reload] refuses its
    length.  The stream [seven_fours] passes the first checks and is not
    as long as 64 plus the sum of any six of its declared sizes, yet its
    header stage passes, and [reload] fails later with another kind of
    error.  The stream [misaligned_without_table] is as long as 64 plus
    the sum of its six substream sizes (it declares no debug header), yet
    its header stage fails, on an alignment check. *)
Lemma C1_six_sizes_counterexample :
  (header_checks Sample.K Sample.Pdb Sample.six_fours /\
   (forall k, (k < 7)%nat ->
      getLength Sample.six_fours = 64 + six_sizes_sum k (header_of Sample.six_fours)) /\
   reload Sample.K Sample.Pdb Sample.ECNames_load Sample.six_fours =
     Failure (RawError corrupt_file "DBI Length does not equal sum of substreams.")) /\
  (header_checks Sample.K Sample.Pdb Sample.seven_fours /\
   (forall k, (k < 7)%nat ->
      getLength Sample.seven_fours <> 64 + six_sizes_sum k (header_of Sample.seven_fours)) /\
   succeeds (reload_header Sample.K Sample.Pdb (StreamReader.mk Sample.seven_fours 0)) /\
   reload Sample.K Sample.Pdb Sample.ECNames_load Sample.seven_fours =
     Failure (RawError feature_unsupported
                "Unsupported DBI Section Contribution version")) /\
  (header_checks Sample.K Sample.Pdb Sample.misaligned_without_table /\
   getLength Sample.misaligned_without_table =
     64 + six_sizes_sum 5 (header_of Sample.misaligned_without_table) /\
   reload_header Sample.K Sample.Pdb
       (StreamReader.mk Sample.misaligned_without_table 0) =
     Failure (RawError corrupt_file "DBI file info substream not aligned.")).
Proof.
  split; [|split].
  - split.
    { split; [by vm_compute|]. split; [by vm_compute|]. split; [by vm_compute|].
      eexists. split; [reflexivity|]. by vm_compute. }
    split; [|by vm_compute].
    intros k Hk. do 7 (destruct k as [|k]; [by vm_compute|]). lia.
  - split.
    { split; [by vm_compute|]. split; [by vm_compute|]. split; [by vm_compute|].
      eexists. split; [reflexivity|]. by vm_compute. }
    split; [|split; [|by vm_compute]].
    + intros k Hk. do 7 (destruct k as [|k]; [by vm_compute|]). lia.
    + eexists. vm_compute. reflexivity.
  - split; [|split; by vm_compute].
    split; [by vm_compute|]. split; [by vm_compute|]. split; [by vm_compute|].
    eexists. split; [reflexivity|]. by vm_compute.
Qed.

Lemma C2_section_contribution_dispatch_witness :
  exists D',
    initializeSectionContributionData Sample.K
      (set_SecContrSubstream Sample.sc60 DbiStream_new) = Success D' /\
    SectionContribs D' = [Sample.zeros 28] /\
    SectionContribs2 D' = [].
Proof.
  destruct (C2_section_contribution_dispatch Sample.K Sample_K_ok
              (set_SecContrSubstream Sample.sc60 DbiStream_new)
              (put32 (DbiSecContribVer60 Sample.K)) (Sample.zeros 28)
              eq_refl eq_refl ltac:(by vm_compute)) as [H60 _].
  destruct (H60 ltac:(by vm_compute)) as [_ Hok].
  destruct (Hok ltac:(by vm_compute)) as (D' & HD' & Ha & Hb).
  exists D'. split; [exact HD'|]. split; [exact Ha|exact Hb].
Defined.

Lemma C3_NumSourceFiles_is_discarded_witness :
  same_but_FileInfoSubstream
    (reload Sample.K Sample.Pdb Sample.ECNames_load (Sample.stream_declaring 2))
    (reload Sample.K Sample.Pdb Sample.ECNames_load (Sample.stream_declaring 7)).
Proof.
  refine (proj1 (C3_NumSourceFiles_is_discarded Sample.K Sample.Pdb
                   Sample.ECNames_load (Sample.stream_declaring 2)
                   (Sample.stream_declaring 7) _ _)).
  - by vm_compute.
  - change (offset_NumSourceFiles (header_of (Sample.stream_declaring 2)))
      with (getLength (take 246 (Sample.stream_declaring 2))).
    change (Sample.stream_declaring 2)
      with (take 246 (Sample.stream_declaring 2) ++ put16 2 ++
            drop 248 (Sample.stream_declaring 2)) at 2.
    change (Sample.stream_declaring 7)
      with (take 246 (Sample.stream_declaring 2) ++ put16 7 ++
            drop 248 (Sample.stream_declaring 2)).
    by apply differ_only_in_field16_app.
Defined.

Lemma C4_association_pass_witness :
  associate_SourceFiles [1; 1] 2 0 0 Sample.names_read =
    (ms ← spec_association (getFileNameForIndex Sample.names_read)
            (ModuleInfos Sample.names_read) [1; 1] 0;
     mret (set_ModuleInfos ms Sample.names_read)).
Proof.
  refine (proj1 (C4_association_pass Sample.names_read [1; 1] _ _)).
  - by vm_compute.
  - repeat constructor; lia.
Defined.

Lemma C5_module_count_is_discovered_witness :
  Info <$> ModuleInfos
    (Sample.state_of (reload_before_FileInfo Sample.K Sample.Pdb Sample.stream)) =
  VarStreamArray_records Sample.K
    (ModInfo_region (header_of Sample.stream) Sample.stream).
Proof.
  refine (proj1 (proj2 (C5_module_count_is_discovered Sample.K Sample.Pdb
    Sample.ECNames_load Sample_K_ok Sample.stream
    (Sample.state_of (reload_before_FileInfo Sample.K Sample.Pdb Sample.stream))
    (Sample.reader_of (reload_before_FileInfo Sample.K Sample.Pdb Sample.stream))
    _))).
  vm_compute. reflexivity.
Defined.

Lemma C6_FpoRecords_witness :
  reload Sample.K Sample.Pdb Sample.ECNames_load Sample.stream =
    Success (Sample.state_of
               (reload_before_FpoRecords Sample.K Sample.Pdb Sample.stream)) /\
  FpoRecords (Sample.state_of
                (reload_before_FpoRecords Sample.K Sample.Pdb Sample.stream)) = [].
Proof.
  destruct (C6_FpoRecords Sample.K Sample.Pdb Sample.ECNames_load Sample_K_ok
    Sample.stream
    (Sample.state_of (reload_before_FpoRecords Sample.K Sample.Pdb Sample.stream))
    (Sample.reader_of (reload_before_FpoRecords Sample.K Sample.Pdb Sample.stream))
    InvalidStreamIndex
    ltac:(vm_compute; reflexivity) ltac:(vm_compute; reflexivity)) as [Hs _].
  destruct (Hs eq_refl) as (_ & Hempty & _ & Hok).
  split; [|exact Hempty].
  apply Hok; [by vm_compute|reflexivity].
Defined.

Lemma C7_getFileNameForIndex_witness :
  getFileNameForIndex Sample.names_read 2 =
    Failure (RawError index_out_of_bounds "").
Proof.
  refine (proj1 (C7_getFileNameForIndex Sample.names_read 2 _) _);
    by vm_compute.
Defined.

Lemma C8_misaligned_substream_is_named_witness :
  exists X,
    size_of X (header_of Sample.misaligned) mod 4 <> 0 /\
    (forall Y, (check_order Y < check_order X)%nat ->
               size_of Y (header_of Sample.misaligned) mod 4 = 0) /\
    reload Sample.K Sample.Pdb Sample.ECNames_load Sample.misaligned =
      Failure (RawError corrupt_file (not_aligned_message X)).
Proof.
  refine (proj1 (C8_misaligned_substream_is_named Sample.K Sample.Pdb
                   Sample.ECNames_load Sample.misaligned _ _ _)).
  - split; [by vm_compute|]. split; [by vm_compute|]. split; [by vm_compute|].
    eexists. split; [reflexivity|]. by vm_compute.
  - by vm_compute.
  - intros Ha. specialize (Ha FileInfo). by vm_compute in Ha.
Defined.

Lemma C10_debug_stream_index_unchecked_witness :
  reload Sample.K Sample.Pdb Sample.ECNames_load Sample.short_table = OutOfBounds /\
  reload Sample.K Sample.Pdb Sample.ECNames_load Sample.table_without_FPO = OutOfBounds.
Proof.
  split.
  - refine (proj1 (proj2 (proj2 (proj2 (proj2
      (C10_debug_stream_index_unchecked Sample.K Sample.Pdb Sample.ECNames_load
         Sample_K_ok Sample.short_table
         (Sample.state_of
            (reload_before_SectionHeaders Sample.K Sample.Pdb Sample.short_table))
         (Sample.reader_of
            (reload_before_SectionHeaders Sample.K Sample.Pdb Sample.short_table))
         _))))) _).
    + vm_compute. reflexivity.
    + by vm_compute.
  - refine (proj2 (proj2 (proj2 (proj2 (proj2
      (C10_debug_stream_index_unchecked Sample.K Sample.Pdb Sample.ECNames_load
         Sample_K_ok Sample.table_without_FPO
         (Sample.state_of
            (reload_before_SectionHeaders Sample.K Sample.Pdb Sample.table_without_FPO))
         (Sample.reader_of
            (reload_before_SectionHeaders Sample.K Sample.Pdb Sample.table_without_FPO))
         _)))))
      (Sample.state_of
         (reload_before_FpoRecords Sample.K Sample.Pdb Sample.table_without_FPO))
      (Sample.reader_of
         (reload_before_FpoRecords Sample.K Sample.Pdb Sample.table_without_FPO))
      _ _).
    + vm_compute. reflexivity.
    + vm_compute. reflexivity.
    + by vm_compute.
Defined.

(** * Further properties of the decoder *)

(** ** The bit fields of the header *)

Section BitFields.

Lemma land_pow2 (a k : Z) :
  0 <= k -> Z.land a (2 ^ k) = if Z.testbit a k then 2 ^ k else 0.
Proof.
  intros Hk. apply Z.bits_inj'. intros n Hn.
  rewrite Z.land_spec, Z.pow2_bits_eqb by done.
  destruct (Z.testbit a k) eqn:Ha.
  - rewrite Z.pow2_bits_eqb by done.
    destruct (Z.eqb_spec k n) as [->|]; [by rewrite Ha|]. by rewrite andb_false_r.
  - rewrite Z.bits_0.
    destruct (Z.eqb_spec k n) as [->|]; [by rewrite Ha|]. by rewrite andb_false_r.
Qed.

Lemma land_pow2_nonzero (a k : Z) :
  0 <= k -> bool_decide (Z.land a (2 ^ k) <> 0) = Z.testbit a k.
Proof.
  intros Hk. rewrite land_pow2 by done.
  destruct (Z.testbit a k).
  - apply bool_decide_eq_true. lia.
  - apply bool_decide_eq_false. intros Hne. by apply Hne.
Qed.

Lemma testbit_div (a k : Z) :
  0 <= k -> Z.testbit a k = bool_decide ((a / 2 ^ k) mod 2 = 1).
Proof.
  intros Hk. rewrite Z.testbit_odd, Z.shiftr_div_pow2 by done.
  rewrite Zodd_mod. destruct (Z.eqb_spec ((a / 2 ^ k) mod 2) 1) as [He|He].
  - symmetry. by apply bool_decide_eq_true.
  - symmetry. by apply bool_decide_eq_false.
Qed.

(** X8: the three flags of the header are the bits 0 (incremental link),
    1 (stripped) and 2 (C types) of the 16-bit [Flags] field; the thirteen
    reserved bits have no effect on them. *)
Theorem X8_flags_are_bits_0_1_2 (D : DbiStream) (H : HeaderInfo) :
  Header D = Some H ->
  Accessor.isIncrementallyLinked D = Some (bool_decide (Flags H mod 2 = 1)) /\
  Accessor.isStripped D = Some (bool_decide ((Flags H / 2) mod 2 = 1)) /\
  Accessor.hasCTypes D = Some (bool_decide ((Flags H / 4) mod 2 = 1)) /\
  (forall i s c r : Z,
     0 <= i <= 1 -> 0 <= s <= 1 -> 0 <= c <= 1 ->
     Flags H = i + 2 * s + 4 * c + 8 * r ->
     Accessor.isIncrementallyLinked D = Some (bool_decide (i = 1)) /\
     Accessor.isStripped D = Some (bool_decide (s = 1)) /\
     Accessor.hasCTypes D = Some (bool_decide (c = 1))).
Proof.
  intros HD.
  assert (Accessor.isIncrementallyLinked D = Some (bool_decide (Flags H mod 2 = 1)) /\
          Accessor.isStripped D = Some (bool_decide ((Flags H / 2) mod 2 = 1)) /\
          Accessor.hasCTypes D = Some (bool_decide ((Flags H / 4) mod 2 = 1)))
    as (Hi & Hs & Hc).
  { unfold Accessor.isIncrementallyLinked, Accessor.isStripped, Accessor.hasCTypes.
    rewrite HD. cbn [fmap option_fmap option_map].
    change FlagIncrementalMask with (2 ^ 0).
    change FlagStrippedMask with (2 ^ 1).
    change FlagHasCTypesMask with (2 ^ 2).
    rewrite !land_pow2_nonzero, !testbit_div by lia.
    change (2 ^ 0) with 1. rewrite Z.div_1_r. done. }
  split; [done|]. split; [done|]. split; [done|].
  intros i s c r Hir Hsr Hcr Hf. rewrite Hi, Hs, Hc, Hf.
  repeat split; f_equal; apply bool_decide_ext; Z.div_mod_to_equations; lia.
Qed.

Lemma X8_flags_are_bits_0_1_2_witness :
  Accessor.isIncrementallyLinked
    (set_Header (Some (decode_HeaderInfo (Sample.zeros 56 ++ put16 0xFFFA)))
       DbiStream_new) = Some false /\
  Accessor.isStripped
    (set_Header (Some (decode_HeaderInfo (Sample.zeros 56 ++ put16 0xFFFA)))
       DbiStream_new) = Some true /\
  Accessor.hasCTypes
    (set_Header (Some (decode_HeaderInfo (Sample.zeros 56 ++ put16 0xFFFA)))
       DbiStream_new) = Some false.
Proof.
  destruct (X8_flags_are_bits_0_1_2
              (set_Header (Some (decode_HeaderInfo (Sample.zeros 56 ++ put16 0xFFFA)))
                 DbiStream_new)
              (decode_HeaderInfo (Sample.zeros 56 ++ put16 0xFFFA)) eq_refl)
    as (_ & _ & _ & Hbits).
  apply (Hbits 0 1 0 8191); [lia | lia | lia | by vm_compute].
Defined.

(** X7: the build number packs the minor version in its low 8 bits and
    the major version in the next 7 bits: the two accessors return these
    fields, within their ranges, whatever the top bit (the format flag)
    is. *)
Theorem X7_build_number_fields (D : DbiStream) (H : HeaderInfo) :
  Header D = Some H ->
  0 <= BuildNumber H < 2 ^ 16 ->
  Accessor.getBuildMinorVersion D = Some (BuildNumber H mod 256) /\
  Accessor.getBuildMajorVersion D = Some ((BuildNumber H / 256) mod 128) /\
  (forall minor major flag : Z,
     0 <= minor < 256 -> 0 <= major < 128 -> 0 <= flag <= 1 ->
     BuildNumber H = minor + 256 * major + 32768 * flag ->
     Accessor.getBuildMinorVersion D = Some minor /\
     Accessor.getBuildMajorVersion D = Some major).
Proof.
  intros HD Hb.
  assert (Accessor.getBuildMinorVersion D = Some (BuildNumber H mod 256) /\
          Accessor.getBuildMajorVersion D = Some ((BuildNumber H / 256) mod 128))
    as (Hmin & Hmaj).
  { unfold Accessor.getBuildMinorVersion, Accessor.getBuildMajorVersion.
    rewrite HD. cbn [fmap option_fmap option_map].
    unfold BuildMinorShift, BuildMajorShift, to_uint16.
    rewrite Z.shiftr_0_r, Z.shiftr_land.
    change BuildMinorMask with (Z.ones 8).
    change (Z.shiftr BuildMajorMask 8) with (Z.ones 7).
    rewrite !Z.land_ones, Z.shiftr_div_pow2 by lia.
    change (2 ^ 8) with 256. change (2 ^ 7) with 128.
    split; f_equal; apply Z.mod_small; Z.div_mod_to_equations; lia. }
  split; [done|]. split; [done|].
  intros minor major flag Hmi Hma Hfl Heq. rewrite Hmin, Hmaj, Heq.
  split; f_equal; Z.div_mod_to_equations; lia.
Qed.

Lemma X7_build_number_fields_witness :
  Accessor.getBuildMinorVersion
    (set_Header (Some (decode_HeaderInfo (Sample.zeros 14 ++ put16 0x8E0B)))
       DbiStream_new) = Some 11 /\
  Accessor.getBuildMajorVersion
    (set_Header (Some (decode_HeaderInfo (Sample.zeros 14 ++ put16 0x8E0B)))
       DbiStream_new) = Some 14.
Proof.
  destruct (X7_build_number_fields
              (set_Header (Some (decode_HeaderInfo (Sample.zeros 14 ++ put16 0x8E0B)))
                 DbiStream_new)
              (decode_HeaderInfo (Sample.zeros 14 ++ put16 0x8E0B)) eq_refl
              ltac:(by vm_compute))
    as (_ & _ & Hfields).
  apply (Hfields 11 14 1); [lia | lia | lia | by vm_compute].
Defined.

End BitFields.

(** ** The layout of the header *)

Section HeaderLayout.

Lemma byte_of_Z_val (b : byte) (q : Z) : byte_of_Z (byte_val b + 256 * q) = b.
Proof.
  unfold byte_of_Z. pose proof (byte_val_range b) as Hr.
  replace ((byte_val b + 256 * q) mod 256) with (byte_val b)
    by (Z.div_mod_to_equations; lia).
  unfold byte_val. rewrite N2Z.id, Byte.of_to_N. done.
Qed.

Lemma le_bytes_le_value (bs : list byte) (q : Z) :
  le_bytes (length bs) (le_value bs + 256 ^ Z.of_nat (length bs) * q) = bs.
Proof.
  revert q. induction bs as [|b bs IH]; intros q; [done|].
  cbn [length le_bytes le_value].
  rewrite Nat2Z.inj_succ, Z.pow_succ_r by lia.
  replace (byte_val b + 256 * le_value bs + 256 * 256 ^ Z.of_nat (length bs) * q)
    with (byte_val b + 256 * (le_value bs + 256 ^ Z.of_nat (length bs) * q)) by lia.
  rewrite byte_of_Z_val. f_equal.
  pose proof (byte_val_range b) as Hr.
  replace ((byte_val b + 256 * (le_value bs + 256 ^ Z.of_nat (length bs) * q)) / 256)
    with (le_value bs + 256 ^ Z.of_nat (length bs) * q)
    by (Z.div_mod_to_equations; lia).
  apply IH.
Qed.

Lemma put16_ulittle16 (bs : list byte) :
  (2 <= length bs)%nat -> put16 (ulittle16 bs) = take 2 bs.
Proof.
  intros Hlen. unfold put16, ulittle16.
  pose proof (le_bytes_le_value (take 2 bs) 0) as Hrt.
  rewrite length_take_le, Z.mul_0_r, Z.add_0_r in Hrt by done. done.
Qed.

Lemma put32_ulittle32 (bs : list byte) :
  (4 <= length bs)%nat -> put32 (ulittle32 bs) = take 4 bs.
Proof.
  intros Hlen. unfold put32, ulittle32.
  pose proof (le_bytes_le_value (take 4 bs) 0) as Hrt.
  rewrite length_take_le, Z.mul_0_r, Z.add_0_r in Hrt by done. done.
Qed.

Lemma put32_little32 (bs : list byte) :
  (4 <= length bs)%nat -> put32 (little32 bs) = take 4 bs.
Proof.
  intros Hlen. unfold put32, little32, Int.to_int32, Int.to_uint32.
  pose proof (ulittle32_range bs) as Hr.
  rewrite (Z.mod_small (ulittle32 bs)) by done.
  unfold ulittle32 in *.
  case_decide.
  - pose proof (le_bytes_le_value (take 4 bs) 0) as Hrt.
    rewrite length_take_le, Z.mul_0_r, Z.add_0_r in Hrt by done. done.
  - pose proof (le_bytes_le_value (take 4 bs) (-1)) as Hrt.
    rewrite length_take_le in Hrt by done.
    change (256 ^ Z.of_nat 4 * -1) with (- 2 ^ 32) in Hrt. done.
Qed.

(** The twenty fields of the header, written back in the order of the
    structure, are the 64 bytes that were decoded. *)
Lemma encode_decode_HeaderInfo (bs : list byte) :
  length bs = 64%nat -> encode_HeaderInfo (decode_HeaderInfo bs) = bs.
Proof.
  intros Hlen. unfold encode_HeaderInfo, decode_HeaderInfo.
  cbn [VersionSignature VersionHeader Age GlobalSymbolStreamIndex BuildNumber
       PublicSymbolStreamIndex PdbDllVersion SymRecordStreamIndex PdbDllRbld
       ModiSubstreamSize SecContrSubstreamSize SectionMapSize FileInfoSize
       TypeServerSize MFCTypeServerIndex OptionalDbgHdrSize ECSubstreamSize
       Flags MachineType Reserved].
  rewrite !put32_little32, !put32_ulittle32, !put16_ulittle16
    by (rewrite length_drop; lia).
  do 64 (destruct bs as [|? bs]; [discriminate Hlen|]).
  destruct bs; [reflexivity | discriminate Hlen].
Qed.

(** X9: the layout of [HeaderInfo] covers the 64 bytes of the header
    without a gap and without an overlap: two different 64-byte headers
    never decode to the same fields. *)
Theorem X9_header_layout_is_exact (bs1 bs2 : list byte) :
  length bs1 = 64%nat -> length bs2 = 64%nat ->
  decode_HeaderInfo bs1 = decode_HeaderInfo bs2 -> bs1 = bs2.
Proof.
  intros H1 H2 Heq.
  rewrite <- (encode_decode_HeaderInfo bs1 H1), <- (encode_decode_HeaderInfo bs2 H2).
  by rewrite Heq.
Qed.

Lemma X9_header_layout_is_exact_witness :
  take 64 Sample.stream = take 64 (Sample.stream_declaring 7).
Proof.
  apply X9_header_layout_is_exact; [reflexivity | reflexivity |].
  vm_compute. reflexivity.
Defined.

End HeaderLayout.

(** ** The header stage, both ways *)

Section HeaderStage.

Context (K : RawConstants) (Pdb : PDBFile) (load : NameHashTable_load).

(** What a successful header stage has checked. *)
Lemma reload_header_Success_inv (S : list byte) (H : HeaderInfo) (R : StreamReader) :
  reload_header K Pdb (StreamReader.mk S 0) = Success (H, R) ->
  sizeof_HeaderInfo <= getLength S /\
  VersionSignature (header_of S) = -1 /\
  PdbDbiV70 K <= VersionHeader (header_of S) /\
  (exists IS, getPDBInfoStream Pdb = inr IS /\ Age (header_of S) = getAge IS) /\
  getLength S = (64 + declared_sizes_sum (header_of S)) mod 2 ^ 64 /\
  all_aligned (header_of S).
Proof.
  unfold reload_header. cbn [StreamReader.Stream].
  case_decide as Hlen; [done|].
  unfold readObject. rewrite readBytes_ok by (unfold sizeof_HeaderInfo in *; lia).
  fold (header_of S).
  case_decide as Hsig; [done|]. case_decide as Hver; [done|].
  destruct (getPDBInfoStream Pdb) as [e|IS]; [done|].
  cbn [liftE mbind Result_bind].
  case_decide as Hage; [done|].
  rewrite size_t_sum, !to_size_t_mod4.
  case_decide as Hsum; [done|].
  repeat (case_decide; [done|]). intros _.
  split; [lia|]. split; [done|]. split; [lia|].
  split; [by exists IS|]. split; [done|].
  by intros [].
Qed.

(** X2: for a stream whose length fits 32 bits, the header stage of
    [reload] succeeds exactly when the stream holds a header (64 bytes),
    the signature is -1, the version is at least [PdbDbiV70], the Info
    stream is available and has the age of the header, the length is 64
    plus the seven declared sizes, and the five checked sizes are multiples
    of 4; it then returns the decoded header and a reader that stands
    behind it.  A shorter stream, the empty one included, is refused as
    having no header, whatever the rest of the PDB file is. *)
Theorem X2_header_stage_accepts_exactly (S : list byte) (H : HeaderInfo)
    (R : StreamReader) :
  getLength S < 2 ^ 32 ->
  (reload_header K Pdb (StreamReader.mk S 0) = Success (H, R) <->
     header_checks K Pdb S /\
     getLength S = 64 + declared_sizes_sum (header_of S) /\
     all_aligned (header_of S) /\
     H = header_of S /\ R = StreamReader.mk S 64) /\
  (getLength S < sizeof_HeaderInfo ->
     reload K Pdb load S =
       Failure (RawError corrupt_file "DBI Stream does not contain a header.")).
Proof.
  intros H32. split; [split|].
  - intros Hok.
    pose proof (reload_header_Success_inv S H R Hok)
      as (Hlen & Hsig & Hver & HIS & Hsum & Hal).
    apply reload_header_Success in Hok as (-> & -> & _).
    pose proof (declared_sizes_sum_range (slice 0 sizeof_HeaderInfo S)) as Hr.
    fold (header_of S) in Hr.
    apply length_check_exact in Hsum;
      [|unfold sizeof_HeaderInfo in *; lia | done].
    repeat split; try done; unfold sizeof_HeaderInfo in *; lia.
  - intros (Hchk & Hsum & Hal & -> & ->).
    rewrite (reload_header_checked K Pdb S Hchk). cbn zeta.
    apply all_aligned_dec in Hal as (? & ? & ? & ? & ?).
    rewrite !decide_False by (intros Hne; by apply Hne). done.
  - intros Hshort. apply reload_header_failure.
    unfold reload_header. cbn [StreamReader.Stream]. by rewrite decide_True.
Qed.

(** X1: the checks of the header are made in a fixed order and the first
    one that fails decides the error of [reload]: a wrong signature is
    reported whatever the version and the Info stream are; a version below
    [PdbDbiV70] is an UnsupportedFeature error whatever the Info stream
    is; an error of the Info stream is returned as it is; a different age
    is a CorruptFile error. *)
Theorem X1_header_checks_order (S : list byte) :
  sizeof_HeaderInfo <= getLength S ->
  (VersionSignature (header_of S) <> -1 ->
     reload K Pdb load S =
       Failure (RawError corrupt_file "Invalid DBI version signature.")) /\
  (VersionSignature (header_of S) = -1 ->
   VersionHeader (header_of S) < PdbDbiV70 K ->
     reload K Pdb load S =
       Failure (RawError feature_unsupported "Unsupported DBI version.")) /\
  (VersionSignature (header_of S) = -1 ->
   PdbDbiV70 K <= VersionHeader (header_of S) ->
     (forall e, getPDBInfoStream Pdb = inl e -> reload K Pdb load S = Failure e) /\
     (forall IS, getPDBInfoStream Pdb = inr IS ->
        Age (header_of S) <> getAge IS ->
        reload K Pdb load S =
          Failure (RawError corrupt_file "DBI Age does not match PDB Age."))).
Proof.
  intros Hlen.
  assert (forall e,
    (if decide (VersionSignature (header_of S) <> -1) then
       Failure (RawError corrupt_file "Invalid DBI version signature.")
     else if decide (VersionHeader (header_of S) < PdbDbiV70 K) then
       Failure (RawError feature_unsupported "Unsupported DBI version.")
     else
       match getPDBInfoStream Pdb with
       | inl e' => Failure e'
       | inr IS =>
           if decide (Age (header_of S) <> getAge IS) then
             Failure (RawError corrupt_file "DBI Age does not match PDB Age.")
           else Success ()
       end) = Failure e ->
    reload K Pdb load S = Failure e) as Hstep.
  { intros e He. apply reload_header_failure.
    unfold reload_header. cbn [StreamReader.Stream].
    rewrite decide_False by lia.
    unfold readObject. rewrite readBytes_ok by (unfold sizeof_HeaderInfo in *; lia).
    fold (header_of S).
    destruct (decide (VersionSignature (header_of S) <> -1));
      [by injection He as <-|].
    destruct (decide (VersionHeader (header_of S) < PdbDbiV70 K));
      [by injection He as <-|].
    destruct (getPDBInfoStream Pdb) as [e'|IS]; [by injection He as <-|].
    cbn [liftE mbind Result_bind].
    destruct (decide (Age (header_of S) <> getAge IS));
      [by injection He as <-|done]. }
  split; [|split].
  - intros Hsig. apply Hstep. by rewrite decide_True.
  - intros Hsig Hver. apply Hstep.
    rewrite decide_False, decide_True by (done || (intros Hne; by apply Hne)). done.
  - intros Hsig Hver. split.
    + intros e He. apply Hstep.
      rewrite decide_False, decide_False, He by (lia || (intros Hne; by apply Hne)).
      done.
    + intros IS He Hage. apply Hstep.
      rewrite decide_False, decide_False, He by (lia || (intros Hne; by apply Hne)).
      by rewrite decide_True.
Qed.

End HeaderStage.

Lemma X2_header_stage_accepts_exactly_witness :
  reload Sample.K Sample.Pdb Sample.ECNames_load [] =
    Failure (RawError corrupt_file "DBI Stream does not contain a header.").
Proof.
  refine (proj2 (X2_header_stage_accepts_exactly Sample.K Sample.Pdb
                   Sample.ECNames_load []
                   (header_of []) (StreamReader.mk [] 64) _) _);
    by vm_compute.
Defined.

Lemma X1_header_checks_order_witness :
  reload Sample.K
    {| getPDBInfoStream := inl (RawError no_stream "no Info stream");
       getNumStreams := 0;
       createIndexedStream := fun _ => inr [] |}
    Sample.ECNames_load
    (Sample.stream_of 19990902 1 [] [] [] [] [] [] []) =
  Failure (RawError feature_unsupported "Unsupported DBI version.").
Proof.
  refine (proj1 (proj2 (X1_header_checks_order Sample.K _ Sample.ECNames_load
                          (Sample.stream_of 19990902 1 [] [] [] [] [] [] []) _)) _ _);
    by vm_compute.
Defined.

(** ** What a successful [reload] guarantees *)

Section Success.

Context (K : RawConstants) (Pdb : PDBFile) (load : NameHashTable_load).

Lemma keeps_segments_trans (D0 D1 D2 : DbiStream) :
  keeps_segments D0 D1 -> keeps_segments D1 D2 -> keeps_segments D0 D2.
Proof.
  intros (? & ? & ? & ? & ? & ? & ?) (? & ? & ? & ? & ? & ? & ?).
  repeat split; congruence.
Qed.

Lemma initializeSectionContributionData_segments (D D' : DbiStream) :
  initializeSectionContributionData K D = Success D' -> keeps_segments D D'.
Proof.
  intros (v & a & [-> | ->])%initializeSectionContributionData_frame; done.
Qed.

Lemma initializeSectionHeadersData_segments (D D' : DbiStream) :
  initializeSectionHeadersData K Pdb D = Success D' -> keeps_segments D D'.
Proof. intros (a & s & ->)%initializeSectionHeadersData_frame; done. Qed.

Lemma initializeSectionMapData_segments (D D' : DbiStream) :
  initializeSectionMapData K D = Success D' -> keeps_segments D D'.
Proof. intros (a & ->)%initializeSectionMapData_frame; done. Qed.

Lemma initializeFileInfo_segments (D D' : DbiStream) :
  initializeFileInfo D = Success D' -> keeps_segments D D'.
Proof. intros (ms & o & n & -> & _)%initializeFileInfo_frame; done. Qed.

Lemma initializeFpoRecords_segments (D D' : DbiStream) :
  initializeFpoRecords K Pdb D = Success D' -> keeps_segments D D'.
Proof.
  intros [-> | (a & s & ->)]%initializeFpoRecords_frame; done.
Qed.

Lemma reload_finish_Success (S : list byte) (off : Z) (D5 D : DbiStream) :
  reload_finish load (StreamReader.mk S off) D5 = Success D ->
  getLength S <= off /\ load (ECSubstream D5) = inr () /\ D = D5.
Proof.
  unfold reload_finish, bytesRemaining.
  cbn [StreamReader.Stream StreamReader.Offset].
  case_decide as Hleft; [done|].
  intros ([] & Hload%liftE_Success & [= <-])%bind_Success.
  split; [lia|done].
Qed.

Lemma reload_initialize_Success (D0 D5 : DbiStream) :
  reload_initialize K Pdb D0 = Success D5 ->
  exists D1 D2 D3 D4,
    initializeSectionContributionData K D0 = Success D1 /\
    initializeSectionHeadersData K Pdb D1 = Success D2 /\
    initializeSectionMapData K D2 = Success D3 /\
    initializeFileInfo D3 = Success D4 /\
    initializeFpoRecords K Pdb D4 = Success D5.
Proof.
  unfold reload_initialize. intros Hinit.
  apply bind_Success in Hinit as (D1 & H1 & Hinit).
  apply bind_Success in Hinit as (D2 & H2 & Hinit).
  apply bind_Success in Hinit as (D3 & H3 & Hinit).
  apply bind_Success in Hinit as (D4 & H4 & H5).
  by exists D1, D2, D3, D4.
Qed.

Lemma reload_read_header (S : list byte) (D0 : DbiStream) (R : StreamReader) :
  reload_read K Pdb S = Success (D0, R) ->
  reload_header K Pdb (StreamReader.mk S 0) =
    Success (header_of S, StreamReader.mk S sizeof_HeaderInfo).
Proof.
  unfold reload_read. intros ([H' R'] & Hh & _)%bind_Success.
  pose proof (reload_header_Success K Pdb S H' R' Hh) as (-> & -> & _). exact Hh.
Qed.

(** The steps of a successful [reload]. *)
Lemma reload_Success_stages (S : list byte) (D : DbiStream) :
  reload K Pdb load S = Success D ->
  exists D1 D2 D3 D4,
    reload_header K Pdb (StreamReader.mk S 0) =
      Success (header_of S, StreamReader.mk S sizeof_HeaderInfo) /\
    offset_end (header_of S) = getLength S /\
    initializeSectionContributionData K (segmented K (header_of S) S) = Success D1 /\
    initializeSectionHeadersData K Pdb D1 = Success D2 /\
    initializeSectionMapData K D2 = Success D3 /\
    initializeFileInfo D3 = Success D4 /\
    initializeFpoRecords K Pdb D4 = Success D /\
    load (ECSubstream D) = inr ().
Proof.
  intros Hrel. rewrite reload_staged_read in Hrel.
  apply bind_Success in Hrel as ([D0 R] & Hrd & Hrel).
  pose proof (reload_read_header S D0 R Hrd) as Hh.
  apply reload_read_Success in Hrd as (-> & -> & Hfit).
  apply bind_Success in Hrel as (D5 & Hinit & Hfin).
  apply reload_initialize_Success in Hinit as (D1 & D2 & D3 & D4 & H1 & H2 & H3 & H4 & H5).
  apply reload_finish_Success in Hfin as (Hleft & Hload & ->).
  exists D1, D2, D3, D4.
  split; [exact Hh|]. split; [by apply Z.le_antisymm|].
  split; [exact H1|]. split; [exact H2|]. split; [exact H3|].
  split; [exact H4|]. split; [exact H5|exact Hload].
Qed.

Lemma reload_Success_segments (S : list byte) (D : DbiStream) :
  reload K Pdb load S = Success D ->
  keeps_segments (segmented K (header_of S) S) D.
Proof.
  intros (D1 & D2 & D3 & D4 & _ & _ & H1 & H2 & H3 & H4 & H5 & _)%reload_Success_stages.
  apply initializeSectionContributionData_segments in H1.
  apply initializeSectionHeadersData_segments in H2.
  apply initializeSectionMapData_segments in H3.
  apply initializeFileInfo_segments in H4.
  apply initializeFpoRecords_segments in H5.
  eauto using keeps_segments_trans.
Qed.

(** A signed 32-bit size passed as an [uint32_t] length. *)
Lemma to_uint32_of_int32 (x : Z) :
  - 2 ^ 31 <= x < 2 ^ 31 ->
  (0 <= x /\ Int.to_uint32 x = x) \/ (x < 0 /\ Int.to_uint32 x = x + 2 ^ 32).
Proof.
  intros Hr. unfold Int.to_uint32. destruct (decide (0 <= x)).
  - left. split; [done|]. apply Z.mod_small. lia.
  - right. split; [lia|].
    rewrite <- (Z_mod_plus_full x 1 (2 ^ 32)). apply Z.mod_small. lia.
Qed.

(** The number of entries of the debug-stream-index table for a signed
    32-bit size of the optional debug header. *)
Lemma DbgStreams_count_of_int32 (H : HeaderInfo) :
  - 2 ^ 31 <= OptionalDbgHdrSize H < 2 ^ 31 ->
  (0 <= OptionalDbgHdrSize H /\ DbgStreams_count H = OptionalDbgHdrSize H / 2) \/
  (OptionalDbgHdrSize H < 0 /\
   DbgStreams_count H = OptionalDbgHdrSize H / 2 + 2 ^ 32).
Proof.
  intros Hr. unfold DbgStreams_count, Int.to_size_t, Int.to_uint32.
  destruct (decide (0 <= OptionalDbgHdrSize H)).
  - left. split; [done|]. rewrite (Z.mod_small (OptionalDbgHdrSize H)) by lia.
    apply Z.mod_small. Z.div_mod_to_equations. lia.
  - right. split; [lia|].
    rewrite <- (Z_mod_plus_full (OptionalDbgHdrSize H) 1 (2 ^ 64)).
    rewrite (Z.mod_small (OptionalDbgHdrSize H + 1 * 2 ^ 64)) by lia.
    replace ((OptionalDbgHdrSize H + 1 * 2 ^ 64) / 2)
      with (OptionalDbgHdrSize H / 2 + 2 ^ 32 + (2 ^ 31 - 1) * 2 ^ 32)
      by (Z.div_mod_to_equations; lia).
    rewrite Z_mod_plus_full. apply Z.mod_small. Z.div_mod_to_equations. lia.
Qed.

Lemma header_sizes_int32 (S : list byte) :
  Forall (fun x => - 2 ^ 31 <= x < 2 ^ 31) (declared_sizes (header_of S)).
Proof.
  unfold declared_sizes, header_of, decode_HeaderInfo.
  cbn [ModiSubstreamSize SecContrSubstreamSize SectionMapSize FileInfoSize
       TypeServerSize OptionalDbgHdrSize ECSubstreamSize].
  repeat constructor; apply little32_range.
Qed.

(** The arithmetic of the lengths: seven signed sizes [x], read as the
    unsigned lengths [u] (the last one as [2 * cnt]), that fill a stream of
    a length below [2 ^ 32] exactly. *)
Lemma sane_sizes_arith (len x1 x2 x3 x4 x5 x6 o u1 u2 u3 u4 u5 u6 cnt : Z) :
  0 <= len < 2 ^ 32 ->
  (0 <= x1 /\ u1 = x1) \/ (x1 < 0 /\ u1 = x1 + 2 ^ 32) ->
  (0 <= x2 /\ u2 = x2) \/ (x2 < 0 /\ u2 = x2 + 2 ^ 32) ->
  (0 <= x3 /\ u3 = x3) \/ (x3 < 0 /\ u3 = x3 + 2 ^ 32) ->
  (0 <= x4 /\ u4 = x4) \/ (x4 < 0 /\ u4 = x4 + 2 ^ 32) ->
  (0 <= x5 /\ u5 = x5) \/ (x5 < 0 /\ u5 = x5 + 2 ^ 32) ->
  (0 <= x6 /\ u6 = x6) \/ (x6 < 0 /\ u6 = x6 + 2 ^ 32) ->
  (0 <= o /\ cnt = o / 2) \/ (o < 0 /\ cnt = o / 2 + 2 ^ 32) ->
  64 + u1 + u2 + u3 + u4 + u5 + u6 + cnt * 2 = len ->
  len = 64 + (x1 + x2 + x3 + x4 + x5 + o + x6) ->
  (0 <= x1 /\ 0 <= x2 /\ 0 <= x3 /\ 0 <= x4 /\ 0 <= x5 /\ 0 <= x6 /\ 0 <= o) /\
  o mod 2 = 0 /\ cnt = o / 2.
Proof.
  intros Hlen H1 H2 H3 H4 H5 H6 Ho Hend Hsum.
  assert (0 <= o) as Hopos.
  { destruct Ho as [[? ->]|[? ->]]; [done|]. exfalso.
    Z.div_mod_to_equations. lia. }
  destruct Ho as [[_ ->]|[? _]]; [|lia].
  assert (o / 2 * 2 <= o) by (Z.div_mod_to_equations; lia).
  assert (o <= o / 2 * 2 + 1) by (Z.div_mod_to_equations; lia).
  assert (0 <= x1 /\ 0 <= x2 /\ 0 <= x3 /\ 0 <= x4 /\ 0 <= x5 /\ 0 <= x6)
    as (? & ? & ? & ? & ? & ?) by lia.
  split; [lia|]. split; [|done].
  Z.div_mod_to_equations. lia.
Qed.

Lemma reload_Success_sizes (S : list byte) (D : DbiStream) :
  getLength S < 2 ^ 32 ->
  reload K Pdb load S = Success D ->
  Forall (fun x => 0 <= x) (declared_sizes (header_of S)) /\
  OptionalDbgHdrSize (header_of S) mod 2 = 0 /\
  DbgStreams_count (header_of S) = OptionalDbgHdrSize (header_of S) / 2 /\
  offset_end (header_of S) = getLength S /\
  getLength S = 64 + declared_sizes_sum (header_of S).
Proof.
  intros H32 Hrel.
  pose proof (reload_Success_stages S D Hrel) as (D1 & D2 & D3 & D4 & Hh & Hend & _).
  pose proof (reload_header_Success_inv K Pdb S _ _ Hh)
    as (Hlen & _ & _ & _ & Hsum & _).
  pose proof (declared_sizes_sum_range (slice 0 sizeof_HeaderInfo S)) as Hr.
  pose proof (header_sizes_int32 S) as Hint.
  clear Hh Hrel. fold (header_of S) in Hr.
  generalize dependent (header_of S). intros H Hend Hsum Hr Hint.
  apply length_check_exact in Hsum; [|unfold sizeof_HeaderInfo in *; lia | done].
  unfold declared_sizes in Hint.
  apply Forall_cons in Hint as [I1 Hint]. apply Forall_cons in Hint as [I2 Hint].
  apply Forall_cons in Hint as [I3 Hint]. apply Forall_cons in Hint as [I4 Hint].
  apply Forall_cons in Hint as [I5 Hint]. apply Forall_cons in Hint as [I6 Hint].
  apply Forall_cons in Hint as [I7 _].
  pose proof Hend as Hend'.
  unfold offset_end, offset_DbgStreams, offset_EC, offset_TypeServer,
    offset_FileInfo, offset_SecMap, offset_SecContr, sizeof_HeaderInfo in Hend'.
  pose proof (sane_sizes_arith (getLength S) _ _ _ _ _ _ _ _ _ _ _ _ _ _
    ltac:(unfold getLength in *; lia)
    (to_uint32_of_int32 _ I1) (to_uint32_of_int32 _ I2) (to_uint32_of_int32 _ I3)
    (to_uint32_of_int32 _ I4) (to_uint32_of_int32 _ I5) (to_uint32_of_int32 _ I7)
    (DbgStreams_count_of_int32 H I6) Hend' Hsum)
    as ((? & ? & ? & ? & ? & ? & ?) & Heven & Hcnt).
  split; [unfold declared_sizes; repeat constructor; done|].
  done.
Qed.

(** X3: [reload] succeeds only on a stream whose seven declared sizes
    are all non-negative and whose optional debug header has an even
    size.  A negative size passes for a length of more than 2 GB, which the
    bounds-checked reads of the segmentation refuse; an odd size leaves one
    byte behind the table of 16-bit entries, which the final check refuses.
    The reads then end exactly at the end of the stream. *)
Theorem X3_success_needs_sane_sizes (S : list byte) (D : DbiStream) :
  getLength S < 2 ^ 32 ->
  reload K Pdb load S = Success D ->
  Forall (fun x => 0 <= x) (declared_sizes (header_of S)) /\
  OptionalDbgHdrSize (header_of S) mod 2 = 0 /\
  DbgStreams_count (header_of S) = OptionalDbgHdrSize (header_of S) / 2 /\
  offset_end (header_of S) = getLength S /\
  getLength S = 64 + declared_sizes_sum (header_of S).
Proof. apply reload_Success_sizes. Qed.

End Success.

Lemma X3_success_needs_sane_sizes_witness :
  OptionalDbgHdrSize (header_of Sample.stream) mod 2 = 0 /\
  offset_end (header_of Sample.stream) = getLength Sample.stream.
Proof.
  destruct (X3_success_needs_sane_sizes Sample.K Sample.Pdb Sample.ECNames_load
              Sample.stream
              (Sample.state_of
                 (reload_before_FpoRecords Sample.K Sample.Pdb Sample.stream))
              ltac:(by vm_compute) ltac:(vm_compute; reflexivity))
    as (_ & Heven & _ & Hend & _).
  split; [exact Heven | exact Hend].
Defined.

(** ** Fixed arrays are exact tilings *)

Section Records.

Lemma records_concat (n sz : nat) (bs : list byte) :
  length bs = (n * sz)%nat -> concat (records n sz bs) = bs.
Proof.
  revert bs. induction n as [|n IH]; intros bs Hlen; cbn [records concat].
  - by destruct bs.
  - rewrite IH by (rewrite length_drop; lia). apply take_drop.
Qed.

Lemma records_sizes (n sz : nat) (bs : list byte) :
  (n * sz <= length bs)%nat -> Forall (fun r => length r = sz) (records n sz bs).
Proof.
  revert bs. induction n as [|n IH]; intros bs Hlen; cbn [records]; constructor.
  - rewrite length_take. lia.
  - apply IH. rewrite length_drop. lia.
Qed.

(** The records of a range whose length is a multiple of the record
    size. *)
Lemma records_exact (sz : Z) (bs : list byte) :
  0 < sz -> getLength bs mod sz = 0 ->
  let a := records (Z.to_nat (getLength bs / sz)) (Z.to_nat sz) bs in
  concat a = bs /\ Forall (fun r => getLength r = sz) a /\
  Z.of_nat (length a) = getLength bs / sz.
Proof.
  intros Hsz Hmod a. unfold getLength in *.
  assert (0 <= Z.of_nat (length bs) / sz) as Hq by (apply Z.div_pos; lia).
  assert (length bs = (Z.to_nat (Z.of_nat (length bs) / sz) * Z.to_nat sz)%nat) as Hlen.
  { pose proof (Z.div_mod (Z.of_nat (length bs)) sz ltac:(lia)) as Hdm.
    rewrite Hmod, Z.add_0_r in Hdm.
    apply Nat2Z.inj. rewrite Nat2Z.inj_mul, !Z2Nat.id by lia. lia. }
  split; [by apply records_concat|]. split.
  - eapply Forall_impl; [apply records_sizes; lia|].
    intros r Hr. cbn in Hr. rewrite Hr. lia.
  - subst a. rewrite records_length. lia.
Qed.

End Records.

(** ** The substreams tile the stream *)

Section Tiling.

Context (K : RawConstants) (Pdb : PDBFile) (load : NameHashTable_load).

Lemma drop_slice (S : list byte) (off n : Z) :
  0 <= off -> 0 <= n ->
  drop (Z.to_nat off) S = slice off n S ++ drop (Z.to_nat (off + n)) S.
Proof.
  intros Hoff Hn. unfold slice.
  rewrite Z2Nat.inj_add, <- drop_drop by done. by rewrite take_drop.
Qed.

Lemma getLength_slice (S : list byte) (off n : Z) :
  0 <= off -> 0 <= n -> off + n <= getLength S -> getLength (slice off n S) = n.
Proof.
  intros Hoff Hn Hfit. unfold getLength, slice in *.
  rewrite length_take, length_drop. lia.
Qed.

(** The seven ranges of the segmentation, one behind the other, make up
    the stream when the last one ends at its end. *)
Lemma segmented_tiles (H : HeaderInfo) (S : list byte) :
  offset_end H = getLength S ->
  let D0 := segmented K H S in
  S = take 64 S ++ ModInfo_region H S ++ SecContrSubstream D0 ++
      SecMapSubstream D0 ++ FileInfoSubstream D0 ++ TypeServerMapSubstream D0 ++
      ECSubstream D0 ++ slice (offset_DbgStreams H) (DbgStreams_count H * 2) S.
Proof.
  intros Hend D0.
  pose proof (to_uint32_nonneg (ModiSubstreamSize H)).
  pose proof (to_uint32_nonneg (SecContrSubstreamSize H)).
  pose proof (to_uint32_nonneg (SectionMapSize H)).
  pose proof (to_uint32_nonneg (FileInfoSize H)).
  pose proof (to_uint32_nonneg (TypeServerSize H)).
  pose proof (to_uint32_nonneg (ECSubstreamSize H)).
  pose proof (DbgStreams_count_nonneg H).
  subst D0. unfold segmented, ModInfo_region.
  cbn [SecContrSubstream SecMapSubstream FileInfoSubstream TypeServerMapSubstream
       ECSubstream set_DbgStreams set_ECSubstream set_TypeServerMapSubstream
       set_FileInfoSubstream set_SecMapSubstream set_SecContrSubstream
       set_ModuleInfos set_Header].
  unfold offset_end, offset_DbgStreams, offset_EC, offset_TypeServer,
    offset_FileInfo, offset_SecMap, offset_SecContr, sizeof_HeaderInfo in *.
  rewrite <- (take_drop 64 S) at 1. f_equal.
  change 64%nat with (Z.to_nat 64).
  rewrite (drop_slice S 64 (Int.to_uint32 (ModiSubstreamSize H))) by lia. f_equal.
  rewrite (drop_slice S _ (Int.to_uint32 (SecContrSubstreamSize H))) by lia. f_equal.
  rewrite (drop_slice S _ (Int.to_uint32 (SectionMapSize H))) by lia. f_equal.
  rewrite (drop_slice S _ (Int.to_uint32 (FileInfoSize H))) by lia. f_equal.
  rewrite (drop_slice S _ (Int.to_uint32 (TypeServerSize H))) by lia. f_equal.
  rewrite (drop_slice S _ (Int.to_uint32 (ECSubstreamSize H))) by lia. f_equal.
  rewrite (drop_slice S _ (DbgStreams_count H * 2)) by lia.
  rewrite Hend. unfold getLength. rewrite Nat2Z.id, drop_all, app_nil_r. done.
Qed.

Lemma segmented_DbgStreams (H : HeaderInfo) (S : list byte) :
  DbgStreams (segmented K H S) =
    ulittle16 <$> records (Z.to_nat (DbgStreams_count H)) (Z.to_nat 2)
                    (slice (offset_DbgStreams H) (DbgStreams_count H * 2) S).
Proof. done. Qed.

Lemma segmented_Header (H : HeaderInfo) (S : list byte) :
  Header (segmented K H S) = Some H.
Proof. done. Qed.

Lemma segmented_lengths (H : HeaderInfo) (S : list byte) :
  Forall (fun x => 0 <= x < 2 ^ 32) (declared_sizes H) ->
  DbgStreams_count H * 2 = OptionalDbgHdrSize H ->
  offset_end H = getLength S ->
  let D0 := segmented K H S in
  getLength (ModInfo_region H S) = ModiSubstreamSize H /\
  getLength (SecContrSubstream D0) = SecContrSubstreamSize H /\
  getLength (SecMapSubstream D0) = SectionMapSize H /\
  getLength (FileInfoSubstream D0) = FileInfoSize H /\
  getLength (TypeServerMapSubstream D0) = TypeServerSize H /\
  getLength (ECSubstream D0) = ECSubstreamSize H /\
  getLength (slice (offset_DbgStreams H) (DbgStreams_count H * 2) S) =
    OptionalDbgHdrSize H.
Proof.
  intros Hsz Hcnt Hend D0. unfold declared_sizes in Hsz.
  apply Forall_cons in Hsz as [I1 Hsz]. apply Forall_cons in Hsz as [I2 Hsz].
  apply Forall_cons in Hsz as [I3 Hsz]. apply Forall_cons in Hsz as [I4 Hsz].
  apply Forall_cons in Hsz as [I5 Hsz]. apply Forall_cons in Hsz as [I6 Hsz].
  apply Forall_cons in Hsz as [I7 _].
  subst D0. unfold segmented, ModInfo_region.
  cbn [SecContrSubstream SecMapSubstream FileInfoSubstream TypeServerMapSubstream
       ECSubstream set_DbgStreams set_ECSubstream set_TypeServerMapSubstream
       set_FileInfoSubstream set_SecMapSubstream set_SecContrSubstream
       set_ModuleInfos set_Header].
  unfold offset_end, offset_DbgStreams, offset_EC, offset_TypeServer,
    offset_FileInfo, offset_SecMap, offset_SecContr, sizeof_HeaderInfo in *.
  unfold Int.to_uint32 in *.
  rewrite (Z.mod_small (ModiSubstreamSize H)) in * by done.
  rewrite (Z.mod_small (SecContrSubstreamSize H)) in * by done.
  rewrite (Z.mod_small (SectionMapSize H)) in * by done.
  rewrite (Z.mod_small (FileInfoSize H)) in * by done.
  rewrite (Z.mod_small (TypeServerSize H)) in * by done.
  rewrite (Z.mod_small (ECSubstreamSize H)) in * by done.
  rewrite Hcnt in *.
  repeat split; apply getLength_slice; lia.
Qed.

(** X4: after a successful [reload] the stream is exactly its 64-byte
    header, the module-info region, the five substreams that the decoder
    keeps (section contributions, section map, file info, type server
    map, EC names) and the debug-stream-index table, in this order,
    without a gap and without an overlap; each part has the length that the
    header declares, and the table holds the 16-bit entries of its bytes. *)
Theorem X4_substreams_tile_the_stream (S : list byte) (D : DbiStream) :
  getLength S < 2 ^ 32 ->
  reload K Pdb load S = Success D ->
  let H := header_of S in
  exists table,
    S = take 64 S ++ ModInfo_region H S ++ SecContrSubstream D ++
        SecMapSubstream D ++ FileInfoSubstream D ++ TypeServerMapSubstream D ++
        ECSubstream D ++ table /\
    getLength (ModInfo_region H S) = ModiSubstreamSize H /\
    getLength (SecContrSubstream D) = SecContrSubstreamSize H /\
    getLength (SecMapSubstream D) = SectionMapSize H /\
    getLength (FileInfoSubstream D) = FileInfoSize H /\
    getLength (TypeServerMapSubstream D) = TypeServerSize H /\
    getLength (ECSubstream D) = ECSubstreamSize H /\
    getLength table = OptionalDbgHdrSize H /\
    DbgStreams D =
      ulittle16 <$> records (Z.to_nat (OptionalDbgHdrSize H / 2)) (Z.to_nat 2) table.
Proof.
  intros H32 Hrel H.
  pose proof (reload_Success_sizes K Pdb load S D H32 Hrel)
    as (Hnn & Heven & Hcnt & Hend & Hsum).
  pose proof (reload_Success_segments K Pdb load S D Hrel)
    as (_ & E1 & E2 & E3 & E4 & E5 & E6).
  pose proof (header_sizes_int32 S) as Hint.
  fold H in Hnn, Heven, Hcnt, Hend, Hsum, Hint, E1, E2, E3, E4, E5, E6.
  clearbody H. clear Hrel.
  assert (Forall (fun x => 0 <= x < 2 ^ 32) (declared_sizes H)) as Hsz.
  { revert Hnn Hint. unfold declared_sizes. rewrite !Forall_cons.
    intros (? & ? & ? & ? & ? & ? & ? & _) (? & ? & ? & ? & ? & ? & ? & _).
    repeat split; try apply Forall_nil; lia. }
  assert (DbgStreams_count H * 2 = OptionalDbgHdrSize H) as Hcnt2.
  { rewrite Hcnt. revert Heven. generalize (OptionalDbgHdrSize H). intros o Ho.
    Z.div_mod_to_equations. lia. }
  pose proof (segmented_tiles H S Hend) as Htile.
  pose proof (segmented_lengths H S Hsz Hcnt2 Hend) as (L0 & L1 & L2 & L3 & L4 & L5 & L6).
  cbn zeta in Htile.
  rewrite <- E1, <- E2, <- E3, <- E4, <- E5 in Htile.
  rewrite <- E1 in L1. rewrite <- E2 in L2. rewrite <- E3 in L3.
  rewrite <- E4 in L4. rewrite <- E5 in L5.
  exists (slice (offset_DbgStreams H) (DbgStreams_count H * 2) S).
  split; [exact Htile|].
  split; [exact L0|]. split; [exact L1|]. split; [exact L2|]. split; [exact L3|].
  split; [exact L4|]. split; [exact L5|]. split; [exact L6|].
  rewrite E6, segmented_DbgStreams, Hcnt. done.
Qed.

(** X5: after a successful [reload] the header accessors are defined
    and consistent with the checks: the age is the age of the Info
    stream, the version is at least [PdbDbiV70], and the index accessors
    return the fields of the header of the stream. *)
Theorem X5_accessors_after_reload (S : list byte) (D : DbiStream) :
  reload K Pdb load S = Success D ->
  Header D = Some (header_of S) /\
  (exists IS, getPDBInfoStream Pdb = inr IS /\
              Accessor.getAge D = Some (getAge IS)) /\
  (exists v, Accessor.getDbiVersion D = Some v /\ PdbDbiV70 K <= v) /\
  Accessor.getPublicSymbolStreamIndex D =
    Some (ulittle16 (drop 16 S)) /\
  Accessor.getGlobalSymbolStreamIndex D =
    Some (ulittle16 (drop 12 S)) /\
  Accessor.getSymRecordStreamIndex D =
    Some (ulittle16 (drop 20 S)) /\
  Accessor.getMachineType D = Some (ulittle16 (drop 58 S)).
Proof.
  intros Hrel.
  pose proof (reload_Success_stages K Pdb load S D Hrel)
    as (D1 & D2 & D3 & D4 & Hh & _).
  pose proof (reload_header_Success_inv K Pdb S _ _ Hh)
    as (Hlen & _ & Hver & (IS & HIS & Hage) & _).
  pose proof (reload_Success_segments K Pdb load S D Hrel) as (EH & _).
  rewrite segmented_Header in EH.
  assert (forall off k : nat, (off + k <= 64)%nat ->
            take k (drop off (slice 0 sizeof_HeaderInfo S)) = take k (drop off S))
    as Hfield.
  { intros off k Hk. unfold slice, sizeof_HeaderInfo. cbn [Z.to_nat drop].
    change (Pos.to_nat 64) with 64%nat.
    apply list_eq. intros i.
    rewrite !lookup_take, !lookup_drop, lookup_take.
    repeat case_decide; done || lia. }
  unfold Accessor.getAge, Accessor.getDbiVersion,
    Accessor.getPublicSymbolStreamIndex, Accessor.getGlobalSymbolStreamIndex,
    Accessor.getSymRecordStreamIndex, Accessor.getMachineType.
  rewrite EH. cbn [fmap option_fmap option_map].
  split; [done|]. split; [exists IS; by rewrite Hage|].
  split; [by eexists|].
  unfold header_of, decode_HeaderInfo, ulittle16.
  cbn [PublicSymbolStreamIndex GlobalSymbolStreamIndex SymRecordStreamIndex
       MachineType].
  rewrite !Hfield by lia. done.
Qed.

End Tiling.

Lemma X4_substreams_tile_the_stream_witness :
  exists table,
    Sample.stream =
      take 64 Sample.stream ++ Sample.modi ++ Sample.sc60 ++ Sample.sm ++
      Sample.fi ++ [] ++ [] ++ table /\
    table = Sample.dbg.
Proof.
  destruct (X4_substreams_tile_the_stream Sample.K Sample.Pdb Sample.ECNames_load
              Sample.stream
              (Sample.state_of
                 (reload_before_FpoRecords Sample.K Sample.Pdb Sample.stream))
              ltac:(by vm_compute) ltac:(vm_compute; reflexivity))
    as (table & Htile & _).
  exists table. split; [exact Htile|].
  apply (f_equal (drop 272)) in Htile. vm_compute in Htile. 
  symmetry. exact Htile.
Defined.

Lemma X5_accessors_after_reload_witness :
  Accessor.getAge
    (Sample.state_of (reload_before_FpoRecords Sample.K Sample.Pdb Sample.stream)) =
  Some 1.
Proof.
  destruct (X5_accessors_after_reload Sample.K Sample.Pdb Sample.ECNames_load
              Sample.stream
              (Sample.state_of
                 (reload_before_FpoRecords Sample.K Sample.Pdb Sample.stream))
              ltac:(vm_compute; reflexivity))
    as (_ & (IS & HIS & Hage) & _).
  injection HIS as <-. exact Hage.
Defined.

(** ** Section headers, section map and the visitor *)

Section Decoders.

Context (K : RawConstants) (Pdb : PDBFile) (load : NameHashTable_load).

(** What [initializeSectionHeadersData] does with the entry of the
    table. *)
Lemma initializeSectionHeadersData_entry (D : DbiStream) (StreamNum : Z) :
  DbgStreams D !! Z.to_nat (DbgHeaderType_value K SectionHdr) = Some StreamNum ->
  initializeSectionHeadersData K Pdb D =
    if decide (StreamNum >= getNumStreams Pdb) then Failure (RawError no_stream "")
    else
      SHS ← liftE (createIndexedStream Pdb StreamNum);
      if decide (getLength SHS mod sizeof_coff_section K <> 0) then
        Failure (RawError corrupt_file "Corrupted section header stream.")
      else
        match readArray (StreamReader.mk SHS 0)
                (Int.to_uint32 (getLength SHS / sizeof_coff_section K))
                (sizeof_coff_section K) with
        | Success (a, _) =>
            Success (set_SectionHeaderStream (Some SHS) (set_SectionHeaders a D))
        | Failure _ => Failure (RawError corrupt_file "Could not read a bitmap.")
        | OutOfBounds => OutOfBounds
        end.
Proof.
  intros Hentry. unfold initializeSectionHeadersData, getDebugStreamIndex.
  by rewrite Hentry.
Qed.

(** X6: the section headers are mandatory.  With the entry of the
    debug-stream-index table for the section-header kind at hand,
    [initializeSectionHeadersData] fails with NoSuchStream when the entry
    is not below the number of streams (the all-ones sentinel gets no
    other treatment), returns the error of the stream directory as it
    is, fails with CorruptFile when the length of the stream is not a
    multiple of the size of a section header, and otherwise keeps the
    stream and cuts all of it into headers of that size; the error of a
    failed array read is never produced. *)
Theorem X6_section_headers_are_mandatory (D : DbiStream) (StreamNum : Z) :
  0 < sizeof_coff_section K ->
  DbgStreams D !! Z.to_nat (DbgHeaderType_value K SectionHdr) = Some StreamNum ->
  let r := initializeSectionHeadersData K Pdb D in
  (StreamNum >= getNumStreams Pdb -> r = Failure (RawError no_stream "")) /\
  (StreamNum = InvalidStreamIndex -> getNumStreams Pdb <= InvalidStreamIndex ->
     r = Failure (RawError no_stream "")) /\
  (StreamNum < getNumStreams Pdb ->
     (forall e, createIndexedStream Pdb StreamNum = inl e -> r = Failure e) /\
     (forall SHS, createIndexedStream Pdb StreamNum = inr SHS ->
        getLength SHS < 2 ^ 32 ->
        (getLength SHS mod sizeof_coff_section K <> 0 ->
           r = Failure (RawError corrupt_file "Corrupted section header stream.")) /\
        (getLength SHS mod sizeof_coff_section K = 0 ->
           exists D', r = Success D' /\
             SectionHeaderStream D' = Some SHS /\
             concat (SectionHeaders D') = SHS /\
             Forall (fun h => getLength h = sizeof_coff_section K)
                    (SectionHeaders D') /\
             Z.of_nat (length (SectionHeaders D')) =
               getLength SHS / sizeof_coff_section K))).
Proof.
  intros Hsz Hentry r. subst r.
  rewrite (initializeSectionHeadersData_entry D StreamNum Hentry).
  split; [|split; [|split]].
  - intros Hge. by rewrite decide_True.
  - intros -> Hle. rewrite decide_True by lia. done.
  - intros e He. rewrite decide_False, He by lia. done.
  - intros SHS HS H32. rewrite decide_False, HS by lia.
    cbn [liftE mbind Result_bind]. split.
    + intros Hmod. by rewrite decide_True.
    + intros Hmod. rewrite decide_False by (intros Hne; by apply Hne).
      rewrite readArray_all by done.
      destruct (records_exact (sizeof_coff_section K) SHS Hsz Hmod) as (Hc & Hf & Hl).
      eexists. split; [reflexivity|]. done.
Qed.

(** What a successful [initializeSectionHeadersData] has found. *)
Lemma initializeSectionHeadersData_Success (D D' : DbiStream) :
  initializeSectionHeadersData K Pdb D = Success D' ->
  exists n SHS,
    DbgStreams D !! Z.to_nat (DbgHeaderType_value K SectionHdr) = Some n /\
    n < getNumStreams Pdb /\
    createIndexedStream Pdb n = inr SHS /\
    getLength SHS mod sizeof_coff_section K = 0 /\
    SectionHeaderStream D' = Some SHS.
Proof.
  unfold initializeSectionHeadersData, getDebugStreamIndex.
  destruct (DbgStreams D !! _) as [n|] eqn:Hn; [|done]. cbn [mbind Result_bind].
  case_decide as Hlt; [done|].
  intros (SHS & HS%liftE_Success & Hk)%bind_Success.
  case_decide as Hmod; [done|].
  destruct (readArray _ _ _) as [[a R]| |]; [|done..].
  injection Hk as <-. exists n, SHS. repeat split; try done. lia.
Qed.

Lemma initializeFpoRecords_Success (D D' : DbiStream) :
  initializeFpoRecords K Pdb D = Success D' ->
  exists m,
    DbgStreams D !! Z.to_nat (DbgHeaderType_value K NewFPO) = Some m /\
    (m = InvalidStreamIndex \/ m < getNumStreams Pdb).
Proof.
  unfold initializeFpoRecords, getDebugStreamIndex.
  destruct (DbgStreams D !! _) as [m|] eqn:Hm; [|done]. cbn [mbind Result_bind].
  case_decide as Hs; [intros _; exists m; by split; [|left]|].
  case_decide as Hlt; [done|]. intros _. exists m. split; [done|]. right. lia.
Qed.

(** X14: [reload] succeeds only when the optional debug header is large
    enough to hold the entries of both kinds that [reload] looks up, when
    the entry for the section headers is the number of a stream of the
    directory whose length is a multiple of the size of a section header,
    and when the entry for the new FPO records is the sentinel or the
    number of a stream of the directory. *)
Theorem X14_success_needs_both_table_entries (S : list byte) (D : DbiStream) :
  getLength S < 2 ^ 32 ->
  (forall T, 0 <= DbgHeaderType_value K T) ->
  reload K Pdb load S = Success D ->
  (forall T, 2 * (DbgHeaderType_value K T + 1) <=
             OptionalDbgHdrSize (header_of S)) /\
  (exists n SHS,
     DbgStreams D !! Z.to_nat (DbgHeaderType_value K SectionHdr) = Some n /\
     n < getNumStreams Pdb /\
     createIndexedStream Pdb n = inr SHS /\
     getLength SHS mod sizeof_coff_section K = 0) /\
  (exists m,
     DbgStreams D !! Z.to_nat (DbgHeaderType_value K NewFPO) = Some m /\
     (m = InvalidStreamIndex \/ m < getNumStreams Pdb)).
Proof.
  intros H32 Hkind Hrel.
  pose proof (reload_Success_sizes K Pdb load S D H32 Hrel)
    as (_ & Heven & Hcnt & _).
  pose proof (reload_Success_segments K Pdb load S D Hrel)
    as (_ & _ & _ & _ & _ & _ & EDbg).
  pose proof (reload_Success_stages K Pdb load S D Hrel)
    as (D1 & D2 & D3 & D4 & _ & _ & H1 & H2 & H3 & H4 & H5 & _).
  pose proof (segmented_DbgStreams_length K (header_of S) S) as Hlen.
  rewrite <- EDbg, Hcnt in Hlen.
  apply initializeSectionContributionData_segments in H1 as (_ & _ & _ & _ & _ & _ & E1).
  pose proof (initializeSectionHeadersData_Success D1 D2 H2)
    as (n & SHS & Hn & Hlt & HS & Hmod & _).
  apply initializeSectionHeadersData_segments in H2 as (_ & _ & _ & _ & _ & _ & E2).
  apply initializeSectionMapData_segments in H3 as (_ & _ & _ & _ & _ & _ & E3).
  apply initializeFileInfo_segments in H4 as (_ & _ & _ & _ & _ & _ & E4).
  pose proof (initializeFpoRecords_Success D4 D H5) as (m & Hm & Hmr).
  apply initializeFpoRecords_segments in H5 as (_ & _ & _ & _ & _ & _ & E5).
  assert (DbgStreams D1 = DbgStreams D) as ED1 by congruence.
  assert (DbgStreams D4 = DbgStreams D) as ED4 by congruence.
  rewrite ED1 in Hn. rewrite ED4 in Hm.
  clear EDbg E1 E2 E3 E4 E5 ED1 ED4 Hrel.
  revert Heven Hlen. generalize (OptionalDbgHdrSize (header_of S)). intros o Heven Hlen.
  split; [|split; [by exists n, SHS|by exists m]].
  assert (forall T v, DbgStreams D !! Z.to_nat (DbgHeaderType_value K T) = Some v ->
            2 * (DbgHeaderType_value K T + 1) <= o) as Hcover.
  { intros T v Hv. apply lookup_lt_Some in Hv. pose proof (Hkind T).
    Z.div_mod_to_equations. lia. }
  intros []; eauto.
Qed.

(** X10: the section map is read as a header followed by as many entries
    as the first 16-bit field of the header says, and nothing checks what
    follows the entries: a substream with bytes behind the last entry
    decodes to the same map. *)
Theorem X10_section_map_ignores_trailing_bytes
    (D D1 : DbiStream) (s extra : list byte) :
  initializeSectionMapData K (set_SecMapSubstream s D) = Success D1 ->
  Z.of_nat (length (SectionMap D1)) =
    ulittle16 (slice 0 (sizeof_SecMapHeader K) s) /\
  sizeof_SecMapHeader K +
    ulittle16 (slice 0 (sizeof_SecMapHeader K) s) * sizeof_SecMapEntry K
    <= getLength s /\
  initializeSectionMapData K (set_SecMapSubstream (s ++ extra) D) =
    Success (set_SecMapSubstream (s ++ extra) D1).
Proof.
  intros Hinit.
  pose proof (ulittle16_range (slice 0 (sizeof_SecMapHeader K) s)) as Hc.
  assert (0 <= getLength extra) as He by (unfold getLength; lia).
  unfold initializeSectionMapData, readObject, readArray in Hinit.
  cbn [SecMapSubstream set_SecMapSubstream] in Hinit.
  rewrite readBytes_eq in Hinit.
  case_decide as Hh; [|done]. cbn [mbind Result_bind] in Hinit.
  rewrite readBytes_eq in Hinit.
  case_decide as Hn; [|done]. cbn [mbind Result_bind mret Result_ret] in Hinit.
  injection Hinit as <-. cbn [SectionMap set_SectionMap].
  split; [rewrite records_length; lia|]. split; [lia|].
  unfold initializeSectionMapData, readObject, readArray.
  cbn [SecMapSubstream set_SecMapSubstream].
  rewrite readBytes_eq, getLength_app, decide_True by lia.
  cbn [mbind Result_bind].
  assert (slice 0 (sizeof_SecMapHeader K) (s ++ extra) =
          slice 0 (sizeof_SecMapHeader K) s) as ->.
  { unfold slice, getLength in *. change (Z.to_nat 0) with 0%nat in *.
    rewrite !drop_0 in *. apply take_app_le. lia. }
  rewrite readBytes_eq, getLength_app, decide_True by lia.
  cbn [mbind Result_bind mret Result_ret].
  assert (slice (0 + sizeof_SecMapHeader K)
            (ulittle16 (slice 0 (sizeof_SecMapHeader K) s) * sizeof_SecMapEntry K)
            (s ++ extra) =
          slice (0 + sizeof_SecMapHeader K)
            (ulittle16 (slice 0 (sizeof_SecMapHeader K) s) * sizeof_SecMapEntry K) s)
    as ->.
  { unfold slice, getLength in *.
    rewrite drop_app_le by lia. apply take_app_le. rewrite length_drop. lia. }
  by destruct D.
Qed.

Lemma foldl_recording (f : list byte -> Contribution) (l : list (list byte))
    (trace : list Contribution) :
  foldl (fun Visitor SC => Visitor ++ [f SC]) trace l = trace ++ (f <$> l).
Proof.
  revert trace. induction l as [|SC l IH]; intros trace; cbn.
  - by rewrite app_nil_r.
  - rewrite IH, <- app_assoc. done.
Qed.

(** X11: after the section contributions have been decoded, a visitor
    is shown every record once, in the order of the substream, through
    the overload of the active layout only; the records shown are the
    bytes that follow the version tag, cut at the size of the layout.
    Records of the other layout, if the object holds some, are not
    shown. *)
Theorem X11_visitor_sees_the_decoded_records (D D' : DbiStream) :
  constants_ok K ->
  getLength (SecContrSubstream D) < 2 ^ 32 ->
  initializeSectionContributionData K D = Success D' ->
  let trace := visitSectionContributions K D' ([] : list Contribution) in
  concat (Contribution_bytes <$> trace) = drop 4 (SecContrSubstream D) /\
  ((SectionContribVersion D' = DbiSecContribVer60 K /\
    trace = Contrib <$> SectionContribs D' /\
    Forall (fun c => getLength (Contribution_bytes c) = sizeof_SectionContrib K) trace)
   \/
   (SectionContribVersion D' = DbiSecContribV2 K /\
    trace = Contrib2 <$> SectionContribs2 D' /\
    Forall (fun c => getLength (Contribution_bytes c) = sizeof_SectionContrib2 K) trace)).
Proof.
  intros (Hdiff & _ & _ & Hsz1 & Hsz2 & _) H32.
  unfold initializeSectionContributionData, readObject.
  rewrite readBytes_eq. case_decide as Hfit; [|done]. cbn [mbind Result_bind].
  set (t := take 4 (SecContrSubstream D)).
  set (rest := drop 4 (SecContrSubstream D)).
  assert (SecContrSubstream D = t ++ rest) as Hsplit by (symmetry; apply take_drop).
  assert (getLength t = 4) as Ht.
  { unfold t, getLength in *. rewrite length_take. lia. }
  assert (getLength rest < 2 ^ 32) as Hrest.
  { unfold rest, getLength in *. rewrite length_drop. lia. }
  replace (StreamReader.mk (SecContrSubstream D) (0 + 4))
    with (StreamReader.mk (t ++ rest) (getLength t)) by (by rewrite Hsplit, Ht).
  rewrite !loadSectionContribs_rest by done.
  cbn [SectionContribVersion set_SectionContribVersion].
  unfold visitSectionContributions.
  case_decide as H60.
  - case_decide as Hmod; [done|]. cbn [mbind Result_bind mret Result_ret].
    intros [= <-].
    cbn [SectionContribVersion SectionContribs set_SectionContribs
         set_SectionContribVersion].
    rewrite decide_True by done. cbn [visit recording_visitor].
    rewrite foldl_recording, app_nil_l.
    destruct (records_exact (sizeof_SectionContrib K) rest Hsz1 Hmod) as (Hc & Hf & _).
    split.
    + rewrite <- list_fmap_compose.
      rewrite (list_fmap_ext _ id _ (fun _ _ _ => eq_refl)), list_fmap_id.
      exact Hc.
    + left. split; [done|]. split; [done|]. by apply Forall_fmap.
  - case_decide as H2; [|done].
    case_decide as Hmod; [done|]. cbn [mbind Result_bind mret Result_ret].
    intros [= <-].
    cbn [SectionContribVersion SectionContribs2 set_SectionContribs2
         set_SectionContribVersion].
    rewrite decide_False, decide_True by done. cbn [visit2 recording_visitor].
    rewrite foldl_recording, app_nil_l.
    destruct (records_exact (sizeof_SectionContrib2 K) rest Hsz2 Hmod) as (Hc & Hf & _).
    split.
    + rewrite <- list_fmap_compose.
      rewrite (list_fmap_ext _ id _ (fun _ _ _ => eq_refl)), list_fmap_id.
      exact Hc.
    + right. split; [done|]. split; [done|]. by apply Forall_fmap.
Qed.

End Decoders.

Lemma X6_section_headers_are_mandatory_witness :
  exists D',
    initializeSectionHeadersData Sample.K Sample.Pdb
      (set_DbgStreams (replicate 5 InvalidStreamIndex ++ [5]) DbiStream_new) =
      Success D' /\
    concat (SectionHeaders D') = Sample.zeros 40.
Proof.
  destruct (X6_section_headers_are_mandatory Sample.K Sample.Pdb
              (set_DbgStreams (replicate 5 InvalidStreamIndex ++ [5]) DbiStream_new)
              5 ltac:(by vm_compute) ltac:(reflexivity))
    as (_ & _ & Hin).
  destruct (Hin ltac:(by vm_compute)) as (_ & Hok).
  destruct (Hok (Sample.zeros 40) ltac:(reflexivity) ltac:(by vm_compute))
    as (_ & Hcut).
  destruct (Hcut ltac:(reflexivity)) as (D' & Hr & _ & Hc & _).
  exists D'. split; [exact Hr | exact Hc].
Defined.

Lemma X14_success_needs_both_table_entries_witness :
  exists m,
    DbgStreams
      (Sample.state_of (reload_before_FpoRecords Sample.K Sample.Pdb Sample.stream))
      !! Z.to_nat (DbgHeaderType_value Sample.K NewFPO) = Some m /\
    (m = InvalidStreamIndex \/ m < getNumStreams Sample.Pdb).
Proof.
  destruct (X14_success_needs_both_table_entries Sample.K Sample.Pdb
              Sample.ECNames_load Sample.stream
              (Sample.state_of
                 (reload_before_FpoRecords Sample.K Sample.Pdb Sample.stream))
              ltac:(by vm_compute) ltac:(intros []; by vm_compute)
              ltac:(vm_compute; reflexivity))
    as (_ & _ & Hfpo).
  exact Hfpo.
Defined.

Lemma X10_section_map_ignores_trailing_bytes_witness :
  initializeSectionMapData Sample.K
    (set_SecMapSubstream
       ((put16 1 ++ put16 1 ++ Sample.zeros 20) ++ [Byte.x01; Byte.x02])
       DbiStream_new) =
  Success
    (set_SecMapSubstream
       ((put16 1 ++ put16 1 ++ Sample.zeros 20) ++ [Byte.x01; Byte.x02])
       (set_SectionMap [Sample.zeros 20]
          (set_SecMapSubstream (put16 1 ++ put16 1 ++ Sample.zeros 20)
             DbiStream_new))).
Proof.
  destruct (X10_section_map_ignores_trailing_bytes Sample.K DbiStream_new
              (set_SectionMap [Sample.zeros 20]
                 (set_SecMapSubstream (put16 1 ++ put16 1 ++ Sample.zeros 20)
                    DbiStream_new))
              (put16 1 ++ put16 1 ++ Sample.zeros 20) [Byte.x01; Byte.x02]
              ltac:(vm_compute; reflexivity))
    as (_ & _ & Hmore).
  exact Hmore.
Defined.

Lemma X11_visitor_sees_the_decoded_records_witness :
  concat (Contribution_bytes <$>
    visitSectionContributions Sample.K
      (set_SectionContribs2 [Sample.zeros 32; Sample.zeros 32]
         (set_SectionContribVersion (DbiSecContribV2 Sample.K)
            (set_SecContrSubstream Sample.sc2 DbiStream_new)))
      ([] : list Contribution)) =
  drop 4 Sample.sc2.
Proof.
  destruct (X11_visitor_sees_the_decoded_records Sample.K
              (set_SecContrSubstream Sample.sc2 DbiStream_new)
              (set_SectionContribs2 [Sample.zeros 32; Sample.zeros 32]
                 (set_SectionContribVersion (DbiSecContribV2 Sample.K)
                    (set_SecContrSubstream Sample.sc2 DbiStream_new)))
              Sample_K_ok ltac:(by vm_compute) ltac:(vm_compute; reflexivity))
    as (Hall & _).
  exact Hall.
Defined.

(** ** The file-info substream *)

Section FileInfo.

Lemma value_or_corrupt_bind {A B} (m : Result A) (f : A -> Result B) :
  value_or_corrupt m ->
  (forall a, m = Success a -> value_or_corrupt (f a)) ->
  value_or_corrupt (m ≫= f).
Proof. destruct m; cbn; auto. Qed.

Lemma mapM_value_or_corrupt {A B} (f : A -> Result B) (l : list A) :
  Forall (fun x => value_or_corrupt (f x)) l -> value_or_corrupt (mapM f l).
Proof.
  induction 1 as [|x l Hx Hl IH]; cbn; [done|].
  apply value_or_corrupt_bind; [done|]. intros y _.
  apply value_or_corrupt_bind; [done|]. by intros k _.
Qed.

(** Below the number of offsets, [getFileNameForIndex] can only fail
    in the names buffer. *)
Lemma getFileNameForIndex_value_or_corrupt (D : DbiStream) (Index : Z) :
  0 <= Index < Z.of_nat (length (FileNameOffsets D)) ->
  value_or_corrupt (getFileNameForIndex D Index).
Proof.
  intros Hi. unfold getFileNameForIndex. rewrite decide_False by lia.
  destruct (lookup_lt_is_Some_2 (FileNameOffsets D) (Z.to_nat Index) ltac:(lia))
    as [o Ho].
  rewrite Ho. unfold readZeroString, setOffset. cbn [Offset Stream].
  case_decide; [|by cbn].
  destruct (zero_string _); by cbn.
Qed.

Lemma sum_counts_bounds (counts : list Z) :
  Forall (fun c => 0 <= c <= 65535) counts ->
  0 <= foldr Z.add 0 counts <= 65535 * Z.of_nat (length counts).
Proof.
  induction 1 as [|c l Hc Hall IH]; cbn [foldr length]; [lia|].
  rewrite Nat2Z.inj_succ. lia.
Qed.

Lemma sum_counts_nonneg (counts : list Z) :
  Forall (fun c => 0 <= c) counts -> 0 <= foldr Z.add 0 counts.
Proof. induction 1; cbn [foldr]; lia. Qed.

Lemma mapM_Result_app {A B} (f : A -> Result B) (l1 l2 : list A) :
  mapM f (l1 ++ l2) = k1 ← mapM f l1; k2 ← mapM f l2; mret (k1 ++ k2).
Proof.
  induction l1 as [|x l1 IH]; cbn [app mapM mbind Result_bind mret Result_ret].
  - by destruct (mapM f l2).
  - destruct (f x); [|done..]. cbn [mbind Result_bind]. rewrite IH.
    destruct (mapM f l1); [|done..]. cbn [mbind Result_bind mret Result_ret].
    by destruct (mapM f l2).
Qed.

(** What a successful association has done: every module has as many
    names as its count says, and the names of all the modules, one module
    behind the other, are the names at the cursor and the positions that
    follow it. *)
Lemma spec_association_Success (resolve : Z -> Result (list byte))
    (mods : list ModuleInfoEx) (counts : list Z) (cursor : Z)
    (ms : list ModuleInfoEx) :
  Forall (fun c => 0 <= c) counts ->
  length mods = length counts ->
  spec_association resolve mods counts cursor = Success ms ->
  (fun M => Z.of_nat (length (SourceFiles M))) <$> ms = counts /\
  mapM resolve (seqZ cursor (foldr Z.add 0 counts)) =
    Success (concat (SourceFiles <$> ms)).
Proof.
  revert counts cursor ms.
  induction mods as [|M mods IH]; intros [|c counts] cursor ms Hall Hlen;
    try done.
  - cbn. by intros [= <-].
  - cbn [spec_association].
    intros (names & Hnames & Hk)%bind_Success.
    apply bind_Success in Hk as (rest & Hrest & Hk).
    cbn [mret Result_ret] in Hk. injection Hk as <-.
    apply Forall_cons in Hall as [Hc Hall].
    apply IH in Hrest as (Hl & Hm); [|done|cbn in Hlen; lia].
    cbn [fmap list_fmap concat foldr SourceFiles set_SourceFiles]. split.
    + f_equal; [|done]. apply mapM_Result_length in Hnames.
      rewrite Hnames, length_seqZ. lia.
    + rewrite seqZ_app by (done || by apply sum_counts_nonneg).
      rewrite mapM_Result_app, Hnames. cbn [mbind Result_bind].
      change (foldr Z.add 0 counts) with (foldr Z.add 0 counts) in Hm.
      rewrite Hm. done.
Qed.

(** The association never leaves the table of offsets when the table
    has an entry for every counted file. *)
Lemma spec_association_value_or_corrupt (D : DbiStream) (mods : list ModuleInfoEx)
    (counts : list Z) (cursor : Z) :
  0 <= cursor ->
  Forall (fun c => 0 <= c) counts ->
  (length mods <= length counts)%nat ->
  cursor + foldr Z.add 0 counts <= Z.of_nat (length (FileNameOffsets D)) ->
  value_or_corrupt (spec_association (getFileNameForIndex D) mods counts cursor).
Proof.
  revert counts cursor.
  induction mods as [|M mods IH]; intros counts cursor Hc Hall Hlen Hsum; [done|].
  destruct Hall as [|c counts Hc0 Hall]; [cbn in Hlen; lia|].
  cbn [spec_association]. cbn [foldr length] in *.
  pose proof (sum_counts_nonneg counts Hall) as Hnn.
  apply value_or_corrupt_bind.
  { apply mapM_value_or_corrupt, Forall_forall. intros x Hx%elem_of_seqZ.
    apply getFileNameForIndex_value_or_corrupt. lia. }
  intros names _. apply value_or_corrupt_bind; [apply IH; done || lia|].
  by intros rest _.
Qed.

Lemma ModFileCounts_of_range (n : Z) (FI : list byte) :
  Forall (fun c => 0 <= c <= 65535) (ModFileCounts_of n FI).
Proof.
  unfold ModFileCounts_of. apply Forall_fmap, Forall_forall. intros bs _.
  cbn. pose proof (ulittle16_range bs). lia.
Qed.

Lemma ModFileCounts_of_length (n : Z) (FI : list byte) :
  length (ModFileCounts_of n FI) = Z.to_nat n.
Proof. unfold ModFileCounts_of. by rewrite length_fmap, records_length. Qed.

(** [initializeFileInfo] in one piece: the three arrays are read with
    the lengths that the number of modules and the sum of the counts
    give, the names are the rest of the substream, and the loops are the
    association of the modules with the counts. *)
Lemma initializeFileInfo_eq (D : DbiStream) :
  let FI := FileInfoSubstream D in
  let n := Z.of_nat (length (ModuleInfos D)) in
  let counts := ModFileCounts_of n FI in
  let N := foldr Z.add 0 counts in
  let off := sizeof_FileInfoSubstreamHeader + n * 2 + n * 2 in
  let D1 := set_NamesBuffer (drop (Z.to_nat (off + N * 4)) FI)
              (set_FileNameOffsets
                 (ulittle32 <$> records (Z.to_nat N) (Z.to_nat 4)
                                  (slice off (N * 4) FI)) D) in
  initializeFileInfo D =
    if decide (sizeof_FileInfoSubstreamHeader <= getLength FI) then
      if decide (ulittle16 (slice 0 sizeof_FileInfoSubstreamHeader FI) <> n) then
        Failure (RawError corrupt_file "FileInfo substream count doesn't match DBI.")
      else if decide (off + N * 4 <= getLength FI) then
        ms ← spec_association (getFileNameForIndex D1) (ModuleInfos D) counts 0;
        mret (set_ModuleInfos ms D1)
      else Failure truncated
    else Failure truncated.
Proof.
  intros FI n counts N off D1.
  assert (0 <= n) as Hn by (unfold n; lia).
  pose proof (ModFileCounts_of_range n FI) as Hrange. fold counts in Hrange.
  pose proof (ModFileCounts_of_length n FI) as Hlen. fold counts in Hlen.
  pose proof (sum_counts_bounds counts Hrange) as HN. fold N in HN.
  unfold initializeFileInfo, readObject, readArray, readStreamRefRest, readStreamRef.
  fold FI. rewrite readBytes_eq.
  destruct (decide (sizeof_FileInfoSubstreamHeader <= getLength FI)) as [H4|H4];
    [|rewrite decide_False by lia; done].
  rewrite decide_True by (unfold sizeof_FileInfoSubstreamHeader in *; lia).
  cbn [mbind Result_bind]. fold n.
  destruct (decide (ulittle16 (slice 0 sizeof_FileInfoSubstreamHeader FI) <> n))
    as [Hne|Heq]; [done|].
  assert (n < 2 ^ 16) as Hn16.
  { pose proof (ulittle16_range (slice 0 sizeof_FileInfoSubstreamHeader FI)).
    destruct (decide (ulittle16 (slice 0 sizeof_FileInfoSubstreamHeader FI) = n)); lia. }
  assert (Int.to_uint32 n = n) as -> by (apply Z.mod_small; lia).
  assert (0 + sizeof_FileInfoSubstreamHeader = sizeof_FileInfoSubstreamHeader)
    as -> by lia.
  assert (0 <= getLength FI) as HFI by (unfold getLength; lia).
  rewrite readBytes_eq.
  destruct (decide (0 <= n * 2 <= getLength FI - sizeof_FileInfoSubstreamHeader))
    as [H1|H1]; [|rewrite decide_False by (unfold off; lia); done].
  cbn [mbind Result_bind mret Result_ret].
  rewrite readBytes_eq.
  destruct (decide (0 <= n * 2 <=
                    getLength FI - (sizeof_FileInfoSubstreamHeader + n * 2)))
    as [H2|H2]; [|rewrite decide_False by (unfold off; lia); done].
  cbn [mbind Result_bind mret Result_ret].
  change (ulittle16 <$> records (Z.to_nat n) (Z.to_nat 2)
            (slice (sizeof_FileInfoSubstreamHeader + n * 2) (n * 2) FI))
    with counts.
  assert (sum_ModFileCounts counts = N) as ->.
  { unfold sum_ModFileCounts. rewrite foldl_uint32_add by (done || lia). done. }
  fold off.
  rewrite readBytes_eq.
  destruct (decide (0 <= N * 4 <= getLength FI - off)) as [H3|H3];
    [|rewrite decide_False by lia; done].
  rewrite decide_True by lia.
  cbn [mbind Result_bind mret Result_ret].
  unfold bytesRemaining. cbn [Stream Offset].
  rewrite readBytes_eq, decide_True by lia.
  cbn [mbind Result_bind mret Result_ret].
  assert (slice (off + N * 4) (getLength FI - (off + N * 4)) FI =
          drop (Z.to_nat (off + N * 4)) FI) as ->.
  { unfold slice. apply take_ge. rewrite length_drop. unfold getLength. lia. }
  fold D1.
  rewrite associate_SourceFiles_spec.
  - by rewrite !drop_0.
  - unfold D1. cbn [FileNameOffsets set_NamesBuffer set_FileNameOffsets].
    rewrite length_fmap, records_length. lia.
  - eapply Forall_impl; [exact Hrange|]. cbn. lia.
  - done.
  - done.
Qed.

(** What a successful [initializeFileInfo] has read. *)
Lemma initializeFileInfo_Success_inv (D D' : DbiStream) :
  initializeFileInfo D = Success D' ->
  let FI := FileInfoSubstream D in
  let n := Z.of_nat (length (ModuleInfos D)) in
  let counts := ModFileCounts_of n FI in
  let N := foldr Z.add 0 counts in
  let off := sizeof_FileInfoSubstreamHeader + n * 2 + n * 2 in
  let D1 := set_NamesBuffer (drop (Z.to_nat (off + N * 4)) FI)
              (set_FileNameOffsets
                 (ulittle32 <$> records (Z.to_nat N) (Z.to_nat 4)
                                  (slice off (N * 4) FI)) D) in
  ulittle16 (slice 0 sizeof_FileInfoSubstreamHeader FI) = n /\
  0 <= N /\ off + N * 4 <= getLength FI /\
  exists ms,
    spec_association (getFileNameForIndex D1) (ModuleInfos D) counts 0 =
      Success ms /\
    D' = set_ModuleInfos ms D1.
Proof.
  rewrite initializeFileInfo_eq. intros Hinit FI n counts N off D1.
  fold FI n counts N off D1 in Hinit.
  pose proof (sum_counts_bounds counts (ModFileCounts_of_range n FI)) as HN.
  fold N in HN.
  case_decide as H4; [|done]. case_decide as Hnum; [done|].
  case_decide as Hfit; [|done].
  apply bind_Success in Hinit as (ms & Hms & Hk).
  cbn [mret Result_ret] in Hk. injection Hk as <-.
  split; [by destruct (decide (ulittle16 (slice 0 sizeof_FileInfoSubstreamHeader FI) = n))|].
  split; [lia|]. split; [done|]. by exists ms.
Qed.

(** X12: [initializeFileInfo] stays within its tables.  Whatever the
    file-info substream and the modules are, the loops never read a
    count or a module that is not there, and the cursor into the table of
    offsets stays below its size: no access is out of bounds and the
    IndexOutOfBounds error of [getFileNameForIndex] is never returned. *)
Theorem X12_file_info_stays_in_bounds (D : DbiStream) :
  initializeFileInfo D <> OutOfBounds /\
  (forall ctx, initializeFileInfo D <> Failure (RawError index_out_of_bounds ctx)).
Proof.
  assert (value_or_corrupt (initializeFileInfo D)) as Hv.
  { rewrite initializeFileInfo_eq.
    set (n := Z.of_nat (length (ModuleInfos D))).
    set (counts := ModFileCounts_of n (FileInfoSubstream D)).
    set (N := foldr Z.add 0 counts).
    set (D1 := set_NamesBuffer _ _).
    pose proof (ModFileCounts_of_range n (FileInfoSubstream D)) as Hrange.
    fold counts in Hrange.
    pose proof (ModFileCounts_of_length n (FileInfoSubstream D)) as Hlen.
    fold counts in Hlen.
    pose proof (sum_counts_bounds counts Hrange) as HN. fold N in HN.
    repeat case_decide; try done.
    apply value_or_corrupt_bind; [|by intros ms _].
    apply spec_association_value_or_corrupt.
    - done.
    - eapply Forall_impl; [exact Hrange|]. cbn. lia.
    - rewrite Hlen. unfold n. lia.
    - unfold D1. cbn [FileNameOffsets set_NamesBuffer set_FileNameOffsets].
      rewrite length_fmap, records_length. lia. }
  destruct (initializeFileInfo D) as [a|e|]; cbn in Hv; [done| |done].
  split; [done|]. intros ctx [= ->]. done.
Qed.

(** X13: every entry of the table of offsets is resolved exactly once.
    After a successful [initializeFileInfo] each module has as many file
    names as its count in the substream says, the table of offsets has as
    many entries as the counts sum up to, and the file names of all the
    modules, one module behind the other, are the names that
    [getFileNameForIndex] gives for the indices 0, 1, ... of the table in
    this order. *)
Theorem X13_every_offset_is_resolved_once (D D' : DbiStream) :
  initializeFileInfo D = Success D' ->
  let counts :=
    ModFileCounts_of (Z.of_nat (length (ModuleInfos D))) (FileInfoSubstream D) in
  (fun M => Z.of_nat (length (SourceFiles M))) <$> ModuleInfos D' = counts /\
  Z.of_nat (length (FileNameOffsets D')) = foldr Z.add 0 counts /\
  mapM (getFileNameForIndex D')
       (seqZ 0 (Z.of_nat (length (FileNameOffsets D')))) =
    Success (concat (SourceFiles <$> ModuleInfos D')).
Proof.
  intros Hinit counts.
  pose proof (initializeFileInfo_Success_inv D D' Hinit)
    as (_ & HN & _ & ms & Hms & ->).
  fold counts in HN, Hms |- *.
  pose proof (ModFileCounts_of_range (Z.of_nat (length (ModuleInfos D)))
                (FileInfoSubstream D)) as Hrange. fold counts in Hrange.
  pose proof (ModFileCounts_of_length (Z.of_nat (length (ModuleInfos D)))
                (FileInfoSubstream D)) as Hlen. fold counts in Hlen.
  apply spec_association_Success in Hms as (Hl & Hm).
  - cbn [ModuleInfos FileNameOffsets set_ModuleInfos set_NamesBuffer
         set_FileNameOffsets].
    rewrite length_fmap, records_length, Z2Nat.id by done.
    split; [done|]. split; [done|]. exact Hm.
  - eapply Forall_impl; [exact Hrange|]. cbn. lia.
  - rewrite Hlen. lia.
Qed.


End FileInfo.

Lemma X13_every_offset_is_resolved_once_witness :
  mapM (getFileNameForIndex
          (match initializeFileInfo Sample.two_modules with
           | Success D' => D'
           | _ => DbiStream_new
           end))
       (seqZ 0 2) =
  Success [Sample.bytes "a.c"; Sample.bytes "b.c"].
Proof.
  destruct (X13_every_offset_is_resolved_once Sample.two_modules
              (match initializeFileInfo Sample.two_modules with
               | Success D' => D'
               | _ => DbiStream_new
               end)
              ltac:(vm_compute; reflexivity))
    as (_ & _ & Hall).
  exact Hall.
Defined.


(** ** The end of [reload] *)

Section Finish.

Context (K : RawConstants) (Pdb : PDBFile) (load : NameHashTable_load).

(** The arithmetic of what is left: seven signed sizes [x], read as the
    unsigned lengths [u] (the last one as [2 * cnt]), in a stream of a
    length below [2 ^ 32] that is 64 plus their sum. *)
Lemma read_sizes_arith (len x1 x2 x3 x4 x5 x6 o u1 u2 u3 u4 u5 u6 cnt : Z) :
  0 <= len < 2 ^ 32 ->
  (0 <= x1 /\ u1 = x1) \/ (x1 < 0 /\ u1 = x1 + 2 ^ 32) ->
  (0 <= x2 /\ u2 = x2) \/ (x2 < 0 /\ u2 = x2 + 2 ^ 32) ->
  (0 <= x3 /\ u3 = x3) \/ (x3 < 0 /\ u3 = x3 + 2 ^ 32) ->
  (0 <= x4 /\ u4 = x4) \/ (x4 < 0 /\ u4 = x4 + 2 ^ 32) ->
  (0 <= x5 /\ u5 = x5) \/ (x5 < 0 /\ u5 = x5 + 2 ^ 32) ->
  (0 <= x6 /\ u6 = x6) \/ (x6 < 0 /\ u6 = x6 + 2 ^ 32) ->
  (0 <= o /\ cnt = o / 2) \/ (o < 0 /\ cnt = o / 2 + 2 ^ 32) ->
  64 + u1 + u2 + u3 + u4 + u5 + u6 + cnt * 2 <= len ->
  len = 64 + (x1 + x2 + x3 + x4 + x5 + o + x6) ->
  len - (64 + u1 + u2 + u3 + u4 + u5 + u6 + cnt * 2) = o mod 2.
Proof.
  intros Hlen H1 H2 H3 H4 H5 H6 Ho Hend Hsum.
  assert (x1 <= u1) by lia. assert (x2 <= u2) by lia. assert (x3 <= u3) by lia.
  assert (x4 <= u4) by lia. assert (x5 <= u5) by lia. assert (x6 <= u6) by lia.
  assert (0 <= o) as Hopos.
  { destruct Ho as [[? ->]|[? ->]]; [done|]. exfalso.
    Z.div_mod_to_equations. lia. }
  destruct Ho as [[_ ->]|[? _]]; [|lia].
  assert (o / 2 * 2 <= o) by (Z.div_mod_to_equations; lia).
  assert (o <= o / 2 * 2 + 1) by (Z.div_mod_to_equations; lia).
  assert (0 <= x1 /\ 0 <= x2 /\ 0 <= x3 /\ 0 <= x4 /\ 0 <= x5 /\ 0 <= x6)
    as (? & ? & ? & ? & ? & ?) by lia.
  Z.div_mod_to_equations. lia.
Qed.

(** What the reads of [reload] leave of a stream that passed the checks
    of the header. *)
Lemma reload_read_leftover (S : list byte) (D0 : DbiStream) (R : StreamReader) :
  getLength S < 2 ^ 32 ->
  reload_read K Pdb S = Success (D0, R) ->
  bytesRemaining R = OptionalDbgHdrSize (header_of S) mod 2.
Proof.
  intros H32 Hrd.
  pose proof (reload_read_header K Pdb S D0 R Hrd) as Hh.
  apply reload_read_Success in Hrd as (_ & -> & Hfit).
  pose proof (reload_header_Success_inv K Pdb S _ _ Hh)
    as (Hlen & _ & _ & _ & Hsum & _).
  pose proof (declared_sizes_sum_range (slice 0 sizeof_HeaderInfo S)) as Hr.
  pose proof (header_sizes_int32 S) as Hint.
  unfold bytesRemaining. cbn [StreamReader.Stream StreamReader.Offset].
  clear Hh. fold (header_of S) in Hr.
  generalize dependent (header_of S). intros H Hfit Hsum Hr Hint.
  apply length_check_exact in Hsum; [|unfold sizeof_HeaderInfo in *; lia | done].
  unfold declared_sizes in Hint.
  apply Forall_cons in Hint as [I1 Hint]. apply Forall_cons in Hint as [I2 Hint].
  apply Forall_cons in Hint as [I3 Hint]. apply Forall_cons in Hint as [I4 Hint].
  apply Forall_cons in Hint as [I5 Hint]. apply Forall_cons in Hint as [I6 Hint].
  apply Forall_cons in Hint as [I7 _].
  unfold offset_end, offset_DbgStreams, offset_EC, offset_TypeServer,
    offset_FileInfo, offset_SecMap, offset_SecContr, sizeof_HeaderInfo in *.
  apply (read_sizes_arith (getLength S) _ _ _ _ _ _ _ _ _ _ _ _ _ _
    ltac:(unfold getLength in *; lia)
    (to_uint32_of_int32 _ I1) (to_uint32_of_int32 _ I2) (to_uint32_of_int32 _ I3)
    (to_uint32_of_int32 _ I4) (to_uint32_of_int32 _ I5) (to_uint32_of_int32 _ I7)
    (DbgStreams_count_of_int32 H I6)).
  - lia.
  - unfold declared_sizes_sum in Hsum. lia.
Qed.

(** X16: what the check for unexpected bytes can find.  In a stream
    whose length fits 32 bits and that passed the checks of the header,
    the reads of [reload] leave as many bytes as the size of the optional
    debug header is odd: none or one, the byte that is no half of an
    entry of the table.  So once the five decoders have succeeded,
    [reload] reports unexpected bytes exactly when that size is odd, and
    otherwise returns what the loader of the EC names returns. *)
Theorem X16_unexpected_bytes_is_the_odd_byte (S : list byte) (D0 : DbiStream)
    (R : StreamReader) :
  getLength S < 2 ^ 32 ->
  reload_read K Pdb S = Success (D0, R) ->
  bytesRemaining R = OptionalDbgHdrSize (header_of S) mod 2 /\
  forall D, reload_initialize K Pdb D0 = Success D ->
    reload K Pdb load S =
      if decide (OptionalDbgHdrSize (header_of S) mod 2 = 0)
      then match load (ECSubstream D) with
           | inl e => Failure e
           | inr _ => Success D
           end
      else Failure (RawError corrupt_file "Found unexpected bytes in DBI Stream.").
Proof.
  intros H32 Hrd.
  pose proof (reload_read_leftover S D0 R H32 Hrd) as Hleft.
  split; [exact Hleft|]. intros D Hinit.
  rewrite reload_staged_read, Hrd. cbn [mbind Result_bind].
  rewrite Hinit. cbn [mbind Result_bind].
  unfold reload_finish. rewrite Hleft.
  generalize (OptionalDbgHdrSize (header_of S)). intros o.
  assert (o mod 2 = 0 \/ o mod 2 = 1) as [->| ->]
    by (Z.div_mod_to_equations; lia).
  - rewrite decide_False, decide_True by lia.
    by destruct (load (ECSubstream D)) as [e|[]].
  - by rewrite decide_True, decide_False by lia.
Qed.

End Finish.

Lemma X16_unexpected_bytes_is_the_odd_byte_witness :
  reload Sample.K Sample.Pdb Sample.ECNames_load
    (Sample.stream_of 19990903 1 Sample.modi Sample.sc60 Sample.sm Sample.fi
       [] [] (Sample.dbg ++ [Byte.x00])) =
  Failure (RawError corrupt_file "Found unexpected bytes in DBI Stream.").
Proof.
  destruct (X16_unexpected_bytes_is_the_odd_byte Sample.K Sample.Pdb
              Sample.ECNames_load
              (Sample.stream_of 19990903 1 Sample.modi Sample.sc60 Sample.sm
                 Sample.fi [] [] (Sample.dbg ++ [Byte.x00]))
              (Sample.state_of (reload_read Sample.K Sample.Pdb
                 (Sample.stream_of 19990903 1 Sample.modi Sample.sc60 Sample.sm
                    Sample.fi [] [] (Sample.dbg ++ [Byte.x00]))))
              (Sample.reader_of (reload_read Sample.K Sample.Pdb
                 (Sample.stream_of 19990903 1 Sample.modi Sample.sc60 Sample.sm
                    Sample.fi [] [] (Sample.dbg ++ [Byte.x00]))))
              ltac:(by vm_compute) ltac:(vm_compute; reflexivity))
    as (_ & Hrel).
  refine (eq_trans
            (Hrel (Sample.state_of (reload_before_FpoRecords Sample.K Sample.Pdb
                     (Sample.stream_of 19990903 1 Sample.modi Sample.sc60
                        Sample.sm Sample.fi [] [] (Sample.dbg ++ [Byte.x00]))))
                  _) _).
  - vm_compute. reflexivity.
  - vm_compute. reflexivity.
Defined.

(** ** Failures before and after a check

    The module count, the FPO entry and the alignment of the substreams
    are looked at in the middle of [reload]: the checks that come before
    them and the ones that come after decide the result as well. *)

(** A [NumModules] field that differs from the number of iterated
    records does not by itself make [reload] fail with a CorruptFile
    error.  In the stream
    [mismatch_unknown_tag] the module-info region holds two records and
    the field says 3, but the section contributions are decoded before
    the file info, and their unknown version makes [reload] fail with an
    UnsupportedFeature error. *)
Lemma C5_mismatch_counterexample :
  let S := Early.mismatch_unknown_tag in
  length (VarStreamArray_records Sample.K (ModInfo_region (header_of S) S)) = 2%nat /\
  ulittle16 (slice (offset_FileInfo (header_of S))
                   (Int.to_uint32 (FileInfoSize (header_of S))) S) = 3 /\
  reload Sample.K Sample.Pdb Sample.ECNames_load S =
    Failure (RawError feature_unsupported
               "Unsupported DBI Section Contribution version") /\
  ~ (exists e, reload Sample.K Sample.Pdb Sample.ECNames_load S = Failure e /\
               error_code e = corrupt_file).
Proof.
  assert (reload Sample.K Sample.Pdb Sample.ECNames_load Early.mismatch_unknown_tag =
            Failure (RawError feature_unsupported
                       "Unsupported DBI Section Contribution version")) as Hrel
    by (vm_compute; reflexivity).
  cbn zeta. split; [by vm_compute|]. split; [by vm_compute|]. split; [exact Hrel|].
  intros (e & He & Hcode). rewrite Hrel in He. injection He as <-. discriminate.
Qed.

(** The sentinel at the entry of the new FPO kind does not by itself
    make [reload] succeed.  The
    sample stream has the sentinel there and [reload] fails when the
    loader of the EC names fails; the stream [odd_table] has the sentinel
    there, passes all the decoders, the one of the FPO records with an
    empty table, and [reload] fails on the byte that is left. *)
Lemma C6_sentinel_counterexample :
  (DbgStreams (segmented Sample.K (header_of Sample.stream) Sample.stream)
     !! Z.to_nat (DbgHeaderType_value Sample.K NewFPO) = Some InvalidStreamIndex /\
   reload Sample.K Sample.Pdb Early.failing_load Sample.stream =
     Failure (RawError corrupt_file "Invalid hash table.")) /\
  (DbgStreams (segmented Sample.K (header_of Early.odd_table) Early.odd_table)
     !! Z.to_nat (DbgHeaderType_value Sample.K NewFPO) = Some InvalidStreamIndex /\
   (exists D R,
      reload_before_FpoRecords Sample.K Sample.Pdb Early.odd_table = Success (D, R) /\
      initializeFpoRecords Sample.K Sample.Pdb D = Success D /\
      FpoRecords D = []) /\
   reload Sample.K Sample.Pdb Sample.ECNames_load Early.odd_table =
     Failure (RawError corrupt_file "Found unexpected bytes in DBI Stream.")).
Proof.
  split; [split; [by vm_compute|vm_compute; reflexivity]|].
  split; [by vm_compute|]. split; [|vm_compute; reflexivity].
  eexists _, _. split; [vm_compute; reflexivity|].
  split; [vm_compute; reflexivity|by vm_compute].
Qed.

(** A size that is no multiple of 4 does not by itself make [reload]
    fail with the message that names the substream.  The file-info size of both streams is 29; the stream
    [misaligned_old_version] fails the check of the version, with an
    UnsupportedFeature error, and the stream [misaligned_too_long] fails
    the check of the length, with a message that names no substream. *)
Lemma C8_earlier_check_counterexample :
  (size_of FileInfo (header_of Early.misaligned_old_version) mod 4 <> 0 /\
   reload Sample.K Sample.Pdb Sample.ECNames_load Early.misaligned_old_version =
     Failure (RawError feature_unsupported "Unsupported DBI version.")) /\
  (size_of FileInfo (header_of Early.misaligned_too_long) mod 4 <> 0 /\
   reload Sample.K Sample.Pdb Sample.ECNames_load Early.misaligned_too_long =
     Failure (RawError corrupt_file "DBI Length does not equal sum of substreams.") /\
   forall X, not_aligned_message X <> "DBI Length does not equal sum of substreams.").
Proof.
  split; [split; [by vm_compute|vm_compute; reflexivity]|].
  split; [by vm_compute|]. split; [vm_compute; reflexivity|].
  by intros [].
Qed.
